(** * MiniOS image tools: a shallow embedding of [tools/create_image.py]
    and [tools/create_iso.py], and the properties of the images they build.

    Python values are modelled as follows.
    - [bytes] objects are [list byte]; [len] is [blen], an integer of [Z];
      [b'\x00' * n] is [zeros n] (empty when [n <= 0], as in Python).
    - [int] is [Z]; [%] with a positive divisor is [Z.modulo], [//] is [Z.div].
    - [str] is [string]; a path is the string the program passes around.
    - The file system is a finite map from paths to nodes.  The node of a
      file opened for writing holds what the program has written: [f.write]
      appends to it and [f.tell()] is its length.  What another reader sees
      of that file before it is closed is what has left the buffer, a prefix
      the host chooses.  A write that the host refuses raises at its
      [f.write]; Python, which buffers, may raise it at a later write or
      when the file is closed, inside the same [with] and the same [try].
      A path that is absent can be created only in a directory: its
      parent, the last of the directories above it, must be one.
    - Exceptions, [sys.exit] and a child process that never returns are the
      three ways a computation of the monad [M] stops early.
    - What the host decides (child processes, I/O errors such as a full disk
      or a missing permission and how much of a refused write reached the
      file, the name of the temporary directory) is a record of oracles,
      [host], fixed for a run.
    - Two paths name the same file when they are the same string: links,
      [.] and [..] and the current directory are not modelled. *)

From Stdlib Require Import ZArith List Lia Bool Ascii String.
From Stdlib Require Import Init.Byte Strings.HexString.
From stdpp Require Import base gmap strings list pretty.

Local Open Scope Z_scope.

(** ** Bytes and sizes *)

Definition blen (data : list byte) : Z := Z.of_nat (length data).

(** [b'\x00' * n] *)
Definition zeros (n : Z) : list byte := replicate (Z.to_nat n) x00.

(** [data[i]] for [0 <= i], [None] out of range. *)
Definition byte_at (data : list byte) (i : Z) : option byte :=
  if i <? 0 then None else data !! Z.to_nat i.

Definition MiB : Z := 1024 * 1024.

(** ** Exceptions *)

Inductive exn : Type :=
| FileNotFoundError (path : string)
| IsADirectoryError (path : string)
| NotADirectoryError (path : string)
| FileExistsError (path : string)
| OSError (msg : string)
| UnicodeDecodeError (msg : string)
| TimeoutExpired (cmd : list string) (timeout : Z)
| SystemExit (code : Z).

(** [except FileNotFoundError] *)
Definition is_FileNotFoundError (e : exn) : bool :=
  match e with FileNotFoundError _ => true | _ => false end.

(** [except IOError]: in Python 3 [IOError] is [OSError], the base class of
    the file-system errors. *)
Definition is_IOError (e : exn) : bool :=
  match e with
  | FileNotFoundError _ | IsADirectoryError _ | NotADirectoryError _
  | FileExistsError _ | OSError _ => true
  | UnicodeDecodeError _ | TimeoutExpired _ _ | SystemExit _ => false
  end.

(** [except Exception]: everything but [SystemExit]. *)
Definition is_Exception (e : exn) : bool :=
  match e with SystemExit _ => false | _ => true end.

(** [repr(s)] of a string of printable characters: single quotes, or
    double quotes when the string has a single quote and no double quote;
    the quote in use and the backslash are escaped. *)
Fixpoint repr_body (q : ascii) (s : string) : string :=
  match s with
  | EmptyString => EmptyString
  | String c s' =>
      if Ascii.eqb c q || Ascii.eqb c (ascii_of_nat 92)
      then String (ascii_of_nat 92) (String c (repr_body q s'))
      else String c (repr_body q s')
  end.

Definition has_char (c : ascii) (s : string) : bool :=
  existsb (Ascii.eqb c) (String.list_ascii_of_string s).

Definition py_repr (s : string) : string :=
  let q := if has_char (ascii_of_nat 39) s && negb (has_char (ascii_of_nat 34) s)
           then ascii_of_nat 34 else ascii_of_nat 39 in
  String q (repr_body q s) +:+ String q EmptyString.

(** The text of [{e}] in a message, [str(e)]: for the file-system errors
    the error number, its message and the path; for an error of the host
    the host's text. *)
Definition exn_str (e : exn) : string :=
  match e with
  | FileNotFoundError p =>
      "[Errno 2] No such file or directory: " +:+ py_repr p
  | IsADirectoryError p => "[Errno 21] Is a directory: " +:+ py_repr p
  | NotADirectoryError p => "[Errno 20] Not a directory: " +:+ py_repr p
  | FileExistsError p => "[Errno 17] File exists: " +:+ py_repr p
  | OSError m => m
  | UnicodeDecodeError m => m
  | TimeoutExpired c tm =>
      "Command '[" +:+ String.concat ", " (map py_repr c)
      +:+ "]' timed out after " +:+ pretty tm +:+ " seconds"
  | SystemExit c => pretty c
  end.

(** ** The file system, the process state and the host *)

Inductive node : Type :=
| File (data : list byte)
| Dir.

(** One call of [subprocess.run] as the run's log keeps it: its keyword
    arguments, the [returncode] of the [CompletedProcess] it returned
    ([None] when the call raised, also after the child had exited, or never
    returned), and whether the call never returned. *)
Record run_call : Type := RunCall {
  rc_args : list string;
  rc_capture_output : bool;
  rc_text : bool;
  rc_timeout : option Z;
  rc_status : option Z;
  rc_blocked : bool
}.

Record state : Type := State {
  fs : gmap string node;
  stdout : list string;
  calls : list run_call
}.

Definition set_fs (f : gmap string node) (s : state) : state :=
  {| fs := f; stdout := stdout s; calls := calls s |}.

(** What a child process does: it returns with a status, its error text and
    the file system it leaves; it returns with a status and an output that
    is not valid text ([msg] is the decoder's complaint); it cannot be
    started; or it never returns. *)
Inductive proc_result : Type :=
| Completed (returncode : Z) (stderr : string) (fs' : gmap string node)
| Undecodable (returncode : Z) (msg : string) (fs' : gmap string node)
| Fails (msg : string)
| Hangs.

Inductive io_op : Type :=
| OpOpenWrite (path : string)
| OpWrite (path : string) (pos len : Z)
| OpMkdir (path : string).

(** [io_fault] is the error of an operation, if the host refuses it;
    [partial_write path pos len] is how many of the [len] bytes of a
    refused write at [pos] reached the file before the error;
    [flushed path n] is how many of the [n] bytes written so far to a file
    that is still open have left its buffer. *)
Record host : Type := Host {
  proc : list string -> gmap string node -> proc_result;
  io_fault : io_op -> option string;
  partial_write : string -> Z -> Z -> Z;
  flushed : string -> Z -> Z;
  mkdtemp_name : string
}.

(** ** The monad of the programs *)

Inductive outcome (A : Type) : Type :=
| Ret (a : A)
| Raise (e : exn)
| Blocked.
Arguments Ret {A} a.
Arguments Raise {A} e.
Arguments Blocked {A}.

Definition M (A : Type) : Type := state -> outcome A * state.

Definition ret {A} (a : A) : M A := fun s => (Ret a, s).

Definition bind {A B} (m : M A) (k : A -> M B) : M B := fun s =>
  match m s with
  | (Ret a, s') => k a s'
  | (Raise e, s') => (Raise e, s')
  | (Blocked, s') => (Blocked, s')
  end.

Definition raise {A} (e : exn) : M A := fun s => (Raise e, s).

(** [try: body  except <class> as e: handler e] *)
Definition try_except {A} (body : M A) (catches : exn -> bool)
    (handler : exn -> M A) : M A := fun s =>
  match body s with
  | (Raise e, s') => if catches e then handler e s' else (Raise e, s')
  | r => r
  end.

Declare Scope py_scope.
Delimit Scope py_scope with py.
Notation "x <- m ;; k" := (bind m (fun x => k))
  (at level 100, m at next level, right associativity) : py_scope.
Notation "m ;; k" := (bind m (fun _ => k))
  (at level 100, right associativity) : py_scope.
Local Open Scope py_scope.

Definition print (line : string) : M unit := fun s =>
  (Ret tt, {| fs := fs s; stdout := stdout s ++ [line]; calls := calls s |}).

(** [sys.exit(code)] *)
Definition sys_exit {A} (code : Z) : M A := raise (SystemExit code).

Section Host.

Variable h : host.

(** *** Paths ([os.path]) *)

(** [s.startswith(pre)] *)
Fixpoint starts_with (pre s : string) : bool :=
  match pre, s with
  | EmptyString, _ => true
  | String c pre', String d s' =>
      if Ascii.eqb c d then starts_with pre' s' else false
  | String _ _, EmptyString => false
  end.

Definition is_slash (c : ascii) : bool := Ascii.eqb c "/".

(** [s.endswith('/')] *)
Definition ends_with_slash (s : string) : bool :=
  match reverse (String.list_ascii_of_string s) with
  | c :: _ => is_slash c
  | [] => false
  end.

(** [os.path.join(a, b)] *)
Definition path_join (a b : string) : string :=
  if starts_with "/" b then b
  else if bool_decide (a = "") || ends_with_slash a then a +:+ b
  else a +:+ "/" +:+ b.

Fixpoint drop_while {A} (p : A -> bool) (l : list A) : list A :=
  match l with
  | [] => []
  | x :: l' => if p x then drop_while p l' else l
  end.

Fixpoint take_while {A} (p : A -> bool) (l : list A) : list A :=
  match l with
  | [] => []
  | x :: l' => if p x then x :: take_while p l' else []
  end.

(** [os.path.split(p)]: the head is [p] up to its last slash, without its
    trailing slashes unless it is made of slashes only; the tail is the
    rest. *)
Definition path_split (p : string) : string * string :=
  let rev_p := reverse (String.list_ascii_of_string p) in
  let tail_rev := take_while (fun c => negb (is_slash c)) rev_p in
  let head_rev := drop_while (fun c => negb (is_slash c)) rev_p in
  let head_rev' :=
    if forallb is_slash head_rev then head_rev
    else drop_while is_slash head_rev in
  (String.string_of_list_ascii (reverse head_rev'),
   String.string_of_list_ascii (reverse tail_rev)).

(** [os.path.dirname(p)], [os.path.basename(p)] *)
Definition dirname (p : string) : string := fst (path_split p).
Definition basename (p : string) : string := snd (path_split p).

(** The directories above [rest], read after the prefix [acc]: each prefix
    that stops before a slash and is not empty and does not end in one. *)
Fixpoint ancestors_from (acc rest : string) : list string :=
  match rest with
  | EmptyString => []
  | String c rest' =>
      (if is_slash c && negb (bool_decide (acc = ""))
          && negb (ends_with_slash acc)
       then [acc] else [])
      ++ ancestors_from (acc +:+ String c EmptyString) rest'
  end.

Definition ancestors (path : string) : list string :=
  ancestors_from "" path.

(** [path] is [dir] or lies below it. *)
Definition in_tree (dir path : string) : bool :=
  bool_decide (path = dir) || starts_with (dir +:+ "/") path.

(** *** Files *)

Definition is_file (f : gmap string node) (path : string) : bool :=
  match f !! path with Some (File _) => true | _ => false end.

Definition is_dir (f : gmap string node) (path : string) : bool :=
  match f !! path with Some Dir => true | _ => false end.

(** The directory a path lies in: the last of the directories above it;
    none for a name in the current directory or in the root. *)
Definition parent (path : string) : option string := last (ancestors path).

(** Why nothing can be reached or created at a path where nothing is: its
    parent is a file, or is missing, below a file ([ENOTDIR]) or not
    ([ENOENT]). *)
Definition parent_error (f : gmap string node) (path : string) : option exn :=
  match parent path with
  | None => None
  | Some dir =>
      match f !! dir with
      | Some Dir => None
      | Some (File _) => Some (NotADirectoryError path)
      | None =>
          if existsb (is_file f) (ancestors path)
          then Some (NotADirectoryError path)
          else Some (FileNotFoundError path)
      end
  end.

(** The paths at which no file can be, whatever the files are: the empty
    path ([ENOENT]) and the root directory, a path of slashes only
    ([EISDIR]). *)
Definition no_file_path (path : string) : option exn :=
  if bool_decide (path = "") then Some (FileNotFoundError path)
  else if forallb is_slash (String.list_ascii_of_string path)
       then Some (IsADirectoryError path)
       else None.

(** Why no file can be opened at a path where nothing is. *)
Definition open_error (f : gmap string node) (path : string) : option exn :=
  match no_file_path path with
  | Some e => Some e
  | None => parent_error f path
  end.

(** [with open(path, 'rb') as f: f.read()] *)
Definition read_file (path : string) : M (list byte) := fun s =>
  match fs s !! path with
  | Some (File data) => (Ret data, s)
  | Some Dir => (Raise (IsADirectoryError path), s)
  | None =>
      match open_error (fs s) path with
      | Some e => (Raise e, s)
      | None => (Raise (FileNotFoundError path), s)
      end
  end.

(** [with open(path, 'rb') as g: g.read()] while the file at [f] is open
    for writing: of that file a reader sees what has left the buffer. *)
Definition read_beside (f path : string) : M (list byte) := fun s =>
  if bool_decide (path = f)
  then
    match fs s !! f with
    | Some (File cur) =>
        (Ret (take (Z.to_nat (flushed h f (blen cur))) cur), s)
    | _ => read_file path s
    end
  else read_file path s.

(** [open(path, 'wb')]: an existing file is truncated, a file that is
    missing is created in its directory.  A directory at [path], the root
    included, is [IsADirectoryError]; the empty path, and a parent that is
    missing, is [FileNotFoundError]; a parent that is a file is
    [NotADirectoryError]; any other refusal (a missing permission) is the
    host's. *)
Definition open_wb (path : string) : M unit := fun s =>
  let opened :=
    match io_fault h (OpOpenWrite path) with
    | Some msg => (Raise (OSError msg), s)
    | None => (Ret tt, set_fs (<[path := File []]> (fs s)) s)
    end in
  match fs s !! path with
  | Some Dir => (Raise (IsADirectoryError path), s)
  | Some (File _) => opened
  | None =>
      match open_error (fs s) path with
      | Some e => (Raise e, s)
      | None => opened
      end
  end.

(** [f.write(data)] on the file opened at [path]; the host may refuse the
    write (a full disk), and then the part of [data] that fitted is in the
    file when the error is raised. *)
Definition f_write (path : string) (data : list byte) : M unit := fun s =>
  match fs s !! path with
  | Some (File cur) =>
      match io_fault h (OpWrite path (blen cur) (blen data)) with
      | Some msg =>
          let n := partial_write h path (blen cur) (blen data) in
          (Raise (OSError msg),
           set_fs (<[path := File (cur ++ take (Z.to_nat n) data)]> (fs s)) s)
      | None => (Ret tt, set_fs (<[path := File (cur ++ data)]> (fs s)) s)
      end
  | _ => (Raise (OSError "closed file"), s)
  end.

(** [f.tell()] *)
Definition f_tell (path : string) : M Z := fun s =>
  match fs s !! path with
  | Some (File cur) => (Ret (blen cur), s)
  | _ => (Raise (OSError "closed file"), s)
  end.

(** [os.path.exists(path)] *)
Definition path_exists (path : string) : M bool := fun s =>
  (Ret (bool_decide (is_Some (fs s !! path))), s).

(** [os.path.isdir(path)] *)
Definition path_isdir (path : string) : M bool := fun s =>
  (Ret (is_dir (fs s) path), s).

(** *** Directories and copies ([os], [shutil], [tempfile]) *)

Definition mkdir_missing (path : string) (f : gmap string node)
    : gmap string node :=
  match f !! path with
  | None => <[path := Dir]> f
  | Some _ => f
  end.

(** [os.mkdir(name)] *)
Definition mkdir (name : string) : M unit := fun s =>
  match fs s !! name with
  | Some _ => (Raise (FileExistsError name), s)
  | None =>
      match parent_error (fs s) name with
      | Some e => (Raise e, s)
      | None =>
          match io_fault h (OpMkdir name) with
          | Some msg => (Raise (OSError msg), s)
          | None => (Ret tt, set_fs (<[name := Dir]> (fs s)) s)
          end
      end
  end.

(** The directories above a leaf, from the top: each one that does not
    exist is made. *)
Fixpoint makedirs_levels (levels : list string) : M unit :=
  match levels with
  | [] => ret tt
  | level :: rest =>
      found <- path_exists level;;
      (if negb found then mkdir level else ret tt);;
      makedirs_levels rest
  end.

(** [os.makedirs(name)]: the directories above [name] that are missing
    are made one level at a time, then [name] itself, which must not
    exist.  The first level that cannot be made raises its own error; the
    levels made before it stay. *)
Definition makedirs (name : string) : M unit :=
  makedirs_levels (ancestors name);;
  mkdir name.

(** [shutil.copy2(src, dst)]: into [dst], or into the file of [src]'s name
    inside [dst] when [dst] is a directory; a file is not copied onto
    itself ([shutil.SameFileError], an [OSError]). *)
Definition copy2 (src dst : string) : M unit :=
  dst_is_dir <- path_isdir dst;;
  let dst := if dst_is_dir : bool then path_join dst (basename src) else dst in
  if bool_decide (src = dst)
  then raise (OSError "SameFileError")
  else
    data <- read_file src;;
    open_wb dst;;
    f_write dst data.

(** [with open(path, 'w') as f: f.write(text)] *)
Definition write_text (path text : string) : M unit :=
  open_wb path;;
  f_write path (String.list_byte_of_string text).

(** [shutil.rmtree(dir)] as the context manager runs it on exit. *)
Definition rmtree (dir : string) (f : gmap string node) : gmap string node :=
  filter (fun kv => in_tree dir kv.1 = false) f.

(** [with tempfile.TemporaryDirectory() as temp_dir: body temp_dir].  The
    host proposes the name; a name that is taken is [mkdtemp]'s
    [FileExistsError].  The tree is removed when the body returns or
    raises. *)
Definition with_TemporaryDirectory {A} (body : string -> M A) : M A :=
  fun s =>
  let temp_dir := mkdtemp_name h in
  match fs s !! temp_dir with
  | Some _ => (Raise (FileExistsError temp_dir), s)
  | None =>
      match body temp_dir (set_fs (<[temp_dir := Dir]> (fs s)) s) with
      | (Blocked, s') => (Blocked, s')
      | (r, s') => (r, set_fs (rmtree temp_dir (fs s')) s')
      end
  end.

(** [os.path.getsize(path)]; a directory reports the size of its entry. *)
Definition getsize (path : string) : M Z := fun s =>
  match fs s !! path with
  | Some (File data) => (Ret (blen data), s)
  | Some Dir => (Ret 4096, s)
  | None => (Raise (FileNotFoundError path), s)
  end.

(** *** create_image.py *)

(** [f"0x{n:08x}"] *)
Definition hex08 (n : Z) : string :=
  let digits := match n with
                | Zpos p => HexString.Raw.of_pos p ""
                | _ => "0"
                end in
  "0x" +:+ String.string_of_list_ascii
             (replicate (8 - String.length digits)%nat "0"%char)
       +:+ digits.

(** Lines 40-61, the body of [with open(output_path, 'wb') as f].  The two
    positions the source keeps in [kernel_offset] and [final_size] are
    returned. *)
Definition write_arm64_image (f : string)
    (bootloader_data kernel_data : list byte) : M (Z * Z) :=
  f_write f bootloader_data;;
  let current_size := blen bootloader_data in
  let padding_needed := (1024 * 1024) - (current_size mod (1024 * 1024)) in
  (if padding_needed <? 1024 * 1024
   then f_write f (zeros padding_needed) else ret tt);;
  kernel_offset <- f_tell f;;
  f_write f kernel_data;;
  print ("  Kernel offset: " +:+ hex08 kernel_offset);;
  current_size <- f_tell f;;
  let min_size := 16 * 1024 * 1024 in
  (if current_size <? min_size
   then f_write f (zeros (min_size - current_size)) else ret tt);;
  final_size <- f_tell f;;
  print ("  Final image size: " +:+ pretty final_size +:+ " bytes ("
         +:+ pretty (final_size / (1024 * 1024)) +:+ " MB)");;
  ret (kernel_offset, final_size).

Definition create_arm64_image
    (kernel_path bootloader_path output_path : string) : M bool :=
  print ("Creating ARM64 image: " +:+ output_path);;
  print ("  Kernel: " +:+ kernel_path);;
  print ("  Bootloader: " +:+ bootloader_path);;
  kernel <- try_except
    (kernel_data <- read_file kernel_path;;
     print ("  Kernel size: " +:+ pretty (blen kernel_data) +:+ " bytes");;
     ret (Some kernel_data))
    is_FileNotFoundError
    (fun _ => print ("Error: Kernel file not found: " +:+ kernel_path);;
              ret None);;
  match kernel with
  | None => ret false
  | Some kernel_data =>
  bootloader <- try_except
    (bootloader_data <- read_file bootloader_path;;
     print ("  Bootloader size: " +:+ pretty (blen bootloader_data)
            +:+ " bytes");;
     ret (Some bootloader_data))
    is_FileNotFoundError
    (fun _ => print ("Error: Bootloader file not found: "
                     +:+ bootloader_path);;
              ret None);;
  match bootloader with
  | None => ret false
  | Some bootloader_data =>
  try_except
    (open_wb output_path;;
     write_arm64_image output_path bootloader_data kernel_data;;
     ret true)
    is_IOError
    (fun e => print ("Error creating image: " +:+ exn_str e);;
              ret false)
  end
  end.

Definition create_x86_64_image
    (kernel_path bootloader_path output_path : string) : M bool :=
  print ("Creating x86-64 image: " +:+ output_path);;
  print "  Note: Use create_iso.py for bootable ISO";;
  create_arm64_image kernel_path bootloader_path output_path.

(** *** Child processes ([subprocess]) *)

Record completed_process : Type := CompletedProcess {
  returncode : Z;
  stderr : string
}.

(** [subprocess.run(args, capture_output=.., text=.., timeout=..)].  The
    call blocks until the child returns; with a timeout a child that does
    not return is killed and [TimeoutExpired] is raised.  In text mode the
    captured output is decoded after the child has returned, and an output
    that is not valid text raises [UnicodeDecodeError]. *)
Definition subprocess_run (args : list string)
    (capture_output text : bool) (timeout : option Z)
    : M completed_process := fun s =>
  let logged status blocked f :=
    {| fs := f; stdout := stdout s;
       calls := calls s
                ++ [RunCall args capture_output text timeout status
                      blocked] |} in
  match proc h args (fs s) with
  | Completed rc err fs' =>
      (Ret (CompletedProcess rc err), logged (Some rc) false fs')
  | Undecodable rc msg fs' =>
      if capture_output && text
      then (Raise (UnicodeDecodeError msg), logged None false fs')
      else (Ret (CompletedProcess rc ""), logged (Some rc) false fs')
  | Fails msg => (Raise (OSError msg), logged None false (fs s))
  | Hangs =>
      match timeout with
      | None => (Blocked, logged None true (fs s))
      | Some tm =>
          (Raise (TimeoutExpired args tm), logged None false (fs s))
      end
  end.

(** *** create_image.py, [main] *)

Inductive arch : Type := arm64 | x86_64.

Definition arch_str (a : arch) : string :=
  match a with arm64 => "arm64" | x86_64 => "x86_64" end.

Record image_args : Type := ImageArgs {
  ia_arch : arch;
  ia_kernel : string;
  ia_bootloader : string;
  ia_output : string;
  ia_verbose : bool
}.

(** ["=" * 40] *)
Definition rule40 : string :=
  String.string_of_list_ascii (replicate 40%nat "="%char).

(** [for file_path in paths: if not os.path.exists(file_path): ...] *)
Fixpoint validate_inputs (paths : list string) : M unit :=
  match paths with
  | [] => ret tt
  | file_path :: rest =>
      found <- path_exists file_path;;
      if negb found
      then print ("Error: File not found: " +:+ file_path);; sys_exit 1
      else validate_inputs rest
  end.

(** [output_dir = os.path.dirname(output); if output_dir and not
    os.path.exists(output_dir): os.makedirs(output_dir)] *)
Definition make_output_dir (output : string) : M unit :=
  let output_dir := dirname output in
  if bool_decide (output_dir = "") then ret tt
  else
    found <- path_exists output_dir;;
    if negb found then makedirs output_dir else ret tt.

Definition image_main (args : image_args) : M unit :=
  (if ia_verbose args
   then print "MiniOS Image Creation Tool";;
        print ("Architecture: " +:+ arch_str (ia_arch args));;
        print rule40
   else ret tt);;
  validate_inputs [ia_kernel args; ia_bootloader args];;
  make_output_dir (ia_output args);;
  success <-
    match ia_arch args with
    | arm64 =>
        create_arm64_image (ia_kernel args) (ia_bootloader args)
          (ia_output args)
    | x86_64 =>
        create_x86_64_image (ia_kernel args) (ia_bootloader args)
          (ia_output args)
    end;;
  if success : bool
  then print "Image creation successful!";; sys_exit 0
  else print "Image creation failed!";; sys_exit 1.

(** *** create_iso.py *)

(** The double quote and the line feed of the configuration text. *)
Definition dq : string := String (ascii_of_nat 34) EmptyString.
Definition nl : string := String (ascii_of_nat 10) EmptyString.

(** The text written to [grub.cfg], lines 36-48. *)
Definition grub_cfg_text : string :=
  "set timeout=5" +:+ nl +:+
  "set default=0" +:+ nl +:+
  nl +:+
  "menuentry " +:+ dq +:+ "MiniOS" +:+ dq +:+ " {" +:+ nl +:+
  "    multiboot2 /boot/kernel.elf" +:+ nl +:+
  "    boot" +:+ nl +:+
  "}" +:+ nl +:+
  nl +:+
  "menuentry " +:+ dq +:+ "MiniOS (Debug)" +:+ dq +:+ " {" +:+ nl +:+
  "    multiboot2 /boot/kernel.elf debug" +:+ nl +:+
  "    boot" +:+ nl +:+
  "}" +:+ nl.

Definition create_iso_structure
    (kernel_path bootloader_path temp_dir : string) : M bool :=
  let boot_dir := path_join temp_dir "boot" in
  makedirs boot_dir;;
  let kernel_dest := path_join boot_dir "kernel.elf" in
  copy2 kernel_path kernel_dest;;
  let bootloader_dest := path_join boot_dir "bootloader.bin" in
  copy2 bootloader_path bootloader_dest;;
  let grub_dir := path_join boot_dir "grub" in
  makedirs grub_dir;;
  let grub_cfg := path_join grub_dir "grub.cfg" in
  write_text grub_cfg grub_cfg_text;;
  print ("Created ISO structure in: " +:+ temp_dir);;
  ret true.

Definition create_iso_with_grub (temp_dir output_path : string) : M bool :=
  try_except
    (result <- subprocess_run ["which"; "grub-mkrescue"] true true None;;
     if negb (returncode result =? 0) then ret false
     else
       let cmd := ["grub-mkrescue"; "-o"; output_path; temp_dir] in
       print ("Running: " +:+ String.concat " " cmd);;
       result <- subprocess_run cmd true true None;;
       if returncode result =? 0
       then print "ISO created with GRUB successfully";; ret true
       else print ("GRUB error: " +:+ stderr result);; ret false)
    is_Exception
    (fun e => print ("GRUB not available: " +:+ exn_str e);; ret false).

(** The command of lines 89-97. *)
Definition mkisofs_cmd (cmd_name output_path temp_dir : string)
    : list string :=
  [cmd_name;
   "-b"; "boot/bootloader.bin";
   "-no-emul-boot";
   "-boot-load-size"; "4";
   "-boot-info-table";
   "-o"; output_path;
   temp_dir].

(** [for cmd_name in names: ...] of lines 84-106, then [return False]. *)
Fixpoint mkisofs_loop (names : list string) (temp_dir output_path : string)
    : M bool :=
  match names with
  | [] => ret false
  | cmd_name :: rest =>
      result <- subprocess_run ["which"; cmd_name] true true None;;
      if returncode result =? 0
      then
        let cmd := mkisofs_cmd cmd_name output_path temp_dir in
        print ("Running: " +:+ String.concat " " cmd);;
        result <- subprocess_run cmd true true None;;
        if returncode result =? 0
        then print ("ISO created with " +:+ cmd_name +:+ " successfully");;
             ret true
        else print (cmd_name +:+ " error: " +:+ stderr result);;
             mkisofs_loop rest temp_dir output_path
      else mkisofs_loop rest temp_dir output_path
  end.

Definition create_iso_with_mkisofs
    (temp_dir output_path bootloader_path : string) : M bool :=
  try_except
    (mkisofs_loop ["mkisofs"; "genisoimage"] temp_dir output_path)
    is_Exception
    (fun e => print ("mkisofs/genisoimage error: " +:+ exn_str e);;
              ret false).

(** Lines 122-143, the body of [with open(output_path, 'wb') as f]; the
    two inputs are read while [f] is open. *)
Definition write_simple_iso (f kernel_path bootloader_path : string)
    : M unit :=
  bootloader_data <- read_beside f bootloader_path;;
  f_write f bootloader_data;;
  current_pos <- f_tell f;;
  let sector_size := 512 in
  let padding := sector_size - (current_pos mod sector_size) in
  (if negb (padding =? sector_size)
   then f_write f (zeros padding) else ret tt);;
  kernel_data <- read_beside f kernel_path;;
  f_write f kernel_data;;
  current_pos <- f_tell f;;
  let min_size := 2 * 1024 * 1024 in
  (if current_pos <? min_size
   then f_write f (zeros (min_size - current_pos)) else ret tt).

Definition create_simple_iso
    (kernel_path bootloader_path output_path : string) : M bool :=
  print "Creating simple disk image (not bootable ISO)";;
  print "Install grub-mkrescue or mkisofs for proper ISO creation";;
  try_except
    (open_wb output_path;;
     write_simple_iso output_path kernel_path bootloader_path;;
     ret true)
    is_Exception
    (fun e => print ("Error creating simple image: " +:+ exn_str e);;
              ret false).

Record iso_args : Type := IsoArgs {
  iso_kernel : string;
  iso_bootloader : string;
  iso_output : string;
  iso_verbose : bool
}.

(** Lines 198-204: the three methods, in the order the source tries them. *)
Definition try_methods (args : iso_args) (temp_dir : string) : M bool :=
  by_grub <- create_iso_with_grub temp_dir (iso_output args);;
  if by_grub : bool then ret true
  else
    by_mkisofs <- create_iso_with_mkisofs temp_dir (iso_output args)
                    (iso_bootloader args);;
    if by_mkisofs : bool then ret true
    else create_simple_iso (iso_kernel args) (iso_bootloader args)
           (iso_output args).

(** Lines 194-204, the body of [with tempfile.TemporaryDirectory()]. *)
Definition build_iso (args : iso_args) (temp_dir : string) : M bool :=
  staged <- create_iso_structure (iso_kernel args) (iso_bootloader args)
              temp_dir;;
  if staged : bool then try_methods args temp_dir else ret false.

Definition iso_main (args : iso_args) : M unit :=
  (if iso_verbose args
   then print "MiniOS ISO Creation Tool";; print rule40
   else ret tt);;
  validate_inputs [iso_kernel args; iso_bootloader args];;
  make_output_dir (iso_output args);;
  success <- with_TemporaryDirectory (build_iso args);;
  if success : bool
  then
    found <- path_exists (iso_output args);;
    (if found : bool
     then
       size <- getsize (iso_output args);;
       print ("ISO creation successful: " +:+ iso_output args);;
       print ("Size: " +:+ pretty size +:+ " bytes ("
              +:+ pretty (size / (1024 * 1024)) +:+ " MB)")
     else ret tt);;
    sys_exit 0
  else print "ISO creation failed!";; sys_exit 1.

End Host.


(** * Definitions of the specification and of the statements *)

(** ** The layout of the specification *)

(** [roundUpToMultiple(n, m)] *)
Definition roundUpToMultiple (n m : Z) : Z := ((n + m - 1) / m) * m.

(** The image the specification describes for an alignment unit and a
    minimum size: the bootloader, zeros up to the kernel offset, the kernel,
    zeros up to the minimum size. *)
Definition assemble (align min_size : Z) (bootloader kernel : list byte)
    : list byte :=
  let kernelOffset := roundUpToMultiple (blen bootloader) align in
  bootloader ++ zeros (kernelOffset - blen bootloader) ++ kernel
  ++ zeros (min_size - (kernelOffset + blen kernel)).

(** [totalSize] as section 4.1 of the specification computes it. *)
Definition spec_totalSize (bootloaderSize kernelSize : Z) : Z :=
  Z.max (roundUpToMultiple
           (roundUpToMultiple bootloaderSize MiB + kernelSize) MiB)
        (16 * MiB).

(** ** Relations between runs *)

(** Two programs agree when, from states with the same files, they end the
    same way and leave the same files; what they print may differ. *)
Definition agree {A} (m1 m2 : M A) : Prop :=
  forall s1 s2, fs s1 = fs s2 ->
    fst (m1 s1) = fst (m2 s2) /\ fs (snd (m1 s1)) = fs (snd (m2 s2)).

(** [m] relates the state it starts from to the state it ends in by [R],
    however it ends. *)
Definition steps {A} (R : state -> state -> Prop) (m : M A) : Prop :=
  forall s, R s (snd (m s)).

(** Every call added to the log was made without a timeout. *)
Definition adds_untimed_calls (s s' : state) : Prop :=
  exists new,
    calls s' = calls s ++ new /\ Forall (fun c => rc_timeout c = None) new.

(** A file that is at [path] is still a file there. *)
Definition keeps_file (path : string) (s s' : state) : Prop :=
  (exists d, fs s !! path = Some (File d)) ->
  exists d', fs s' !! path = Some (File d').

(** ** Places where a file can be written *)

(** A file can be opened for writing at [path]: a file is there, or
    nothing is there, the path is neither empty nor the root, and the
    parent of the path is a directory. *)
Definition openable (f : gmap string node) (path : string) : bool :=
  match f !! path with
  | Some (File _) => true
  | Some Dir => false
  | None =>
      match open_error f path with
      | None => true
      | Some _ => false
      end
  end.

(** ** The log of child processes and the temporary directory *)

(** The log entry of [which tool] returning [rc], and of a command. *)
Definition probe (tool : string) (rc : Z) : run_call :=
  RunCall ["which"; tool] true true None (Some rc) false.

Definition invoked (cmd : list string) (status : option Z) : run_call :=
  RunCall cmd true true None status false.

(** The log entry of a command that never returned. *)
Definition never_returned (cmd : list string) : run_call :=
  RunCall cmd true true None None true.

(** In text mode the call of a child with this answer raises: the child
    cannot be started, or its output is not valid text. *)
Definition call_raises (r : proc_result) : bool :=
  match r with
  | Fails _ | Undecodable _ _ _ => true
  | Completed _ _ _ | Hangs => false
  end.

(** [which tool] finds nothing, whatever the files are, and changes none. *)
Definition not_installed (h : host) (tool : string) : Prop :=
  forall f, exists rc err,
    proc h ["which"; tool] f = Completed rc err f /\ rc <> 0.

(** The state after a call is logged. *)
Definition logged (s : state) (f : gmap string node) (c : run_call) : state :=
  {| fs := f; stdout := stdout s; calls := calls s ++ [c] |}.

(** The directory of [tempfile.TemporaryDirectory]: it has a name without a
    final slash, nothing exists at that name or below it, and the
    directories above it exist. *)
Definition usable_tmp (h : host) (f : gmap string node) : Prop :=
  mkdtemp_name h <> ""
  /\ ends_with_slash (mkdtemp_name h) = false
  /\ (forall p, in_tree (mkdtemp_name h) p = true -> f !! p = None)
  /\ (forall a, a ∈ ancestors (mkdtemp_name h) -> f !! a = Some Dir).

(** ** The staging tree and its configuration *)

(** The lines of a text ([str.splitlines]). *)
Fixpoint lines_go (cur s : string) : list string :=
  match s with
  | EmptyString => if bool_decide (cur = "") then [] else [String.rev cur]
  | String c s' =>
      if Ascii.eqb c (ascii_of_nat 10)
      then String.rev cur :: lines_go "" s'
      else lines_go (String c cur) s'
  end.

Definition lines (text : string) : list string := lines_go "" text.

(** A menu entry of a GRUB configuration: the words of its title and the
    words of each of its commands. *)
Record menu_entry : Type := MenuEntry {
  me_title : list string;
  me_commands : list (list string)
}.

(** The entries of a configuration: an entry opens at a line
    [menuentry <title> {] and closes at a line [}]. *)
Fixpoint entries_go (cur : option menu_entry) (ls : list string)
    : list menu_entry :=
  match ls with
  | [] => []
  | l :: rest =>
      let ws := String.words l in
      match cur with
      | None =>
          match ws with
          | "menuentry" :: title =>
              entries_go (Some (MenuEntry (removelast title) [])) rest
          | _ => entries_go None rest
          end
      | Some e =>
          if bool_decide (ws = ["}"])
          then e :: entries_go None rest
          else entries_go
                 (Some (MenuEntry (me_title e) (me_commands e ++ [ws])))
                 rest
      end
  end.

Definition menu_entries (text : string) : list menu_entry :=
  entries_go None (lines text).

(** The files the staging builder leaves, from the files it found. *)
Definition staged (f : gmap string node) (boot : string)
    (kd bd : list byte) : gmap string node :=
  <[boot +:+ "/grub/grub.cfg"
    := File (String.list_byte_of_string grub_cfg_text)]>
    (foldr mkdir_missing
       (<[boot +:+ "/bootloader.bin" := File bd]>
          (<[boot +:+ "/kernel.elf" := File kd]>
             (foldr mkdir_missing f (boot :: ancestors boot))))
       ((boot +:+ "/grub") :: ancestors boot ++ [boot])).

(** ** Example hosts and inputs *)

(** A host without packaging tools and without I/O errors: [which] finds
    nothing (status 1), and any other command fails with status 1. *)
Definition bare_host : host :=
  {| proc := fun _ f => Completed 1 "" f;
     io_fault := fun _ => None;
     partial_write := fun _ _ _ => 0;
     flushed := fun _ _ => 0;
     mkdtemp_name := "/tmp/tmpminios" |}.


(** A host where mkisofs is found and cannot be started; no other tool is
    found. *)
Definition broken_mkisofs_host : host :=
  {| proc := fun args f =>
       if bool_decide (args = ["which"; "mkisofs"]) then Completed 0 "" f
       else if bool_decide (args !! 0%nat = Some "which")
            then Completed 1 "" f
            else Fails "Exec format error";
     io_fault := fun _ => None;
     partial_write := fun _ _ _ => 0;
     flushed := fun _ _ => 0;
     mkdtemp_name := "/tmp/tmpminios" |}.

(** The two inputs in the current directory, and the directory [/tmp]. *)
Definition inputs (kernel bootloader : list byte) : state :=
  {| fs := {[ "kernel.elf" := File kernel; "boot.bin" := File bootloader;
              "/tmp" := Dir ]};
     stdout := [];
     calls := [] |}.

(** A host without packaging tools on which no file can grow beyond 1024
    bytes: a write that would pass that size fills the file up to it and
    fails ("No space left on device"). *)
Definition small_disk_host : host :=
  {| proc := fun _ f => Completed 1 "" f;
     io_fault := fun op =>
       match op with
       | OpWrite _ pos len =>
           if 1024 <? pos + len then Some "No space left on device" else None
       | _ => None
       end;
     partial_write := fun _ pos _ => Z.max 0 (1024 - pos);
     flushed := fun _ _ => 0;
     mkdtemp_name := "/tmp/tmpminios" |}.

(** A host with both ISO mastering tools and no grub-mkrescue: mkisofs
    exits with status 1, genisoimage writes the output and exits with
    status 0. *)
Definition two_masters_host : host :=
  {| proc := fun args f =>
       match args with
       | tool :: rest =>
           if bool_decide (tool = "which")
           then
             if bool_decide (rest = ["mkisofs"])
                || bool_decide (rest = ["genisoimage"])
             then Completed 0 "" f
             else Completed 1 "" f
           else if bool_decide (tool = "mkisofs")
           then Completed 1 "mkisofs: write error" f
           else if bool_decide (tool = "genisoimage")
           then
             match args !! 8%nat with
             | Some output => Completed 0 "" (<[output := File [x43; x44]]> f)
             | None => Completed 2 "genisoimage: usage" f
             end
           else Completed 127 "command not found" f
       | [] => Fails "empty command"
       end;
     io_fault := fun _ => None;
     partial_write := fun _ _ _ => 0;
     flushed := fun _ _ => 0;
     mkdtemp_name := "/tmp/tmpminios" |}.

(** A host on which grub-mkrescue is installed and never returns. *)
Definition hanging_grub_host : host :=
  {| proc := fun args f =>
       match args with
       | tool :: rest =>
           if bool_decide (tool = "which")
           then
             if bool_decide (rest = ["grub-mkrescue"])
             then Completed 0 "" f
             else Completed 1 "" f
           else if bool_decide (tool = "grub-mkrescue") then Hangs
           else Completed 127 "command not found" f
       | [] => Fails "empty command"
       end;
     io_fault := fun _ => None;
     partial_write := fun _ _ _ => 0;
     flushed := fun _ _ => 0;
     mkdtemp_name := "/tmp/tmpminios" |}.

(** ** Definitions for the further properties *)

(** [m] ends by returning, or by raising an exception of the class [c];
    it never blocks. *)
Definition raises_only {A} (c : exn -> bool) (m : M A) : Prop :=
  forall s,
    match fst (m s) with
    | Ret _ => True
    | Raise e => c e = true
    | Blocked => False
    end.

(** Two programs agree on files and log when, from states with the same
    files and the same log of child processes, they end the same way and
    leave the same files and the same log; what they print may differ. *)
Definition agree_log {A} (m1 m2 : M A) : Prop :=
  forall s1 s2, fs s1 = fs s2 -> calls s1 = calls s2 ->
    fst (m1 s1) = fst (m2 s2)
    /\ fs (snd (m1 s1)) = fs (snd (m2 s2))
    /\ calls (snd (m1 s1)) = calls (snd (m2 s2)).

(** Nothing is at [path], which is not the root, and no regular file
    stands where the path needs a directory: [open(path, 'rb')] raises
    [FileNotFoundError]. *)
Definition not_found (f : gmap string node) (path : string) : bool :=
  match f !! path with
  | Some _ => false
  | None =>
      match open_error f path with
      | None | Some (FileNotFoundError _) => true
      | Some _ => false
      end
  end.

(** Nothing is at [path] because a regular file stands where the path
    needs a directory: [open(path, 'rb')] raises [NotADirectoryError]. *)
Definition below_file (f : gmap string node) (path : string) : bool :=
  match f !! path with
  | Some _ => false
  | None =>
      match open_error f path with
      | Some (NotADirectoryError _) => true
      | _ => false
      end
  end.

(** The writes of [create_arm64_image] in order, each with the position
    it starts at and its length: the bootloader, the padding up to the
    next MiB when the bootloader does not end on one, the kernel, and the
    fill up to 16 MiB when the image is shorter. *)
Definition image_writes (f : string) (bl kl : list byte) : list io_op :=
  let pad := MiB - blen bl mod MiB in
  let off := blen bl + (if pad <? MiB then pad else 0) in
  let used := off + blen kl in
  [OpWrite f 0 (blen bl)]
  ++ (if pad <? MiB then [OpWrite f (blen bl) pad] else [])
  ++ [OpWrite f off (blen kl)]
  ++ (if used <? 16 * MiB then [OpWrite f used (16 * MiB - used)] else []).

(** What [create_arm64_image] asks of the host once its inputs are read:
    to open the output, then the writes. *)
Definition image_ops (o : string) (bl kl : list byte) : list io_op :=
  OpOpenWrite o :: image_writes o bl kl.

(** What exists stays as it is, and no child process is started: the
    step may only add entries where nothing was. *)
Definition keeps_entries (s s' : state) : Prop :=
  (forall p n, fs s !! p = Some n -> fs s' !! p = Some n)
  /\ calls s' = calls s.

(** The files after a step are those before it, but for directories of
    the list [l] created where nothing was. *)
Definition only_new_dirs (l : list string) (s s' : state) : Prop :=
  forall p,
    fs s' !! p = fs s !! p
    \/ (p ∈ l /\ fs s !! p = None /\ fs s' !! p = Some Dir).

(** The exit of [main] after a builder ended with [o]: status 0 for
    [True], status 1 for [False]; an exception and a blocked call pass
    through. *)
Definition exit_of (o : outcome bool) : outcome unit :=
  match o with
  | Ret true => Raise (SystemExit 0)
  | Ret false => Raise (SystemExit 1)
  | Raise e => Raise e
  | Blocked => Blocked
  end.

(** A host with grub-mkrescue, mkisofs and genisoimage installed: each
    tool writes an image of two bytes at its output and exits with status
    0. *)
Definition tools_host : host :=
  {| proc := fun args f =>
       match args with
       | tool :: rest =>
           if bool_decide (tool = "which") then Completed 0 "" f
           else if bool_decide (tool = "grub-mkrescue")
           then
             match args !! 2%nat with
             | Some output => Completed 0 "" (<[output := File [x43; x44]]> f)
             | None => Completed 2 "usage" f
             end
           else if bool_decide (tool = "mkisofs")
                   || bool_decide (tool = "genisoimage")
           then
             match args !! 8%nat with
             | Some output => Completed 0 "" (<[output := File [x43; x44]]> f)
             | None => Completed 2 "usage" f
             end
           else Completed 127 "command not found" f
       | [] => Fails "empty command"
       end;
     io_fault := fun _ => None;
     partial_write := fun _ _ _ => 0;
     flushed := fun _ _ => 0;
     mkdtemp_name := "/tmp/tmpminios" |}.

(** * Properties *)

(** ** Rounding up *)

Lemma roundUp_pad n m :
  0 < m ->
  roundUpToMultiple n m
  = if m - n mod m <? m then n + (m - n mod m) else n.
Proof.
  intros Hm. unfold roundUpToMultiple.
  pose proof (Z.mod_pos_bound n m Hm) as Hr.
  pose proof (Z.div_mod n m ltac:(lia)) as Hn.
  destruct (Z.ltb_spec (m - n mod m) m) as [Hlt | Hge].
  - rewrite <- (Z.div_unique (n + m - 1) m (n / m + 1) (n mod m - 1)); lia.
  - rewrite <- (Z.div_unique (n + m - 1) m (n / m) (m - 1)); lia.
Qed.

Lemma roundUp_bounds n m :
  0 < m ->
  roundUpToMultiple n m mod m = 0
  /\ n <= roundUpToMultiple n m < n + m.
Proof.
  intros Hm. split.
  - unfold roundUpToMultiple. apply Z.mod_mul. lia.
  - rewrite roundUp_pad by done.
    destruct (Z.ltb_spec (m - n mod m) m);
      pose proof (Z.mod_pos_bound n m Hm); lia.
Qed.

Lemma roundUp_least n m k :
  0 < m -> k mod m = 0 -> n <= k -> roundUpToMultiple n m <= k.
Proof.
  intros Hm Hk Hn.
  destruct (roundUp_bounds n m Hm) as [Hr [_ Hlt]].
  revert Hr Hlt. generalize (roundUpToMultiple n m). intros r Hr Hlt.
  pose proof (Z.div_mod r m ltac:(lia)) as Er.
  pose proof (Z.div_mod k m ltac:(lia)) as Ek.
  rewrite Hr in Er. rewrite Hk in Ek.
  assert (r / m < k / m + 1) as Hq.
  { apply (Z.mul_lt_mono_pos_l m); lia. }
  nia.
Qed.

Lemma roundUp_aligned n m :
  0 < m -> n mod m = 0 -> roundUpToMultiple n m = n.
Proof.
  intros Hm Hn. rewrite roundUp_pad by done. rewrite Hn.
  destruct (Z.ltb_spec (m - 0) m); lia.
Qed.

Lemma blen_nonneg data : 0 <= blen data.
Proof. unfold blen. lia. Qed.

Lemma blen_app a b : blen (a ++ b) = blen a + blen b.
Proof. unfold blen. rewrite length_app. lia. Qed.

Lemma blen_zeros n : blen (zeros n) = Z.max 0 n.
Proof. unfold blen, zeros. rewrite length_replicate. lia. Qed.

Lemma zeros_nil n : n <= 0 -> zeros n = [].
Proof.
  intros Hn. unfold zeros. replace (Z.to_nat n) with 0%nat by lia. done.
Qed.

Lemma byte_at_lt data i :
  0 <= i < blen data -> exists c, byte_at data i = Some c.
Proof.
  intros Hi. unfold byte_at, blen in *.
  destruct (Z.ltb_spec i 0); [lia |].
  destruct (lookup_lt_is_Some_2 data (Z.to_nat i)) as [c Hc]; [lia |].
  eauto.
Qed.

Lemma byte_at_app_l a b i :
  0 <= i < blen a -> byte_at (a ++ b) i = byte_at a i.
Proof.
  intros Hi. unfold byte_at, blen in *.
  destruct (Z.ltb_spec i 0); [lia |].
  apply lookup_app_l. lia.
Qed.

Lemma byte_at_app_r a b i :
  blen a <= i -> byte_at (a ++ b) i = byte_at b (i - blen a).
Proof.
  intros Hi. pose proof (blen_nonneg a). unfold byte_at, blen in *.
  destruct (Z.ltb_spec i 0); [lia |].
  destruct (Z.ltb_spec (i - Z.of_nat (length a)) 0); [lia |].
  rewrite lookup_app_r by lia. f_equal. lia.
Qed.

Lemma byte_at_zeros n i :
  0 <= i < n -> byte_at (zeros n) i = Some x00.
Proof.
  intros Hi. unfold byte_at, zeros.
  destruct (Z.ltb_spec i 0); [lia |].
  apply lookup_replicate_2. lia.
Qed.

(** Reading the image of [assemble]: the four regions and the length. *)
Lemma assemble_length align min_size bl kl :
  0 < align ->
  blen (assemble align min_size bl kl)
  = Z.max (roundUpToMultiple (blen bl) align + blen kl) min_size.
Proof.
  intros Ha. unfold assemble. cbv zeta.
  destruct (roundUp_bounds (blen bl) align Ha) as [_ [Hle _]].
  pose proof (blen_nonneg kl).
  rewrite !blen_app, !blen_zeros. lia.
Qed.

Lemma assemble_bootloader align min_size bl kl i :
  0 <= i < blen bl ->
  byte_at (assemble align min_size bl kl) i = byte_at bl i.
Proof. intros Hi. unfold assemble. cbv zeta. by apply byte_at_app_l. Qed.

Lemma assemble_kernel align min_size bl kl i :
  0 < align ->
  let kernelOffset := roundUpToMultiple (blen bl) align in
  kernelOffset <= i < kernelOffset + blen kl ->
  byte_at (assemble align min_size bl kl) i = byte_at kl (i - kernelOffset).
Proof.
  intros Ha ko Hi. subst ko. unfold assemble. cbv zeta.
  destruct (roundUp_bounds (blen bl) align Ha) as [_ [Hle _]].
  rewrite byte_at_app_r by lia.
  rewrite byte_at_app_r by (rewrite blen_zeros; lia).
  rewrite blen_zeros.
  rewrite byte_at_app_l by lia. f_equal. lia.
Qed.

Lemma assemble_gap align min_size bl kl i :
  0 < align ->
  let kernelOffset := roundUpToMultiple (blen bl) align in
  0 <= i < blen (assemble align min_size bl kl) ->
  ~ (0 <= i < blen bl) ->
  ~ (kernelOffset <= i < kernelOffset + blen kl) ->
  byte_at (assemble align min_size bl kl) i = Some x00.
Proof.
  intros Ha ko Hi Hb Hk. subst ko.
  rewrite assemble_length in Hi by done.
  unfold assemble. cbv zeta.
  destruct (roundUp_bounds (blen bl) align Ha) as [_ [Hle _]].
  pose proof (blen_nonneg bl). pose proof (blen_nonneg kl).
  rewrite byte_at_app_r by lia.
  destruct (Z.lt_ge_cases i (roundUpToMultiple (blen bl) align)) as [Hlt | Hge].
  - rewrite byte_at_app_l by (rewrite blen_zeros; lia).
    apply byte_at_zeros. lia.
  - rewrite byte_at_app_r by (rewrite blen_zeros; lia).
    rewrite blen_zeros.
    rewrite byte_at_app_r by lia.
    apply byte_at_zeros. lia.
Qed.

(** ** Running the primitives *)

Lemma bind_Ret {A B} (m : M A) (k : A -> M B) s a s' :
  m s = (Ret a, s') -> bind m k s = k a s'.
Proof. intros E. unfold bind. by rewrite E. Qed.

Lemma bind_Raise {A B} (m : M A) (k : A -> M B) s e s' :
  m s = (Raise e, s') -> bind m k s = (Raise e, s').
Proof. intros E. unfold bind. by rewrite E. Qed.

Lemma bind_Blocked {A B} (m : M A) (k : A -> M B) s s' :
  m s = (Blocked, s') -> bind m k s = (Blocked, s').
Proof. intros E. unfold bind. by rewrite E. Qed.

Lemma try_Ret {A} (m : M A) c hd s a s' :
  m s = (Ret a, s') -> try_except m c hd s = (Ret a, s').
Proof. intros E. unfold try_except. by rewrite E. Qed.

Lemma try_Raise {A} (m : M A) c hd s e s' :
  m s = (Raise e, s') -> c e = true -> try_except m c hd s = hd e s'.
Proof. intros E Hc. unfold try_except. by rewrite E, Hc. Qed.

Lemma set_fs_same s : set_fs (fs s) s = s.
Proof. by destruct s. Qed.

(** Running [m] from [s], given its equation [E]. *)
Ltac run_with E := unfold bind at 1; rewrite E; cbv beta iota.
Ltac run_print := unfold bind at 1, print at 1; cbv beta iota.

Section Quiet.

(** A host that raises no I/O error of its own. *)
Context (h : host).
Hypothesis quiet : forall op, io_fault h op = None.

Lemma read_file_ok path data s :
  fs s !! path = Some (File data) -> read_file path s = (Ret data, s).
Proof. intros E. unfold read_file. by rewrite E. Qed.

Lemma read_beside_ok f path data s :
  fs s !! path = Some (File data) ->
  (path = f -> data = []) ->
  read_beside h f path s = (Ret data, s).
Proof.
  intros E Hf. unfold read_beside. case_bool_decide as Hp.
  - subst f. rewrite E, (Hf eq_refl). by rewrite take_nil.
  - by apply read_file_ok.
Qed.

Lemma open_wb_ok path s :
  openable (fs s) path = true ->
  open_wb h path s = (Ret tt, set_fs (<[path := File []]> (fs s)) s).
Proof.
  unfold openable, open_wb. intros E. cbv zeta. rewrite quiet.
  destruct (fs s !! path) as [[]|]; try done.
  by destruct (open_error (fs s) path).
Qed.

Lemma f_write_ok f cur data s :
  fs s !! f = Some (File cur) ->
  f_write h f data s
  = (Ret tt, set_fs (<[f := File (cur ++ data)]> (fs s)) s).
Proof. intros E. unfold f_write. by rewrite E, quiet. Qed.

Lemma f_write_if_ok f cur (c : bool) data s :
  fs s !! f = Some (File cur) ->
  (if c then f_write h f data else ret tt) s
  = (Ret tt,
     set_fs (<[f := File (cur ++ if c then data else [])]> (fs s)) s).
Proof.
  intros E. destruct c; [by apply f_write_ok |].
  unfold ret. rewrite app_nil_r, insert_id by done. by rewrite set_fs_same.
Qed.

Lemma f_tell_ok f cur s :
  fs s !! f = Some (File cur) -> f_tell f s = (Ret (blen cur), s).
Proof. intros E. unfold f_tell. by rewrite E. Qed.

(** The body of the raw image builder writes the layout of [assemble] at
    1 MiB and 16 MiB, and its two positions are the kernel offset and the
    length of the image. *)
Lemma write_arm64_image_ok f bl kl s :
  fs s !! f = Some (File []) ->
  exists s',
    write_arm64_image h f bl kl s
    = (Ret (roundUpToMultiple (blen bl) MiB,
            Z.max (roundUpToMultiple (blen bl) MiB + blen kl) (16 * MiB)),
       s')
    /\ fs s' = <[f := File (assemble MiB (16 * MiB) bl kl)]> (fs s)
    /\ calls s' = calls s.
Proof.
  intros E0. unfold write_arm64_image.
  run_with (f_write_ok f [] bl s E0).
  set (s1 := set_fs _ s).
  assert (fs s1 !! f = Some (File bl)) as E1 by apply lookup_insert_eq.
  cbv zeta.
  run_with (f_write_if_ok f bl
              (1024 * 1024 - blen bl mod (1024 * 1024) <? 1024 * 1024)
              (zeros (1024 * 1024 - blen bl mod (1024 * 1024))) s1 E1).
  set (pad := if _ <? _ then _ else _).
  set (s2 := set_fs _ s1).
  assert (fs s2 !! f = Some (File (bl ++ pad))) as E2
    by apply lookup_insert_eq.
  run_with (f_tell_ok f _ s2 E2).
  run_with (f_write_ok f _ kl s2 E2).
  set (s3 := set_fs _ s2).
  assert (fs s3 !! f = Some (File ((bl ++ pad) ++ kl))) as E3
    by apply lookup_insert_eq.
  run_print.
  set (s4 := {| fs := fs s3 |}).
  assert (fs s4 !! f = Some (File ((bl ++ pad) ++ kl))) as E4 by exact E3.
  run_with (f_tell_ok f _ s4 E4).
  run_with (f_write_if_ok f _
              (blen ((bl ++ pad) ++ kl) <? 16 * 1024 * 1024)
              (zeros (16 * 1024 * 1024 - blen ((bl ++ pad) ++ kl))) s4 E4).
  set (fill := if _ <? _ then _ else _).
  set (s5 := set_fs _ s4).
  assert (fs s5 !! f = Some (File (((bl ++ pad) ++ kl) ++ fill))) as E5
    by apply lookup_insert_eq.
  run_with (f_tell_ok f _ s5 E5).
  run_print. unfold ret.
  (* the arithmetic of the two paddings *)
  assert (0 < MiB) as HM by done.
  pose proof (roundUp_pad (blen bl) MiB HM) as Hko.
  destruct (roundUp_bounds (blen bl) MiB HM) as [_ [Hle _]].
  pose proof (blen_nonneg bl). pose proof (blen_nonneg kl).
  change (1024 * 1024) with MiB in *.
  change (16 * 1024 * 1024) with (16 * MiB) in *.
  assert (pad = zeros (roundUpToMultiple (blen bl) MiB - blen bl)) as Hpad.
  { subst pad. rewrite Hko.
    destruct (Z.ltb_spec (MiB - blen bl mod MiB) MiB).
    - f_equal. lia.
    - rewrite zeros_nil; [done | lia]. }
  assert (blen (bl ++ pad) = roundUpToMultiple (blen bl) MiB) as Hoff.
  { rewrite blen_app, Hpad, blen_zeros. lia. }
  assert (fill = zeros (16 * MiB
                        - (roundUpToMultiple (blen bl) MiB + blen kl)))
    as Hfill.
  { subst fill. rewrite blen_app, Hoff.
    destruct (Z.ltb_spec (roundUpToMultiple (blen bl) MiB + blen kl)
                (16 * MiB)).
    - done.
    - rewrite zeros_nil; [done | lia]. }
  eexists. split; [| split].
  - do 2 f_equal. f_equal.
    + exact Hoff.
    + rewrite (blen_app _ fill), (blen_app _ kl), Hoff, Hfill, blen_zeros.
      lia.
  - cbn [fs]. subst s5 s4 s3 s2 s1. cbn [fs set_fs].
    rewrite !insert_insert_eq. f_equal. f_equal.
    unfold assemble. cbv zeta. rewrite Hpad, Hfill.
    by rewrite <- !app_assoc.
  - reflexivity.
Qed.

(** The body of the fallback image builder writes the layout of
    [assemble] at 512 bytes and 2 MiB. *)
Lemma write_simple_iso_ok f k b bl kl s :
  fs s !! f = Some (File []) ->
  fs s !! b = Some (File bl) ->
  fs s !! k = Some (File kl) ->
  f <> k ->
  exists s',
    write_simple_iso h f k b s = (Ret tt, s')
    /\ fs s' = <[f := File (assemble 512 (2 * MiB) bl kl)]> (fs s)
    /\ calls s' = calls s
    /\ stdout s' = stdout s.
Proof.
  intros E0 Eb Ek Hfk. unfold write_simple_iso.
  assert (b = f -> bl = []) as Hb by (intros ->; congruence).
  run_with (read_beside_ok f b bl s Eb Hb).
  run_with (f_write_ok f [] bl s E0).
  set (s1 := set_fs _ s).
  assert (fs s1 !! f = Some (File bl)) as E1 by apply lookup_insert_eq.
  run_with (f_tell_ok f _ s1 E1).
  cbv zeta.
  run_with (f_write_if_ok f bl
              (negb (512 - blen bl mod 512 =? 512))
              (zeros (512 - blen bl mod 512)) s1 E1).
  set (pad := if negb _ then _ else _).
  set (s2 := set_fs _ s1).
  assert (fs s2 !! f = Some (File (bl ++ pad))) as E2
    by apply lookup_insert_eq.
  assert (fs s2 !! k = Some (File kl)) as Ek2.
  { subst s2 s1. cbn [fs set_fs]. by rewrite !lookup_insert_ne. }
  assert (k = f -> kl = []) as Hk by (intros ->; done).
  run_with (read_beside_ok f k kl s2 Ek2 Hk).
  run_with (f_write_ok f _ kl s2 E2).
  set (s3 := set_fs _ s2).
  assert (fs s3 !! f = Some (File ((bl ++ pad) ++ kl))) as E3
    by apply lookup_insert_eq.
  run_with (f_tell_ok f _ s3 E3).
  rewrite (f_write_if_ok f _
             (blen ((bl ++ pad) ++ kl) <? 2 * 1024 * 1024)
             (zeros (2 * 1024 * 1024 - blen ((bl ++ pad) ++ kl))) s3 E3).
  set (fill := if _ <? _ then _ else _).
  (* the arithmetic of the two paddings *)
  assert (0 < 512) as HM by done.
  pose proof (roundUp_pad (blen bl) 512 HM) as Hko.
  destruct (roundUp_bounds (blen bl) 512 HM) as [_ [Hle _]].
  pose proof (Z.mod_pos_bound (blen bl) 512 HM) as Hmod.
  pose proof (blen_nonneg bl). pose proof (blen_nonneg kl).
  change (2 * 1024 * 1024) with (2 * MiB) in *.
  assert (pad = zeros (roundUpToMultiple (blen bl) 512 - blen bl)) as Hpad.
  { subst pad. rewrite Hko.
    destruct (Z.ltb_spec (512 - blen bl mod 512) 512);
      destruct (Z.eqb_spec (512 - blen bl mod 512) 512); try lia.
    - cbn [negb]. f_equal. lia.
    - cbn [negb]. rewrite zeros_nil; [done | lia]. }
  assert (blen (bl ++ pad) = roundUpToMultiple (blen bl) 512) as Hoff.
  { rewrite blen_app, Hpad, blen_zeros. lia. }
  assert (fill = zeros (2 * MiB
                        - (roundUpToMultiple (blen bl) 512 + blen kl)))
    as Hfill.
  { subst fill. rewrite blen_app, Hoff.
    destruct (Z.ltb_spec (roundUpToMultiple (blen bl) 512 + blen kl)
                (2 * MiB)).
    - done.
    - rewrite zeros_nil; [done | lia]. }
  eexists. split; [reflexivity | split; [| split]].
  - subst s3 s2 s1. cbn [fs set_fs].
    rewrite !insert_insert_eq. f_equal. f_equal.
    unfold assemble. cbv zeta. rewrite Hpad, Hfill.
    by rewrite <- !app_assoc.
  - reflexivity.
  - reflexivity.
Qed.

(** The raw image builder on readable inputs and a writable output. *)
Lemma create_arm64_image_ok k b o bl kl s :
  fs s !! k = Some (File kl) ->
  fs s !! b = Some (File bl) ->
  openable (fs s) o = true ->
  exists s',
    create_arm64_image h k b o s = (Ret true, s')
    /\ fs s' = <[o := File (assemble MiB (16 * MiB) bl kl)]> (fs s)
    /\ calls s' = calls s.
Proof.
  intros Ek Eb Ho. unfold create_arm64_image.
  do 3 run_print.
  set (s1 := {| fs := _ |}).
  assert (fs s1 = fs s) as F1 by reflexivity.
  unfold bind at 1, try_except at 1.
  run_with (read_file_ok k kl s1 Ek).
  run_print. unfold ret at 1. cbv beta iota.
  set (s2 := {| fs := _ |}).
  unfold bind at 1, try_except at 1.
  run_with (read_file_ok b bl s2 Eb).
  run_print. unfold ret at 1. cbv beta iota.
  set (s3 := {| fs := _ |}).
  unfold try_except.
  run_with (open_wb_ok o s3 Ho).
  set (s4 := set_fs _ s3).
  destruct (write_arm64_image_ok o bl kl s4) as (s5 & E5 & F5 & C5).
  { apply lookup_insert_eq. }
  run_with E5. unfold ret.
  eexists. split; [reflexivity | split].
  - rewrite F5. subst s4. cbn [fs set_fs]. by rewrite insert_insert_eq.
  - rewrite C5. reflexivity.
Qed.

(** The fallback image builder on readable inputs and a writable output
    that is neither of them. *)
Lemma create_simple_iso_ok k b o bl kl s :
  fs s !! k = Some (File kl) ->
  fs s !! b = Some (File bl) ->
  openable (fs s) o = true ->
  o <> k -> o <> b ->
  exists s',
    create_simple_iso h k b o s = (Ret true, s')
    /\ fs s' = <[o := File (assemble 512 (2 * MiB) bl kl)]> (fs s)
    /\ calls s' = calls s.
Proof.
  intros Ek Eb Ho Hok Hob. unfold create_simple_iso.
  do 2 run_print.
  set (s1 := {| fs := _ |}).
  unfold try_except.
  run_with (open_wb_ok o s1 Ho).
  set (s2 := set_fs _ s1).
  destruct (write_simple_iso_ok o k b bl kl s2) as (s3 & E3 & F3 & C3 & _).
  { apply lookup_insert_eq. }
  { subst s2 s1. cbn [fs set_fs]. by rewrite lookup_insert_ne. }
  { subst s2 s1. cbn [fs set_fs]. by rewrite lookup_insert_ne. }
  { done. }
  run_with E3. unfold ret.
  eexists. split; [reflexivity | split].
  - rewrite F3. subst s2 s1. cbn [fs set_fs]. by rewrite insert_insert_eq.
  - rewrite C3. reflexivity.
Qed.

End Quiet.

(** ** Runs that differ in what they print *)

Lemma agree_ret {A} (a : A) : agree (ret a) (ret a).
Proof. by intros s1 s2 E. Qed.

Lemma agree_raise {A} e : agree (@raise A e) (raise e).
Proof. by intros s1 s2 E. Qed.

Lemma agree_print l1 l2 : agree (print l1) (print l2).
Proof. by intros s1 s2 E. Qed.

Lemma agree_bind {A B} (m1 m2 : M A) (k1 k2 : A -> M B) :
  agree m1 m2 -> (forall a, agree (k1 a) (k2 a)) ->
  agree (bind m1 k1) (bind m2 k2).
Proof.
  intros Hm Hk s1 s2 E. unfold bind.
  destruct (Hm s1 s2 E) as [Ho Hf].
  destruct (m1 s1) as [[a1 | e1 |] t1], (m2 s2) as [[a2 | e2 |] t2];
    simpl in Ho, Hf; try discriminate.
  - injection Ho as ->. by apply Hk.
  - injection Ho as ->. by split.
  - by split.
Qed.

Lemma agree_print_l {A} l (m1 m2 : M A) :
  agree m1 m2 -> agree (bind (print l) (fun _ => m1)) m2.
Proof. intros Hm s1 s2 E. unfold bind, print. by apply Hm. Qed.

Lemma agree_try {A} (m1 m2 : M A) c hd1 hd2 :
  agree m1 m2 -> (forall e, agree (hd1 e) (hd2 e)) ->
  agree (try_except m1 c hd1) (try_except m2 c hd2).
Proof.
  intros Hm Hh s1 s2 E. unfold try_except.
  destruct (Hm s1 s2 E) as [Ho Hf].
  destruct (m1 s1) as [[a1 | e1 |] t1], (m2 s2) as [[a2 | e2 |] t2];
    simpl in Ho, Hf; try discriminate.
  - by split.
  - injection Ho as ->. destruct (c e2); [by apply Hh | by split].
  - by split.
Qed.

Lemma agree_if {A} (c : bool) (m1 m2 n1 n2 : M A) :
  agree m1 m2 -> agree n1 n2 ->
  agree (if c then m1 else n1) (if c then m2 else n2).
Proof. by destruct c. Qed.

Section Agree.

Context (h : host).

Lemma agree_read_file path : agree (read_file path) (read_file path).
Proof.
  intros s1 s2 E. unfold read_file. rewrite E.
  destruct (fs s2 !! path) as [[]|]; try done.
  by destruct (open_error (fs s2) path).
Qed.

Lemma agree_read_beside f path :
  agree (read_beside h f path) (read_beside h f path).
Proof.
  intros s1 s2 E. unfold read_beside. case_bool_decide.
  - rewrite E. destruct (fs s2 !! f) as [[]|] eqn:Ef; try done;
      apply agree_read_file; done.
  - by apply agree_read_file.
Qed.

Lemma agree_open_wb path : agree (open_wb h path) (open_wb h path).
Proof.
  intros s1 s2 E. unfold open_wb. cbv zeta. rewrite E.
  destruct (fs s2 !! path) as [[]|]; try done;
    [| destruct (open_error (fs s2) path); [done |]];
    destruct (io_fault h (OpOpenWrite path)); simpl; by rewrite ?E.
Qed.

Lemma agree_f_write f data : agree (f_write h f data) (f_write h f data).
Proof.
  intros s1 s2 E. unfold f_write. rewrite E.
  destruct (fs s2 !! f) as [[cur |]|]; try done.
  destruct (io_fault h (OpWrite f (blen cur) (blen data))); simpl;
    by rewrite ?E.
Qed.

Lemma agree_f_tell f : agree (f_tell f) (f_tell f).
Proof.
  intros s1 s2 E. unfold f_tell. rewrite E.
  by destruct (fs s2 !! f) as [[]|].
Qed.

Lemma agree_path_exists path : agree (path_exists path) (path_exists path).
Proof. intros s1 s2 E. unfold path_exists. by rewrite E. Qed.

Lemma agree_mkdir name : agree (mkdir h name) (mkdir h name).
Proof.
  intros s1 s2 E. unfold mkdir. rewrite E.
  destruct (fs s2 !! name); [done |].
  destruct (parent_error (fs s2) name); [done |].
  destruct (io_fault h (OpMkdir name)); simpl; by rewrite ?E.
Qed.

Lemma agree_makedirs_levels levels :
  agree (makedirs_levels h levels) (makedirs_levels h levels).
Proof.
  induction levels as [| level rest IH]; simpl; [apply agree_ret |].
  apply agree_bind; [apply agree_path_exists | intros found].
  apply agree_bind; [| intros _; exact IH].
  apply agree_if; [apply agree_mkdir | apply agree_ret].
Qed.

Lemma agree_makedirs name : agree (makedirs h name) (makedirs h name).
Proof.
  unfold makedirs.
  apply agree_bind; [apply agree_makedirs_levels | intros _].
  apply agree_mkdir.
Qed.

Lemma agree_validate_inputs paths :
  agree (validate_inputs paths) (validate_inputs paths).
Proof.
  induction paths as [| p rest IH]; simpl; [apply agree_ret |].
  apply agree_bind; [apply agree_path_exists |].
  intros found. apply agree_if; [| done].
  apply agree_bind; [apply agree_print |]. intros _. apply agree_raise.
Qed.

Lemma agree_make_output_dir output :
  agree (make_output_dir h output) (make_output_dir h output).
Proof.
  unfold make_output_dir. case_bool_decide; [apply agree_ret |].
  apply agree_bind; [apply agree_path_exists |].
  intros found. apply agree_if; [apply agree_makedirs | apply agree_ret].
Qed.

Lemma agree_write_arm64_image f bl kl :
  agree (write_arm64_image h f bl kl) (write_arm64_image h f bl kl).
Proof.
  unfold write_arm64_image.
  repeat first
    [ apply agree_bind; [| intros ?]
    | apply agree_if
    | apply agree_f_write | apply agree_f_tell | apply agree_print
    | apply agree_ret ].
Qed.

Lemma agree_create_arm64_image k b o :
  agree (create_arm64_image h k b o) (create_arm64_image h k b o).
Proof.
  unfold create_arm64_image.
  do 3 (apply agree_bind; [apply agree_print | intros _]).
  apply agree_bind.
  { apply agree_try; [| intros e].
    - apply agree_bind; [apply agree_read_file | intros d].
      apply agree_bind; [apply agree_print | intros _; apply agree_ret].
    - apply agree_bind; [apply agree_print | intros _; apply agree_ret]. }
  intros [kernel_data |]; [| apply agree_ret].
  apply agree_bind.
  { apply agree_try; [| intros e].
    - apply agree_bind; [apply agree_read_file | intros d].
      apply agree_bind; [apply agree_print | intros _; apply agree_ret].
    - apply agree_bind; [apply agree_print | intros _; apply agree_ret]. }
  intros [bootloader_data |]; [| apply agree_ret].
  apply agree_try; [| intros e].
  - apply agree_bind; [apply agree_open_wb | intros _].
    apply agree_bind; [apply agree_write_arm64_image | intros _].
    apply agree_ret.
  - apply agree_bind; [apply agree_print | intros _; apply agree_ret].
Qed.

Lemma agree_create_x86_64_image k b o :
  agree (create_x86_64_image h k b o) (create_arm64_image h k b o).
Proof.
  unfold create_x86_64_image.
  do 2 apply agree_print_l. apply agree_create_arm64_image.
Qed.

End Agree.

(** ** The example inputs *)

Lemma inputs_kernel kernel bootloader :
  fs (inputs kernel bootloader) !! "kernel.elf" = Some (File kernel).
Proof. apply lookup_insert_eq. Qed.

Lemma inputs_bootloader kernel bootloader :
  fs (inputs kernel bootloader) !! "boot.bin" = Some (File bootloader).
Proof.
  unfold inputs. cbn [fs].
  rewrite lookup_insert_ne by done. apply lookup_insert_eq.
Qed.

Lemma inputs_other kernel bootloader path :
  path <> "kernel.elf" -> path <> "boot.bin" -> path <> "/tmp" ->
  fs (inputs kernel bootloader) !! path = None.
Proof.
  intros H1 H2 H3. unfold inputs. cbn [fs].
  rewrite !lookup_insert_ne by done. by apply lookup_singleton_ne.
Qed.

(** ** The raw image *)

(** C1 (amended): on readable inputs and an output that can be opened (a file
    is there, or nothing is there and the path names a new file in an existing
    directory; no I/O error of the host) the raw image builder succeeds and
    writes an image with the bootloader bytes at offsets [0, bootloaderSize),
    the kernel bytes at [kernelOffset, kernelOffset + kernelSize), every other
    byte zero, and a total length of max(kernelOffset + kernelSize, 16 MiB);
    for a bootloader of 512 bytes and a kernel of 2,097,152 bytes the image
    has 16,777,216 bytes, the bootloader at 0..511, the kernel at
    1,048,576..3,145,727 and zeros elsewhere. *)
Theorem raw_image_layout h k b o bl kl s :
  (forall op, io_fault h op = None) ->
  fs s !! k = Some (File kl) ->
  fs s !! b = Some (File bl) ->
  openable (fs s) o = true ->
  let kernelOffset := roundUpToMultiple (blen bl) MiB in
  exists s' img,
    create_arm64_image h k b o s = (Ret true, s')
    /\ fs s' !! o = Some (File img)
    /\ blen img = Z.max (kernelOffset + blen kl) (16 * MiB)
    /\ (forall i, 0 <= i < blen bl -> byte_at img i = byte_at bl i)
    /\ (forall i, kernelOffset <= i < kernelOffset + blen kl ->
          byte_at img i = byte_at kl (i - kernelOffset))
    /\ (forall i, 0 <= i < blen img ->
          ~ (0 <= i < blen bl) ->
          ~ (kernelOffset <= i < kernelOffset + blen kl) ->
          byte_at img i = Some x00)
    /\ (blen bl = 512 -> blen kl = 2097152 ->
          blen img = 16777216
          /\ (forall i, 0 <= i <= 511 -> byte_at img i = byte_at bl i)
          /\ (forall i, 1048576 <= i <= 3145727 ->
                byte_at img i = byte_at kl (i - 1048576))
          /\ (forall i, 512 <= i < 1048576 \/ 3145728 <= i < 16777216 ->
                byte_at img i = Some x00)).
Proof.
  intros quiet Ek Eb Ho ko.
  destruct (create_arm64_image_ok h quiet k b o bl kl s Ek Eb Ho)
    as (s' & E & F & _).
  assert (0 < MiB) as HM by done.
  pose proof (assemble_length MiB (16 * MiB) bl kl HM) as Hlen.
  exists s', (assemble MiB (16 * MiB) bl kl).
  split; [exact E |]. split; [rewrite F; apply lookup_insert_eq |].
  split; [exact Hlen |].
  split; [intros i Hi; by apply assemble_bootloader |].
  split; [intros i Hi; by apply assemble_kernel |].
  split; [intros i Hi Hb Hk; by apply assemble_gap |].
  intros Hb Hk.
  assert (ko = 1048576) as Hko by (subst ko; rewrite Hb; reflexivity).
  assert (blen (assemble MiB (16 * MiB) bl kl) = 16777216) as Hlen'.
  { rewrite Hlen. fold ko. rewrite Hko, Hk. reflexivity. }
  split; [exact Hlen' |].
  split; [intros i Hi; apply assemble_bootloader; lia |].
  split.
  - intros i Hi. rewrite <- Hko. apply assemble_kernel; [done |].
    fold ko. lia.
  - intros i Hi. apply assemble_gap; [done | | |]; fold ko; lia.
Qed.

(** The input against the length C1 states: a bootloader of 512 bytes and a
    kernel of 16 MiB + 1 bytes give an image of 17,825,793 bytes, where
    [totalSize] of the specification is 18,874,368. *)
Lemma raw_image_length_not_totalSize :
  exists s' img,
    create_arm64_image bare_host "kernel.elf" "boot.bin" "minios.img"
      (inputs (zeros 16777217) (zeros 512)) = (Ret true, s')
    /\ fs s' !! "minios.img" = Some (File img)
    /\ blen img = 17825793
    /\ spec_totalSize (blen (zeros 512)) (blen (zeros 16777217)) = 18874368
    /\ blen img <> spec_totalSize (blen (zeros 512)) (blen (zeros 16777217)).
Proof.
  destruct (create_arm64_image_ok bare_host ltac:(done)
              "kernel.elf" "boot.bin" "minios.img"
              (zeros 512) (zeros 16777217)
              (inputs (zeros 16777217) (zeros 512)))
    as (s' & E & F & _).
  - apply inputs_kernel.
  - apply inputs_bootloader.
  - unfold openable. by rewrite inputs_other.
  - exists s', (assemble MiB (16 * MiB) (zeros 512) (zeros 16777217)).
    split; [exact E |]. split; [rewrite F; apply lookup_insert_eq |].
    rewrite assemble_length by done. rewrite !blen_zeros.
    split; [reflexivity |]. split; [reflexivity |]. discriminate.
Qed.

Lemma raw_image_layout_witness :
  exists s' img,
    create_arm64_image bare_host "kernel.elf" "boot.bin" "minios.img"
      (inputs [x7f; x45; x4c; x46] [xeb; xfe]) = (Ret true, s')
    /\ fs s' !! "minios.img" = Some (File img)
    /\ blen img = 16777216
    /\ byte_at img 1 = Some xfe
    /\ byte_at img 2 = Some x00
    /\ byte_at img 1048576 = Some x7f.
Proof.
  destruct (raw_image_layout bare_host "kernel.elf" "boot.bin" "minios.img"
              [xeb; xfe] [x7f; x45; x4c; x46]
              (inputs [x7f; x45; x4c; x46] [xeb; xfe]))
    as (s' & img & E & F & L & B & K & G & _).
  - intros op. reflexivity.
  - reflexivity.
  - reflexivity.
  - reflexivity.
  - exists s', img.
    split; [exact E |]. split; [exact F |]. split; [exact L |].
    split; [apply (B 1); vm_compute; split; congruence |].
    split.
    + apply (G 2); rewrite ?L; vm_compute; intuition congruence.
    + apply (K 1048576). vm_compute. split; congruence.
Defined.

(** C2: the position the raw image builder keeps in [kernel_offset] is
    roundUpToMultiple(bootloaderSize, 1 MiB), the smallest multiple of
    1 MiB that is at least the bootloader size; between the bootloader and
    the kernel it writes kernelOffset - bootloaderSize zero bytes, which is
    no byte at all when the bootloader size is a multiple of 1 MiB (such as
    1,048,576), and then the kernel offset is the bootloader size. *)
Theorem kernel_offset_round_up h f bl kl s :
  (forall op, io_fault h op = None) ->
  fs s !! f = Some (File []) ->
  exists s' kernel_offset final_size,
    write_arm64_image h f bl kl s = (Ret (kernel_offset, final_size), s')
    /\ kernel_offset = roundUpToMultiple (blen bl) MiB
    /\ kernel_offset mod MiB = 0
    /\ blen bl <= kernel_offset
    /\ (forall m, m mod MiB = 0 -> blen bl <= m -> kernel_offset <= m)
    /\ (exists fill,
          fs s' !! f
          = Some (File (bl ++ zeros (kernel_offset - blen bl) ++ kl ++ fill)))
    /\ (blen bl mod MiB = 0 ->
          kernel_offset = blen bl /\ zeros (kernel_offset - blen bl) = [])
    /\ (blen bl = 1048576 -> kernel_offset = 1048576).
Proof.
  intros quiet E0.
  destruct (write_arm64_image_ok h quiet f bl kl s E0) as (s' & E & F & _).
  assert (0 < MiB) as HM by done.
  destruct (roundUp_bounds (blen bl) MiB HM) as [Hmod [Hle _]].
  exists s', (roundUpToMultiple (blen bl) MiB),
    (Z.max (roundUpToMultiple (blen bl) MiB + blen kl) (16 * MiB)).
  split; [exact E |]. split; [reflexivity |].
  split; [exact Hmod |]. split; [exact Hle |].
  split; [intros m Hm Hb; by apply roundUp_least |].
  split.
  { eexists. rewrite F, lookup_insert_eq. reflexivity. }
  split.
  - intros Hb. rewrite roundUp_aligned by done.
    split; [reflexivity | apply zeros_nil; lia].
  - intros Hb. rewrite Hb. reflexivity.
Qed.

Lemma kernel_offset_round_up_witness :
  exists s' final_size,
    write_arm64_image bare_host "minios.img" [xeb; xfe] [x7f]
      (set_fs {[ "minios.img" := File [] ]} (inputs [] []))
    = (Ret (1048576, final_size), s').
Proof.
  destruct (kernel_offset_round_up bare_host "minios.img" [xeb; xfe] [x7f]
              (set_fs {[ "minios.img" := File [] ]} (inputs [] [])))
    as (s' & ko & total & E & Hko & _).
  - intros op. reflexivity.
  - reflexivity.
  - exists s', total. rewrite E, Hko. reflexivity.
Defined.

(** C3 (amended): the position the raw image builder keeps in [final_size]
    is max(kernelOffset + kernelSize, 16 MiB) and is the length of the
    image; it is at least kernelOffset + kernelSize and at least 16 MiB;
    whenever kernelOffset + kernelSize is at most 16 MiB or a multiple of
    1 MiB it is [totalSize] of the specification's formula and a multiple
    of 1 MiB. *)
Theorem total_size_floor h f bl kl s :
  (forall op, io_fault h op = None) ->
  fs s !! f = Some (File []) ->
  exists s' kernel_offset final_size img,
    write_arm64_image h f bl kl s = (Ret (kernel_offset, final_size), s')
    /\ fs s' !! f = Some (File img)
    /\ blen img = final_size
    /\ kernel_offset = roundUpToMultiple (blen bl) MiB
    /\ final_size = Z.max (kernel_offset + blen kl) (16 * MiB)
    /\ kernel_offset + blen kl <= final_size
    /\ 16 * MiB <= final_size
    /\ (kernel_offset + blen kl <= 16 * MiB
        \/ (kernel_offset + blen kl) mod MiB = 0 ->
        final_size = spec_totalSize (blen bl) (blen kl)
        /\ final_size mod MiB = 0).
Proof.
  intros quiet E0.
  destruct (write_arm64_image_ok h quiet f bl kl s E0) as (s' & E & F & _).
  assert (0 < MiB) as HM by done.
  exists s', (roundUpToMultiple (blen bl) MiB),
    (Z.max (roundUpToMultiple (blen bl) MiB + blen kl) (16 * MiB)),
    (assemble MiB (16 * MiB) bl kl).
  split; [exact E |]. split; [rewrite F; apply lookup_insert_eq |].
  split; [by apply assemble_length |]. split; [reflexivity |].
  split; [reflexivity |]. split; [lia |]. split; [lia |].
  intros Hcase. unfold spec_totalSize.
  set (used := roundUpToMultiple (blen bl) MiB + blen kl) in *.
  destruct (roundUp_bounds used MiB HM) as [Hmod [Hle Hlt]].
  assert (16 * MiB mod MiB = 0) as H16 by reflexivity.
  destruct (Z.le_gt_cases used (16 * MiB)) as [Hsmall | Hbig].
  - pose proof (roundUp_least used MiB (16 * MiB) HM H16 Hsmall).
    rewrite !Z.max_r by lia. done.
  - destruct Hcase as [Hc | Hc]; [lia |].
    rewrite (roundUp_aligned used MiB HM Hc).
    rewrite !Z.max_l by lia. done.
Qed.

Lemma total_size_floor_witness :
  exists s',
    write_arm64_image bare_host "minios.img" [xeb; xfe] [x7f]
      (set_fs {[ "minios.img" := File [] ]} (inputs [] []))
    = (Ret (1048576, 16777216), s').
Proof.
  destruct (total_size_floor bare_host "minios.img" [xeb; xfe] [x7f]
              (set_fs {[ "minios.img" := File [] ]} (inputs [] [])))
    as (s' & ko & total & img & E & _ & _ & Hko & Ht & _).
  - intros op. reflexivity.
  - reflexivity.
  - exists s'. rewrite E, Ht, Hko. reflexivity.
Defined.

(** The input against C3: with a bootloader of 512 bytes and a kernel of
    16 MiB + 1 bytes the total size is 17,825,793, which is neither a
    multiple of 1 MiB nor the 18,874,368 of the specification's formula. *)
Lemma total_size_not_rounded :
  exists s',
    write_arm64_image bare_host "minios.img" (zeros 512) (zeros 16777217)
      (set_fs {[ "minios.img" := File [] ]} (inputs [] []))
    = (Ret (1048576, 17825793), s')
    /\ 17825793 mod MiB <> 0
    /\ 17825793
       <> spec_totalSize (blen (zeros 512)) (blen (zeros 16777217)).
Proof.
  destruct (write_arm64_image_ok bare_host ltac:(done) "minios.img"
              (zeros 512) (zeros 16777217)
              (set_fs {[ "minios.img" := File [] ]} (inputs [] [])))
    as (s' & E & _); [reflexivity |].
  exists s'. rewrite !blen_zeros in *.
  split; [exact E |]. split; discriminate.
Qed.

(** C8: the fallback image builder and the raw image builder write the same
    layout, [assemble], each at its own alignment unit and minimum size: on
    the same readable inputs and an output that is neither of them and can be
    opened (a file is there, or nothing is there and the path names a new file
    in an existing directory; no I/O error of the host), the fallback writes
    the bootloader, zeros to the next multiple of 512 bytes, the kernel, and
    zeros up to 2 MiB; the raw image builder writes the bootloader, zeros to
    the next multiple of 1 MiB, the kernel, and zeros up to 16 MiB. *)
Theorem fallback_shares_layout h k b o bl kl s :
  (forall op, io_fault h op = None) ->
  fs s !! k = Some (File kl) ->
  fs s !! b = Some (File bl) ->
  openable (fs s) o = true ->
  o <> k -> o <> b ->
  (exists s1,
     create_simple_iso h k b o s = (Ret true, s1)
     /\ fs s1 !! o = Some (File (assemble 512 (2 * MiB) bl kl)))
  /\ (exists s2,
        create_arm64_image h k b o s = (Ret true, s2)
        /\ fs s2 !! o = Some (File (assemble MiB (16 * MiB) bl kl)))
  /\ assemble 512 (2 * MiB) bl kl
     = bl ++ zeros (roundUpToMultiple (blen bl) 512 - blen bl) ++ kl
       ++ zeros (2 * MiB - (roundUpToMultiple (blen bl) 512 + blen kl))
  /\ blen (assemble 512 (2 * MiB) bl kl)
     = Z.max (roundUpToMultiple (blen bl) 512 + blen kl) (2 * MiB).
Proof.
  intros quiet Ek Eb Ho Hok Hob.
  destruct (create_simple_iso_ok h quiet k b o bl kl s Ek Eb Ho Hok Hob)
    as (s1 & E1 & F1 & _).
  destruct (create_arm64_image_ok h quiet k b o bl kl s Ek Eb Ho)
    as (s2 & E2 & F2 & _).
  split; [exists s1; split; [exact E1 | rewrite F1; apply lookup_insert_eq] |].
  split; [exists s2; split; [exact E2 | rewrite F2; apply lookup_insert_eq] |].
  split; [reflexivity | by apply assemble_length].
Qed.

Lemma fallback_shares_layout_witness :
  exists s1,
    create_simple_iso bare_host "kernel.elf" "boot.bin" "minios.iso"
      (inputs [x7f; x45] [xeb; xfe]) = (Ret true, s1)
    /\ fs s1 !! "minios.iso"
       = Some (File (assemble 512 (2 * MiB) [xeb; xfe] [x7f; x45])).
Proof.
  destruct (fallback_shares_layout bare_host "kernel.elf" "boot.bin"
              "minios.iso" [xeb; xfe] [x7f; x45]
              (inputs [x7f; x45] [xeb; xfe]))
    as (Hs & _).
  - intros op. reflexivity.
  - reflexivity.
  - reflexivity.
  - reflexivity.
  - discriminate.
  - discriminate.
  - exact Hs.
Defined.

(** C10: for every kernel, bootloader and output path, and from every
    state, building with architecture x86_64 ends the same way (the same
    result or the same exception) and leaves the same files as building
    with architecture arm64, both for the two builders and for the command
    line tool; only the printed lines differ. *)
Theorem x86_64_image_is_arm64_image h k b o verbose s :
  fst (create_x86_64_image h k b o s) = fst (create_arm64_image h k b o s)
  /\ fs (snd (create_x86_64_image h k b o s))
     = fs (snd (create_arm64_image h k b o s))
  /\ fst (image_main h (ImageArgs x86_64 k b o verbose) s)
     = fst (image_main h (ImageArgs arm64 k b o verbose) s)
  /\ fs (snd (image_main h (ImageArgs x86_64 k b o verbose) s))
     = fs (snd (image_main h (ImageArgs arm64 k b o verbose) s)).
Proof.
  assert (agree (image_main h (ImageArgs x86_64 k b o verbose))
                (image_main h (ImageArgs arm64 k b o verbose))) as Hmain.
  { unfold image_main. cbn [ia_arch ia_kernel ia_bootloader ia_output
                            ia_verbose].
    apply agree_bind.
    { destruct verbose; [| apply agree_ret].
      do 2 (apply agree_bind; [apply agree_print | intros _]).
      apply agree_print. }
    intros _. apply agree_bind; [apply agree_validate_inputs | intros _].
    apply agree_bind; [apply agree_make_output_dir | intros _].
    apply agree_bind; [apply agree_create_x86_64_image | intros success].
    apply agree_if;
      (apply agree_bind; [apply agree_print | intros _; apply agree_raise]). }
  destruct (agree_create_x86_64_image h k b o s s eq_refl) as [H1 H2].
  destruct (Hmain s s eq_refl) as [H3 H4].
  done.
Qed.

(** ** Paths *)

Lemma append_nil_l b : "" +:+ b = b.
Proof. reflexivity. Qed.

Lemma append_cons c a b : String c a +:+ b = String c (a +:+ b).
Proof. reflexivity. Qed.

Lemma append_nil_r a : a +:+ "" = a.
Proof.
  induction a as [| c a IH]; [done |]. by rewrite append_cons, IH.
Qed.

Lemma append_assoc a b c : (a +:+ b) +:+ c = a +:+ (b +:+ c).
Proof.
  induction a as [| x a IH]; [done |]. by rewrite !append_cons, IH.
Qed.

Lemma append_inv_head a x y : a +:+ x = a +:+ y -> x = y.
Proof.
  induction a as [| c a IH]; [done |].
  rewrite !append_cons. intros E. injection E as E. by apply IH.
Qed.

Lemma length_append a b :
  String.length (a +:+ b) = (String.length a + String.length b)%nat.
Proof.
  induction a as [| c a IH]; [done |].
  rewrite append_cons. simpl. by rewrite IH.
Qed.

Lemma list_ascii_append a b :
  String.list_ascii_of_string (a +:+ b)
  = String.list_ascii_of_string a ++ String.list_ascii_of_string b.
Proof.
  induction a as [| c a IH]; [done |].
  rewrite append_cons. simpl. by rewrite IH.
Qed.

Lemma starts_with_append a r : starts_with a (a +:+ r) = true.
Proof.
  induction a as [| c a IH]; [done |].
  rewrite append_cons. simpl. by rewrite Ascii.eqb_refl.
Qed.

Lemma starts_with_inv a p :
  starts_with a p = true -> exists r, p = a +:+ r.
Proof.
  revert p. induction a as [| c a IH]; intros p; simpl.
  - intros _. by exists p.
  - destruct p as [| d p]; [done |].
    destruct (Ascii.eqb_spec c d) as [-> |]; [| done].
    intros Hp. destruct (IH p Hp) as [r ->]. by exists r.
Qed.

(** The last character of [a +:+ b] is that of [b]. *)
Lemma ends_with_slash_append a b :
  b <> "" -> ends_with_slash (a +:+ b) = ends_with_slash b.
Proof.
  intros Hb. unfold ends_with_slash.
  rewrite list_ascii_append, reverse_app.
  destruct (reverse (String.list_ascii_of_string b)) as [| c r] eqn:Er.
  - destruct b; [done |].
    apply (f_equal length) in Er. rewrite length_reverse in Er. done.
  - done.
Qed.

Lemma in_tree_inv dir p :
  in_tree dir p = true -> exists r, p = dir +:+ r.
Proof.
  unfold in_tree. intros H. apply orb_true_iff in H as [H | H].
  - apply bool_decide_eq_true in H as ->. exists "".
    by rewrite append_nil_r.
  - apply starts_with_inv in H as [r ->]. exists ("/" +:+ r).
    by rewrite append_assoc.
Qed.

Lemma in_tree_self dir : in_tree dir dir = true.
Proof. unfold in_tree. by rewrite bool_decide_eq_true_2. Qed.

Lemma in_tree_below dir r : in_tree dir (dir +:+ "/" +:+ r) = true.
Proof.
  unfold in_tree. rewrite <- append_assoc, starts_with_append.
  apply orb_true_r.
Qed.

Lemma in_tree_length dir p :
  in_tree dir p = true -> (String.length dir <= String.length p)%nat.
Proof.
  intros H. apply in_tree_inv in H as [r ->]. rewrite length_append. lia.
Qed.

(** A directory above a path is shorter than the path. *)
Lemma ancestors_from_length acc rest a :
  a ∈ ancestors_from acc rest ->
  (String.length a < String.length acc + String.length rest)%nat.
Proof.
  revert acc. induction rest as [| c rest IH]; intros acc; simpl.
  - by intros H%elem_of_nil.
  - intros H. apply elem_of_app in H as [H | H].
    + destruct (_ && _); [| by apply elem_of_nil in H].
      apply list_elem_of_singleton in H as ->. lia.
    + apply IH in H. rewrite length_append in H. simpl in H. lia.
Qed.

Lemma ancestors_length path a :
  a ∈ ancestors path -> (String.length a < String.length path)%nat.
Proof. intros H. apply ancestors_from_length in H. simpl in H. lia. Qed.

Lemma ancestors_from_append acc x y :
  ancestors_from acc (x +:+ y)
  = ancestors_from acc x ++ ancestors_from (acc +:+ x) y.
Proof.
  revert acc. induction x as [| c x IH]; intros acc.
  - by rewrite append_nil_l, append_nil_r.
  - rewrite append_cons. simpl. rewrite IH, append_assoc.
    by rewrite app_assoc.
Qed.

(** The directories above one of the directories above a path are those
    listed before it. *)
Lemma ancestors_from_prefix acc rest pre a post :
  ancestors_from acc rest = pre ++ a :: post ->
  exists r1 r2,
    rest = r1 +:+ r2 /\ a = acc +:+ r1 /\ ancestors_from acc r1 = pre.
Proof.
  revert acc pre. induction rest as [| c rest IH]; intros acc pre; simpl.
  - intros E. by destruct pre.
  - destruct (is_slash c && negb (bool_decide (acc = ""))
              && negb (ends_with_slash acc)) eqn:Hc; cbn [app].
    + destruct pre as [| x pre]; cbn [app]; intros E; injection E as -> E.
      * exists "", (String c rest). by rewrite append_nil_r.
      * destruct (IH _ _ E) as (r1 & r2 & -> & -> & <-).
        exists (String c r1), r2. rewrite append_cons. split; [done |].
        split; [by rewrite append_assoc |]. simpl. by rewrite Hc.
    + intros E. destruct (IH _ _ E) as (r1 & r2 & -> & -> & <-).
      exists (String c r1), r2. rewrite append_cons. split; [done |].
      split; [by rewrite append_assoc |]. simpl. by rewrite Hc.
Qed.

Lemma ancestors_of_ancestor name pre a post :
  ancestors name = pre ++ a :: post -> ancestors a = pre.
Proof.
  intros E. apply ancestors_from_prefix in E as (r1 & r2 & _ & -> & <-).
  by rewrite append_nil_l.
Qed.

(** A name without a slash adds no directory. *)
Lemma ancestors_from_name acc name :
  forallb (fun c => negb (is_slash c)) (String.list_ascii_of_string name)
  = true ->
  ancestors_from acc name = [].
Proof.
  revert acc. induction name as [| c name IH]; intros acc; simpl; [done |].
  intros H. apply andb_true_iff in H as [Hc H].
  apply negb_true_iff in Hc. rewrite Hc. cbn [andb app]. by apply IH.
Qed.

(** The parent of a name in a directory is the directory. *)
Lemma ancestors_child dir name :
  dir <> "" -> ends_with_slash dir = false ->
  forallb (fun c => negb (is_slash c)) (String.list_ascii_of_string name)
  = true ->
  ancestors (dir +:+ "/" +:+ name) = ancestors dir ++ [dir].
Proof.
  intros Hd Hs Hn. unfold ancestors.
  rewrite ancestors_from_append, append_nil_l. f_equal.
  change ("/" +:+ name) with (String "/" name). simpl.
  rewrite Hs, bool_decide_eq_false_2 by done. cbn [negb andb app].
  by rewrite ancestors_from_name.
Qed.

Lemma parent_child dir name :
  dir <> "" -> ends_with_slash dir = false ->
  forallb (fun c => negb (is_slash c)) (String.list_ascii_of_string name)
  = true ->
  parent (dir +:+ "/" +:+ name) = Some dir.
Proof.
  intros Hd Hs Hn. unfold parent. rewrite ancestors_child by done.
  apply last_snoc.
Qed.

Lemma parent_elem_of path dir : parent path = Some dir -> dir ∈ ancestors path.
Proof.
  unfold parent. intros E. apply last_Some in E as [l ->].
  apply elem_of_app. right. by apply list_elem_of_singleton.
Qed.

(** A path of slashes has no directory above it. *)
Lemma ancestors_from_slashes acc rest :
  acc = "" \/ ends_with_slash acc = true ->
  forallb is_slash (String.list_ascii_of_string rest) = true ->
  ancestors_from acc rest = [].
Proof.
  revert acc. induction rest as [| c rest IH]; intros acc Hacc; simpl;
    [done |].
  intros H. apply andb_true_iff in H as [Hc H].
  rewrite IH; [| right; by rewrite ends_with_slash_append | done].
  destruct Hacc as [-> | ->]; [| by rewrite andb_false_r].
  by rewrite andb_false_r.
Qed.

(** A path that has a parent is neither empty nor the root. *)
Lemma parent_plain path dir : parent path = Some dir -> no_file_path path = None.
Proof.
  unfold parent, no_file_path, ancestors. intros Ep.
  case_bool_decide as E; [by subst path |].
  destruct (forallb is_slash (String.list_ascii_of_string path)) eqn:Hs;
    [| done].
  rewrite ancestors_from_slashes in Ep; [done | by left | done].
Qed.

Lemma parent_error_cases f path :
  parent_error f path = None
  \/ parent_error f path = Some (NotADirectoryError path)
  \/ parent_error f path = Some (FileNotFoundError path).
Proof.
  unfold parent_error. destruct (parent path) as [dir |]; [| by left].
  destruct (f !! dir) as [[] |]; [by right; left | by left |].
  destruct (existsb _ _); right; [by left | by right].
Qed.

Lemma open_error_cases f path :
  open_error f path = None
  \/ open_error f path = Some (NotADirectoryError path)
  \/ open_error f path = Some (FileNotFoundError path)
  \/ open_error f path = Some (IsADirectoryError path).
Proof.
  unfold open_error, no_file_path.
  case_bool_decide; [by right; right; left |].
  destruct (forallb _ _); [by right; right; right |].
  destruct (parent_error_cases f path) as [-> | [-> | ->]]; auto.
Qed.

(** Nothing stands in the way at a path whose parent is a directory. *)
Lemma parent_error_dir (f : gmap string node) path dir :
  parent path = Some dir -> f !! dir = Some Dir -> parent_error f path = None.
Proof. intros Ep Ed. unfold parent_error. by rewrite Ep, Ed. Qed.

Lemma open_error_dir (f : gmap string node) path dir :
  parent path = Some dir -> f !! dir = Some Dir -> open_error f path = None.
Proof.
  intros Ep Ed. unfold open_error.
  by rewrite (parent_plain path dir Ep), (parent_error_dir f path dir).
Qed.

Lemma openable_new (f : gmap string node) path dir :
  f !! path = None -> parent path = Some dir -> f !! dir = Some Dir ->
  openable f path = true.
Proof.
  intros E Ep Ed. unfold openable. by rewrite E, (open_error_dir f path dir).
Qed.

Lemma openable_file (f : gmap string node) path data :
  f !! path = Some (File data) -> openable f path = true.
Proof. intros E. unfold openable. by rewrite E. Qed.

(** A place stays openable when what exists is kept and nothing appears at
    the place. *)
Lemma openable_mono (f f' : gmap string node) path :
  openable f path = true ->
  (forall p n, f !! p = Some n -> f' !! p = Some n) ->
  (f !! path = None -> f' !! path = None) ->
  openable f' path = true.
Proof.
  unfold openable. intros Ho Hkeep Hnew.
  destruct (f !! path) as [[d |] |] eqn:E; [| done |].
  - by rewrite (Hkeep _ _ E).
  - rewrite (Hnew eq_refl). unfold open_error, parent_error in *.
    destruct (no_file_path path); [done |].
    destruct (parent path) as [dir |]; [| done].
    destruct (f !! dir) as [[] |] eqn:Ed; try done.
    + by rewrite (Hkeep _ _ Ed).
    + by destruct (existsb _ _).
Qed.

Lemma openable_not_dir (f : gmap string node) path :
  openable f path = true -> is_dir f path = false.
Proof. unfold openable, is_dir. by destruct (f !! path) as [[]|]. Qed.

(** [os.path.join] with a directory that is named and has no final slash,
    and a relative name. *)
Lemma path_join_below dir name :
  dir <> "" -> ends_with_slash dir = false ->
  starts_with "/" name = false ->
  path_join dir name = dir +:+ "/" +:+ name.
Proof.
  intros Hd Hs Hn. unfold path_join. rewrite Hn, Hs.
  by rewrite bool_decide_eq_false_2.
Qed.

Lemma path_join_suffix dir name :
  starts_with "/" name = false ->
  exists x, path_join dir name = x +:+ name.
Proof.
  intros Hn. unfold path_join. rewrite Hn.
  destruct (_ || _).
  - by exists dir.
  - exists (dir +:+ "/"). by rewrite append_assoc.
Qed.

Lemma append_nonempty x name : name <> "" -> x +:+ name <> "".
Proof.
  intros Hn. destruct x; [done |]. rewrite append_cons. discriminate.
Qed.

(** ** The staging tree *)

Lemma bool_decide_elem_of_cons_ne (p a : string) l :
  p <> a -> bool_decide (p ∈ a :: l) = bool_decide (p ∈ l).
Proof.
  intros Hne. apply bool_decide_ext. rewrite elem_of_cons. tauto.
Qed.

Lemma lookup_mkdirs l (f : gmap string node) p :
  foldr mkdir_missing f l !! p
  = match f !! p with
    | Some n => Some n
    | None => if bool_decide (p ∈ l) then Some Dir else None
    end.
Proof.
  revert p. induction l as [| a l IH]; intros p; cbn [foldr].
  - destruct (f !! p); [done |]. rewrite bool_decide_eq_false_2; [done |].
    apply not_elem_of_nil.
  - unfold mkdir_missing at 1.
    destruct (foldr mkdir_missing f l !! a) as [n |] eqn:Ea;
      rewrite IH in Ea.
    + rewrite IH. destruct (f !! p) eqn:Ep; [done |].
      destruct (decide (p = a)) as [-> | Hne].
      * rewrite Ep in Ea. case_bool_decide as Hin; [| done].
        rewrite bool_decide_eq_true_2; [done |]. by right.
      * by rewrite bool_decide_elem_of_cons_ne.
    + destruct (f !! a) eqn:Efa; [done |].
      destruct (decide (p = a)) as [-> | Hne].
      * rewrite lookup_insert_eq, Efa.
        rewrite bool_decide_eq_true_2; [done |]. by left.
      * rewrite lookup_insert_ne by done. rewrite IH.
        by rewrite bool_decide_elem_of_cons_ne.
Qed.

Lemma boot_shape t :
  let boot := path_join t "boot" in
  boot <> ""
  /\ ends_with_slash boot = false
  /\ path_join boot "kernel.elf" = boot +:+ "/kernel.elf"
  /\ path_join boot "bootloader.bin" = boot +:+ "/bootloader.bin"
  /\ path_join boot "grub" = boot +:+ "/grub"
  /\ path_join (boot +:+ "/grub") "grub.cfg" = boot +:+ "/grub/grub.cfg"
  /\ ancestors (boot +:+ "/grub") = ancestors boot ++ [boot].
Proof.
  intros boot.
  destruct (path_join_suffix t "boot" eq_refl) as [x Hx].
  assert (boot <> "") as Hne.
  { subst boot. rewrite Hx. by apply append_nonempty. }
  assert (ends_with_slash boot = false) as Hs.
  { subst boot. rewrite Hx. by rewrite ends_with_slash_append. }
  split; [done |]. split; [done |].
  split; [by apply path_join_below |].
  split; [by apply path_join_below |].
  split; [by apply path_join_below |].
  split.
  - rewrite path_join_below; [by rewrite append_assoc | | | done].
    + by apply append_nonempty.
    + change (boot +:+ "/grub") with (boot +:+ "/" +:+ "grub").
      rewrite <- append_assoc. by rewrite ends_with_slash_append.
  - unfold ancestors. rewrite ancestors_from_append, append_nil_l.
    f_equal. simpl. rewrite Hs. by rewrite bool_decide_eq_false_2.
Qed.

Section Staging.

Context (h : host).
Hypothesis quiet : forall op, io_fault h op = None.

Lemma mkdir_ok name s :
  fs s !! name = None ->
  parent_error (fs s) name = None ->
  mkdir h name s = (Ret tt, set_fs (<[name := Dir]> (fs s)) s).
Proof. intros E Ep. unfold mkdir. by rewrite E, Ep, quiet. Qed.

(** The levels that are left to make, after those listed before them are
    directories. *)
Lemma makedirs_levels_ok name todo :
  forall made s,
    ancestors name = made ++ todo ->
    Forall (fun a => is_dir (fs s) a = true) made ->
    existsb (is_file (fs s)) todo = false ->
    exists f',
      makedirs_levels h todo s = (Ret tt, set_fs f' s)
      /\ forall p,
           f' !! p = match fs s !! p with
                     | Some n => Some n
                     | None => if bool_decide (p ∈ todo) then Some Dir
                               else None
                     end.
Proof.
  induction todo as [| level rest IH]; intros made s Ea Hmade Hfile.
  - exists (fs s). rewrite set_fs_same. split; [done |].
    intros p. destruct (fs s !! p); [done |].
    rewrite bool_decide_eq_false_2; [done | apply not_elem_of_nil].
  - cbn [existsb] in Hfile. apply orb_false_elim in Hfile as [Hl Hfile].
    cbn [makedirs_levels].
    unfold bind at 1, path_exists at 1. cbv beta iota.
    assert (ancestors name = (made ++ [level]) ++ rest) as Ea'
      by (by rewrite <- app_assoc).
    destruct (fs s !! level) as [n |] eqn:El.
    + rewrite bool_decide_eq_true_2 by eauto. cbn [negb].
      unfold bind at 1, ret at 1. cbv beta iota.
      destruct (IH (made ++ [level]) s Ea') as (f' & E & Hf'); [| done |].
      { apply Forall_app. split; [done |]. apply Forall_singleton.
        unfold is_dir, is_file in *. rewrite El in *. by destruct n. }
      exists f'. split; [exact E |]. intros p. rewrite Hf'.
      destruct (fs s !! p) eqn:Ep; [done |].
      rewrite bool_decide_elem_of_cons_ne; [done |]. intros ->. congruence.
    + rewrite bool_decide_eq_false_2 by (by intros [? ?]). cbn [negb].
      assert (parent_error (fs s) level = None) as Hp.
      { unfold parent_error, parent.
        rewrite (ancestors_of_ancestor name made level rest Ea).
        destruct (last made) as [dir |] eqn:Ed; [| done].
        apply last_Some in Ed as [l ->].
        rewrite Forall_app, Forall_singleton in Hmade.
        destruct Hmade as [_ Hd]. unfold is_dir in Hd.
        by destruct (fs s !! dir) as [[]|]. }
      unfold bind at 1. rewrite (mkdir_ok level s El Hp). cbv beta iota.
      set (s1 := set_fs _ s).
      destruct (IH (made ++ [level]) s1 Ea') as (f' & E & Hf').
      { apply Forall_app. split.
        - eapply Forall_impl; [exact Hmade |]. intros a Ha.
          unfold is_dir in *. subst s1. cbn [fs set_fs].
          destruct (decide (a = level)) as [-> | Hne];
            [by rewrite lookup_insert_eq | by rewrite lookup_insert_ne].
        - apply Forall_singleton. unfold is_dir. subst s1. cbn [fs set_fs].
          by rewrite lookup_insert_eq. }
      { apply not_true_iff_false. intros Hex.
        apply existsb_exists in Hex as (a & Ha & Hf).
        unfold is_file in Hf. subst s1. cbn [fs set_fs] in Hf.
        destruct (decide (a = level)) as [-> | Hne];
          [by rewrite lookup_insert_eq in Hf |].
        rewrite lookup_insert_ne in Hf by done.
        apply not_true_iff_false in Hfile. apply Hfile.
        apply existsb_exists. by exists a. }
      exists f'. split; [exact E |]. intros p. rewrite Hf'.
      subst s1. cbn [fs set_fs].
      destruct (decide (p = level)) as [-> | Hne].
      * rewrite lookup_insert_eq, El.
        rewrite bool_decide_eq_true_2; [done | by left].
      * rewrite lookup_insert_ne by done. destruct (fs s !! p); [done |].
        by rewrite bool_decide_elem_of_cons_ne.
Qed.

Lemma makedirs_ok name s :
  fs s !! name = None ->
  existsb (is_file (fs s)) (ancestors name) = false ->
  makedirs h name s
  = (Ret tt, set_fs (foldr mkdir_missing (fs s) (name :: ancestors name)) s).
Proof.
  intros E Ha. unfold makedirs.
  destruct (makedirs_levels_ok name (ancestors name) [] s eq_refl
              (Forall_nil_2 _) Ha) as (f' & El & Hf').
  run_with El.
  assert (name ∉ ancestors name) as Hself.
  { intros Hin. apply ancestors_length in Hin. lia. }
  assert (f' !! name = None) as E'.
  { rewrite Hf', E. by rewrite bool_decide_eq_false_2. }
  assert (parent_error f' name = None) as Hp.
  { unfold parent_error. destruct (parent name) as [dir |] eqn:Ed; [| done].
    apply parent_elem_of in Ed. rewrite Hf'.
    rewrite bool_decide_eq_true_2 by done.
    destruct (fs s !! dir) as [[d |] |] eqn:Edir; try done.
    apply not_true_iff_false in Ha. exfalso. apply Ha.
    apply existsb_exists. exists dir.
    split; [by apply list_elem_of_In |]. unfold is_file. by rewrite Edir. }
  rewrite (mkdir_ok name (set_fs f' s) E' Hp). cbn [fs set_fs].
  unfold set_fs. cbn [fs stdout calls]. do 2 f_equal.
  apply map_eq. intros p. rewrite lookup_mkdirs.
  destruct (decide (p = name)) as [-> | Hne].
  - rewrite lookup_insert_eq, E.
    rewrite bool_decide_eq_true_2; [done | by left].
  - rewrite lookup_insert_ne by done. rewrite Hf'.
    destruct (fs s !! p); [done |]. by rewrite bool_decide_elem_of_cons_ne.
Qed.

Lemma copy2_ok src dst data s :
  openable (fs s) dst = true ->
  src <> dst ->
  fs s !! src = Some (File data) ->
  copy2 h src dst s = (Ret tt, set_fs (<[dst := File data]> (fs s)) s).
Proof.
  intros Hd Hne Es. unfold copy2.
  unfold bind at 1, path_isdir at 1. cbv beta iota.
  rewrite (openable_not_dir _ _ Hd).
  rewrite bool_decide_eq_false_2 by done.
  run_with (read_file_ok src data s Es).
  run_with (open_wb_ok h quiet dst s Hd).
  rewrite (f_write_ok h quiet dst [] data) by apply lookup_insert_eq.
  cbn [fs set_fs]. unfold set_fs. cbn [fs stdout calls].
  by rewrite insert_insert_eq.
Qed.

Lemma write_text_ok path text s :
  openable (fs s) path = true ->
  write_text h path text s
  = (Ret tt,
     set_fs (<[path := File (String.list_byte_of_string text)]> (fs s)) s).
Proof.
  intros Hd. unfold write_text.
  run_with (open_wb_ok h quiet path s Hd).
  rewrite (f_write_ok h quiet path [] _) by apply lookup_insert_eq.
  cbn [fs set_fs]. unfold set_fs. cbn [fs stdout calls].
  by rewrite insert_insert_eq.
Qed.

Lemma not_created boot r :
  r <> "" -> (boot +:+ r) ∉ boot :: ancestors boot.
Proof.
  intros Hr Hin. apply elem_of_cons in Hin as [Hin | Hin].
  - rewrite <- (append_nil_r boot) in Hin at 2.
    by apply append_inv_head in Hin.
  - apply ancestors_length in Hin. rewrite length_append in Hin. lia.
Qed.

Lemma create_iso_structure_ok k b t kd bd s :
  fs s !! k = Some (File kd) ->
  fs s !! b = Some (File bd) ->
  (forall p, in_tree (path_join t "boot") p = true -> fs s !! p = None) ->
  existsb (is_file (fs s)) (ancestors (path_join t "boot")) = false ->
  exists s',
    create_iso_structure h k b t s = (Ret true, s')
    /\ fs s' = staged (fs s) (path_join t "boot") kd bd
    /\ calls s' = calls s.
Proof.
  intros Ek Eb Hfresh Hanc.
  destruct (boot_shape t) as (Hne & Hs & Jk & Jb & Jg & Jc & Ag).
  unfold create_iso_structure. cbv zeta. rewrite Jk, Jb, Jg, Jc.
  revert Hfresh Hanc Hne Hs Ag. generalize (path_join t "boot").
  intros boot Hfresh Hanc Hne Hs Ag.
  assert (forall r, r <> "" -> in_tree boot (boot +:+ r) = true ->
          foldr mkdir_missing (fs s) (boot :: ancestors boot) !! (boot +:+ r)
          = None) as Hbelow.
  { intros r Hr Hin. rewrite lookup_mkdirs, (Hfresh _ Hin).
    rewrite bool_decide_eq_false_2; [done | by apply not_created]. }
  assert (forall p n, fs s !! p = Some n ->
          foldr mkdir_missing (fs s) (boot :: ancestors boot) !! p = Some n)
    as Hkeep.
  { intros p n Ep. by rewrite lookup_mkdirs, Ep. }
  assert (forall r n, in_tree boot (boot +:+ r) = true ->
          fs s !! (boot +:+ r) = Some n -> False) as Hold.
  { intros r n Hin Ep. by rewrite (Hfresh _ Hin) in Ep. }
  assert (foldr mkdir_missing (fs s) (boot :: ancestors boot) !! boot
          = Some Dir) as Hboot.
  { rewrite lookup_mkdirs, (Hfresh boot (in_tree_self boot)).
    rewrite bool_decide_eq_true_2; [done | by left]. }
  assert (parent (boot +:+ "/kernel.elf") = Some boot) as Pk
    by (by apply (parent_child boot "kernel.elf")).
  assert (parent (boot +:+ "/bootloader.bin") = Some boot) as Pb
    by (by apply (parent_child boot "bootloader.bin")).
  assert (parent (boot +:+ "/grub/grub.cfg") = Some (boot +:+ "/grub")) as Pc.
  { change (boot +:+ "/grub/grub.cfg")
      with (boot +:+ ("/grub" +:+ ("/" +:+ "grub.cfg"))).
    rewrite <- append_assoc. apply parent_child; [| | done].
    - by apply append_nonempty.
    - by rewrite ends_with_slash_append. }
  (* os.makedirs(boot_dir) *)
  run_with (makedirs_ok boot s (Hfresh boot (in_tree_self boot)) Hanc).
  set (s1 := set_fs _ s).
  (* shutil.copy2(kernel_path, kernel_dest) *)
  assert (in_tree boot (boot +:+ "/kernel.elf") = true) as Ik
    by apply (in_tree_below boot "kernel.elf").
  assert (in_tree boot (boot +:+ "/bootloader.bin") = true) as Ib
    by apply (in_tree_below boot "bootloader.bin").
  assert (in_tree boot (boot +:+ "/grub") = true) as Ig
    by apply (in_tree_below boot "grub").
  assert (in_tree boot (boot +:+ "/grub/grub.cfg") = true) as Ic
    by apply (in_tree_below boot "grub/grub.cfg").
  assert (forall x y : string, x <> y -> boot +:+ x <> boot +:+ y) as Hdiff.
  { intros x y Hxy E. by apply append_inv_head in E. }
  assert (forall r : string, r <> "" -> boot +:+ r <> boot) as Hself.
  { intros r Hr E. rewrite <- (append_nil_r boot) in E at 2.
    by apply append_inv_head in E. }
  unfold bind at 1.
  rewrite (copy2_ok k (boot +:+ "/kernel.elf") kd s1); cycle 1.
  { apply (openable_new _ _ boot); [| done |].
    - subst s1. cbn [fs set_fs]. by rewrite Hbelow.
    - subst s1. cbn [fs set_fs]. exact Hboot. }
  { intros ->. eauto. }
  { subst s1. cbn [fs set_fs]. by apply Hkeep. }
  cbv beta iota. set (s2 := set_fs _ s1).
  (* shutil.copy2(bootloader_path, bootloader_dest) *)
  unfold bind at 1.
  rewrite (copy2_ok b (boot +:+ "/bootloader.bin") bd s2); cycle 1.
  { apply (openable_new _ _ boot); [| done |].
    - subst s2 s1. cbn [fs set_fs].
      rewrite lookup_insert_ne by (by apply Hdiff). by rewrite Hbelow.
    - subst s2 s1. cbn [fs set_fs].
      rewrite lookup_insert_ne by (by apply Hself). exact Hboot. }
  { intros ->. eauto. }
  { subst s2 s1. cbn [fs set_fs].
    rewrite lookup_insert_ne by (intros <-; eauto). by apply Hkeep. }
  cbv beta iota. set (s3 := set_fs _ s2).
  (* os.makedirs(grub_dir) *)
  assert (fs s3 !! (boot +:+ "/grub") = None) as Eg.
  { subst s3 s2 s1. cbn [fs set_fs].
    rewrite !lookup_insert_ne by (by apply Hdiff). by rewrite Hbelow. }
  unfold bind at 1.
  rewrite (makedirs_ok (boot +:+ "/grub") s3 Eg); cycle 1.
  { rewrite Ag. apply not_true_iff_false. intros Hex.
    apply existsb_exists in Hex as (a & Ha & Hf).
    apply list_elem_of_In, elem_of_app in Ha as [Ha | Ha].
    - unfold is_file in Hf. subst s3 s2 s1. cbn [fs set_fs] in Hf.
      pose proof (ancestors_length _ _ Ha) as Hlen.
      rewrite !lookup_insert_ne in Hf
        by (intros <-; rewrite length_append in Hlen; lia).
      rewrite lookup_mkdirs in Hf.
      destruct (fs s !! a) as [[d |] |] eqn:Ea; try done.
      + apply not_true_iff_false in Hanc. apply Hanc.
        apply existsb_exists. exists a. split; [by apply list_elem_of_In |].
        unfold is_file. by rewrite Ea.
      + by case_bool_decide.
    - apply list_elem_of_singleton in Ha as ->.
      unfold is_file in Hf. subst s3 s2 s1. cbn [fs set_fs] in Hf.
      rewrite !lookup_insert_ne in Hf by (by apply Hself).
      by rewrite Hboot in Hf. }
  cbv beta iota. rewrite Ag. set (s4 := set_fs _ s3).
  (* the configuration text *)
  unfold bind at 1.
  rewrite (write_text_ok (boot +:+ "/grub/grub.cfg") grub_cfg_text s4);
    cycle 1.
  { apply (openable_new _ _ (boot +:+ "/grub")); [| done |].
    - subst s4 s3 s2 s1. cbn [fs set_fs].
      rewrite lookup_mkdirs.
      rewrite !lookup_insert_ne by (by apply Hdiff). rewrite Hbelow by done.
      rewrite bool_decide_eq_false_2; [done |].
      intros Hin. apply elem_of_cons in Hin as [Hin | Hin].
      + by apply append_inv_head in Hin.
      + apply elem_of_app in Hin as [Hin | Hin].
        * apply ancestors_length in Hin. rewrite length_append in Hin. lia.
        * apply list_elem_of_singleton in Hin. by apply Hself in Hin.
    - subst s4. cbn [fs set_fs]. rewrite lookup_mkdirs, Eg.
      rewrite bool_decide_eq_true_2; [done | by left]. }
  cbv beta iota. run_print. unfold ret.
  eexists. split; [reflexivity |]. split; reflexivity.
Qed.

End Staging.

Section Staged.

Context (f : gmap string node) (boot : string) (kd bd : list byte).
Hypothesis fresh : forall p, in_tree boot p = true -> f !! p = None.

Local Lemma suffix_diff (x y : string) : x <> y -> boot +:+ x <> boot +:+ y.
Proof. intros Hxy E. by apply append_inv_head in E. Qed.

Local Lemma suffix_self (r : string) : r <> "" -> boot +:+ r <> boot.
Proof.
  intros Hr E. rewrite <- (append_nil_r boot) in E at 2.
  by apply append_inv_head in E.
Qed.

Local Lemma suffix_below (r : string) : in_tree boot (boot +:+ "/" +:+ r) = true.
Proof. apply in_tree_below. Qed.

Lemma staged_kernel :
  staged f boot kd bd !! (boot +:+ "/kernel.elf") = Some (File kd).
Proof.
  unfold staged. rewrite lookup_insert_ne by (by apply suffix_diff).
  rewrite lookup_mkdirs, lookup_insert_ne by (by apply suffix_diff).
  by rewrite lookup_insert_eq.
Qed.

Lemma staged_bootloader :
  staged f boot kd bd !! (boot +:+ "/bootloader.bin") = Some (File bd).
Proof.
  unfold staged. rewrite lookup_insert_ne by (by apply suffix_diff).
  by rewrite lookup_mkdirs, lookup_insert_eq.
Qed.

Lemma staged_grub_cfg :
  staged f boot kd bd !! (boot +:+ "/grub/grub.cfg")
  = Some (File (String.list_byte_of_string grub_cfg_text)).
Proof. unfold staged. by rewrite lookup_insert_eq. Qed.

Lemma staged_boot : staged f boot kd bd !! boot = Some Dir.
Proof.
  unfold staged. rewrite lookup_insert_ne by (by apply suffix_self).
  rewrite lookup_mkdirs, !lookup_insert_ne by (by apply suffix_self).
  rewrite lookup_mkdirs, (fresh boot (in_tree_self boot)).
  by rewrite bool_decide_eq_true_2 by left.
Qed.

Lemma staged_grub : staged f boot kd bd !! (boot +:+ "/grub") = Some Dir.
Proof.
  unfold staged. rewrite lookup_insert_ne by (by apply suffix_diff).
  rewrite lookup_mkdirs, !lookup_insert_ne by (by apply suffix_diff).
  rewrite lookup_mkdirs, (fresh (boot +:+ "/grub") (suffix_below "grub")).
  rewrite bool_decide_eq_false_2 by (by apply not_created).
  by rewrite bool_decide_eq_true_2 by left.
Qed.

(** What was there before staging is there after it, unchanged. *)
Lemma staged_keeps p n : f !! p = Some n -> staged f boot kd bd !! p = Some n.
Proof.
  intros Ep.
  assert (forall r, boot +:+ "/" +:+ r <> p) as Hout.
  { intros r <-. by rewrite (fresh _ (suffix_below r)) in Ep. }
  unfold staged.
  rewrite lookup_insert_ne by apply (Hout "grub/grub.cfg").
  rewrite lookup_mkdirs.
  rewrite lookup_insert_ne by apply (Hout "bootloader.bin").
  rewrite lookup_insert_ne by apply (Hout "kernel.elf").
  by rewrite lookup_mkdirs, Ep.
Qed.

(** The tree under [boot] holds the five staged paths and nothing else. *)
Lemma staged_tree p :
  in_tree boot p = true ->
  is_Some (staged f boot kd bd !! p) ->
  p ∈ [boot; boot +:+ "/kernel.elf"; boot +:+ "/bootloader.bin";
       boot +:+ "/grub"; boot +:+ "/grub/grub.cfg"].
Proof.
  intros Hin Hsome.
  pose proof (in_tree_length _ _ Hin) as Hlen.
  assert (p ∉ ancestors boot) as Hanc.
  { intros Ha%ancestors_length. lia. }
  destruct (decide (p = boot)) as [-> | Nb]; [set_solver |].
  destruct (decide (p = boot +:+ "/kernel.elf")) as [-> | Nk];
    [set_solver |].
  destruct (decide (p = boot +:+ "/bootloader.bin")) as [-> | Nl];
    [set_solver |].
  destruct (decide (p = boot +:+ "/grub")) as [-> | Ng]; [set_solver |].
  destruct (decide (p = boot +:+ "/grub/grub.cfg")) as [-> | Nc];
    [set_solver |].
  exfalso. revert Hsome. unfold staged.
  rewrite lookup_insert_ne by done.
  rewrite lookup_mkdirs, !lookup_insert_ne by done.
  rewrite lookup_mkdirs, (fresh p Hin).
  rewrite bool_decide_eq_false_2; cycle 1.
  { rewrite elem_of_cons. tauto. }
  rewrite bool_decide_eq_false_2; cycle 1.
  { rewrite elem_of_cons, elem_of_app, list_elem_of_singleton. tauto. }
  by intros [? ?].
Qed.

(** The files after staging are those before it and the three staged
    files. *)
Lemma staged_files p d :
  staged f boot kd bd !! p = Some (File d) ->
  f !! p = Some (File d)
  \/ p ∈ [boot +:+ "/kernel.elf"; boot +:+ "/bootloader.bin";
         boot +:+ "/grub/grub.cfg"].
Proof.
  unfold staged. intros Hp.
  destruct (decide (p = boot +:+ "/grub/grub.cfg")) as [-> | Nc];
    [right; set_solver |].
  rewrite lookup_insert_ne in Hp by done.
  rewrite lookup_mkdirs in Hp.
  destruct (decide (p = boot +:+ "/bootloader.bin")) as [-> | Nl];
    [right; set_solver |].
  rewrite lookup_insert_ne in Hp by done.
  destruct (decide (p = boot +:+ "/kernel.elf")) as [-> | Nk];
    [right; set_solver |].
  rewrite lookup_insert_ne in Hp by done.
  rewrite lookup_mkdirs in Hp.
  destruct (f !! p) as [n |]; [left; congruence |].
  repeat case_bool_decide; congruence.
Qed.

End Staged.

(** C7: for a kernel and a bootloader that exist as files, and a place for
    [boot] under the staging directory where nothing exists yet (and no
    file stands where a directory above it is needed), the staging builder
    returns [True] and leaves under [boot] exactly the paths [boot],
    [boot/kernel.elf] (the kernel's bytes), [boot/bootloader.bin] (the
    bootloader's bytes), [boot/grub] and [boot/grub/grub.cfg]; it adds no
    other file; the configuration has two menu entries, "MiniOS" and
    "MiniOS (Debug)", whose first command is [multiboot2 /boot/kernel.elf],
    with the argument [debug] in the second; and every path that existed
    before, the two inputs among them, keeps its content. *)
Theorem staging_tree h k b t kd bd s :
  (forall op, io_fault h op = None) ->
  fs s !! k = Some (File kd) ->
  fs s !! b = Some (File bd) ->
  let boot := path_join t "boot" in
  (forall p, in_tree boot p = true -> fs s !! p = None) ->
  existsb (is_file (fs s)) (ancestors boot) = false ->
  exists s',
    create_iso_structure h k b t s = (Ret true, s')
    /\ (t <> "" -> ends_with_slash t = false -> boot = t +:+ "/boot")
    /\ fs s' !! (boot +:+ "/kernel.elf") = Some (File kd)
    /\ fs s' !! (boot +:+ "/bootloader.bin") = Some (File bd)
    /\ fs s' !! (boot +:+ "/grub/grub.cfg")
       = Some (File (String.list_byte_of_string grub_cfg_text))
    /\ fs s' !! boot = Some Dir
    /\ fs s' !! (boot +:+ "/grub") = Some Dir
    /\ (forall p, in_tree boot p = true -> is_Some (fs s' !! p) ->
          p ∈ [boot; boot +:+ "/kernel.elf"; boot +:+ "/bootloader.bin";
               boot +:+ "/grub"; boot +:+ "/grub/grub.cfg"])
    /\ (forall p d, fs s' !! p = Some (File d) ->
          fs s !! p = Some (File d)
          \/ p ∈ [boot +:+ "/kernel.elf"; boot +:+ "/bootloader.bin";
                 boot +:+ "/grub/grub.cfg"])
    /\ menu_entries grub_cfg_text
       = [MenuEntry [dq +:+ "MiniOS" +:+ dq]
            [["multiboot2"; "/boot/kernel.elf"]; ["boot"]];
          MenuEntry [dq +:+ "MiniOS"; "(Debug)" +:+ dq]
            [["multiboot2"; "/boot/kernel.elf"; "debug"]; ["boot"]]]
    /\ (forall p n, fs s !! p = Some n -> fs s' !! p = Some n)
    /\ fs s' !! k = Some (File kd)
    /\ fs s' !! b = Some (File bd).
Proof.
  intros quiet Ek Eb boot Hfresh Hanc.
  destruct (create_iso_structure_ok h quiet k b t kd bd s Ek Eb Hfresh Hanc)
    as (s' & E & F & _).
  fold boot in F. exists s'. rewrite F.
  split; [exact E |].
  split; [intros Ht Hs; by apply path_join_below |].
  split; [by apply staged_kernel |].
  split; [by apply staged_bootloader |].
  split; [by apply staged_grub_cfg |].
  split; [by apply staged_boot |].
  split; [by apply staged_grub |].
  split; [intros p; by apply staged_tree |].
  split; [intros p d; by apply staged_files |].
  split; [vm_compute; reflexivity |].
  split; [intros p n; by apply staged_keeps |].
  split; by apply staged_keeps.
Qed.

Lemma staging_tree_witness :
  exists s',
    create_iso_structure bare_host "kernel.elf" "boot.bin" "/tmp/tmpminios"
      (inputs [x7f; x45] [xeb; xfe]) = (Ret true, s')
    /\ fs s' !! "/tmp/tmpminios/boot/kernel.elf" = Some (File [x7f; x45])
    /\ fs s' !! "/tmp/tmpminios/boot/bootloader.bin"
       = Some (File [xeb; xfe])
    /\ fs s' !! "kernel.elf" = Some (File [x7f; x45]).
Proof.
  destruct (staging_tree bare_host "kernel.elf" "boot.bin" "/tmp/tmpminios"
              [x7f; x45] [xeb; xfe] (inputs [x7f; x45] [xeb; xfe]))
    as (s' & E & _ & Hk & Hb & _ & _ & _ & _ & _ & _ & _ & Hin & _).
  - intros op. reflexivity.
  - reflexivity.
  - reflexivity.
  - intros p Hp. apply inputs_other; intros ->; discriminate.
  - reflexivity.
  - exists s'. split; [exact E |]. split; [exact Hk |].
    split; [exact Hb | exact Hin].
Defined.

(** ** The packaging methods *)

Section Methods.

Context (h : host).

Lemma subprocess_run_Completed args co tx tm s rc err f' :
  proc h args (fs s) = Completed rc err f' ->
  subprocess_run h args co tx tm s
  = (Ret (CompletedProcess rc err),
     logged s f' (RunCall args co tx tm (Some rc) false)).
Proof. intros E. unfold subprocess_run. by rewrite E. Qed.

Lemma subprocess_run_Fails args co tx tm s msg :
  proc h args (fs s) = Fails msg ->
  subprocess_run h args co tx tm s
  = (Raise (OSError msg),
     logged s (fs s) (RunCall args co tx tm None false)).
Proof. intros E. unfold subprocess_run. by rewrite E. Qed.

Lemma subprocess_run_Hangs args co tx s :
  proc h args (fs s) = Hangs ->
  subprocess_run h args co tx None s
  = (Blocked, logged s (fs s) (RunCall args co tx None None true)).
Proof. intros E. unfold subprocess_run. by rewrite E. Qed.

Lemma grub_not_installed t o s :
  not_installed h "grub-mkrescue" ->
  exists rc,
    rc <> 0
    /\ create_iso_with_grub h t o s
       = (Ret false, logged s (fs s) (probe "grub-mkrescue" rc)).
Proof.
  intros Hn. destruct (Hn (fs s)) as (rc & err & E & Hrc).
  exists rc. split; [done |].
  unfold create_iso_with_grub, try_except.
  run_with (subprocess_run_Completed _ true true None s rc err (fs s) E).
  cbn [returncode]. destruct (Z.eqb_spec rc 0); [done |]. reflexivity.
Qed.

Lemma mkisofs_not_installed t o b s :
  not_installed h "mkisofs" ->
  not_installed h "genisoimage" ->
  exists rc1 rc2,
    rc1 <> 0 /\ rc2 <> 0
    /\ create_iso_with_mkisofs h t o b s
       = (Ret false,
          logged (logged s (fs s) (probe "mkisofs" rc1)) (fs s)
            (probe "genisoimage" rc2)).
Proof.
  intros Hm Hg.
  destruct (Hm (fs s)) as (rc1 & err1 & E1 & Hrc1).
  destruct (Hg (fs s)) as (rc2 & err2 & E2 & Hrc2).
  exists rc1, rc2. split; [done |]. split; [done |].
  unfold create_iso_with_mkisofs, try_except. cbn [mkisofs_loop].
  run_with (subprocess_run_Completed _ true true None s rc1 err1 (fs s) E1).
  cbn [returncode]. destruct (Z.eqb_spec rc1 0); [done |].
  set (s1 := logged s (fs s) _).
  run_with (subprocess_run_Completed _ true true None s1 rc2 err2 (fs s) E2).
  cbn [returncode]. destruct (Z.eqb_spec rc2 0); [done |]. reflexivity.
Qed.

(** Without tools the three methods are tried in order and the fallback
    decides. *)
Lemma try_methods_no_tools args t s :
  not_installed h "grub-mkrescue" ->
  not_installed h "mkisofs" ->
  not_installed h "genisoimage" ->
  exists rc1 rc2 rc3,
    rc1 <> 0 /\ rc2 <> 0 /\ rc3 <> 0
    /\ try_methods h args t s
       = create_simple_iso h (iso_kernel args) (iso_bootloader args)
           (iso_output args)
           {| fs := fs s; stdout := stdout s;
              calls := calls s ++ [probe "grub-mkrescue" rc1;
                                   probe "mkisofs" rc2;
                                   probe "genisoimage" rc3] |}.
Proof.
  intros Hgrub Hm Hg.
  destruct (grub_not_installed t (iso_output args) s Hgrub)
    as (rc1 & Hrc1 & E1).
  set (s1 := logged s (fs s) (probe "grub-mkrescue" rc1)) in *.
  destruct (mkisofs_not_installed t (iso_output args) (iso_bootloader args)
              s1 Hm Hg) as (rc2 & rc3 & Hrc2 & Hrc3 & E2).
  exists rc1, rc2, rc3. do 3 (split; [done |]).
  unfold try_methods. run_with E1. run_with E2.
  subst s1. unfold logged. cbn [fs stdout calls].
  by rewrite <- !app_assoc.
Qed.

End Methods.

(** ** The command line tool for ISO images *)

Lemma lookup_rmtree dir (f : gmap string node) p :
  rmtree dir f !! p = if in_tree dir p then None else f !! p.
Proof.
  unfold rmtree. destruct (in_tree dir p) eqn:Hin.
  - apply map_lookup_filter_None_2. right. intros n _. simpl. congruence.
  - destruct (f !! p) as [n |] eqn:Ep.
    + by apply map_lookup_filter_Some_2.
    + apply map_lookup_filter_None_2. by left.
Qed.

Lemma validate_inputs_ok paths s :
  Forall (fun p => is_Some (fs s !! p)) paths ->
  validate_inputs paths s = (Ret tt, s).
Proof.
  induction 1 as [| p rest Hp _ IH]; [done |].
  cbn [validate_inputs]. unfold bind at 1, path_exists at 1.
  by rewrite bool_decide_eq_true_2.
Qed.

Lemma make_output_dir_ok h output s :
  dirname output = "" \/ is_Some (fs s !! dirname output) ->
  make_output_dir h output s = (Ret tt, s).
Proof.
  intros Hd. unfold make_output_dir.
  case_bool_decide as He; [done |].
  destruct Hd as [Hd | Hd]; [done |].
  unfold bind at 1, path_exists at 1. by rewrite bool_decide_eq_true_2.
Qed.

Section IsoMain.

Context (h : host).
Hypothesis quiet : forall op, io_fault h op = None.

(** Staging inside the fresh temporary directory. *)
Lemma stage_in_tmp k b kd bd s :
  fs s !! k = Some (File kd) ->
  fs s !! b = Some (File bd) ->
  usable_tmp h (fs s) ->
  let tmp := mkdtemp_name h in
  exists s',
    create_iso_structure h k b tmp (set_fs (<[tmp := Dir]> (fs s)) s)
    = (Ret true, s')
    /\ calls s' = calls s
    /\ (forall p n, fs s !! p = Some n -> fs s' !! p = Some n)
    /\ (forall p, in_tree tmp p = false -> fs s' !! p = fs s !! p).
Proof.
  intros Ek Eb (Hne & Hs & Hfresh & Hanc) tmp.
  fold tmp in Hne, Hs, Hfresh, Hanc. clearbody tmp.
  assert (path_join tmp "boot" = tmp +:+ "/boot") as Hboot
    by (by apply path_join_below).
  assert (forall r, tmp +:+ "/" +:+ r <> tmp) as Hself.
  { intros r E. rewrite <- (append_nil_r tmp) in E at 2.
    by apply append_inv_head in E. }
  assert (forall p, in_tree (tmp +:+ "/boot") p = true ->
          in_tree tmp p = true /\ p <> tmp) as Hsub.
  { intros p Hp. apply in_tree_inv in Hp as [r ->].
    rewrite append_assoc. split; [apply in_tree_below | apply Hself]. }
  assert (fs s !! tmp = None) as Etmp by apply Hfresh, in_tree_self.
  assert (ancestors (tmp +:+ "/boot") = ancestors tmp ++ [tmp]) as Ha.
  { unfold ancestors.
    rewrite ancestors_from_append, append_nil_l. f_equal.
    simpl. rewrite Hs. by rewrite bool_decide_eq_false_2. }
  set (s0 := set_fs (<[tmp := Dir]> (fs s)) s).
  destruct (create_iso_structure_ok h quiet k b tmp kd bd s0)
    as (s' & E & F & C).
  - subst s0. cbn [fs set_fs]. rewrite lookup_insert_ne; [done |].
    intros <-. congruence.
  - subst s0. cbn [fs set_fs]. rewrite lookup_insert_ne; [done |].
    intros <-. congruence.
  - intros p Hp. rewrite Hboot in Hp. destruct (Hsub p Hp) as [Hin Hp'].
    subst s0. cbn [fs set_fs]. rewrite lookup_insert_ne by done.
    by apply Hfresh.
  - rewrite Hboot, Ha. apply not_true_iff_false. intros Hex.
    apply existsb_exists in Hex as (a & Hin & Hf).
    apply list_elem_of_In, elem_of_app in Hin as [Hin | Hin].
    + unfold is_file in Hf. subst s0. cbn [fs set_fs] in Hf.
      pose proof (ancestors_length _ _ Hin) as Hlen.
      rewrite lookup_insert_ne in Hf by (intros <-; lia).
      by rewrite (Hanc a Hin) in Hf.
    + apply list_elem_of_singleton in Hin as ->.
      unfold is_file in Hf. subst s0. cbn [fs set_fs] in Hf.
      by rewrite lookup_insert_eq in Hf.
  - exists s'. split; [exact E |]. split; [exact C |].
    rewrite Hboot in F.
    assert (forall p, in_tree (tmp +:+ "/boot") p = true -> fs s0 !! p = None)
      as Hfresh0.
    { intros p Hp. destruct (Hsub p Hp) as [Hin Hp'].
      subst s0. cbn [fs set_fs]. rewrite lookup_insert_ne by done.
      by apply Hfresh. }
    split.
    + intros p n Ep. rewrite F. apply staged_keeps; [done |].
      subst s0. cbn [fs set_fs]. rewrite lookup_insert_ne; [done |].
      intros <-. congruence.
    + intros p Hp. rewrite F.
      assert (p <> tmp) as Hpt.
      { intros ->. by rewrite in_tree_self in Hp. }
      assert (forall r, tmp +:+ "/" +:+ r <> p) as Hout.
      { intros r <-. by rewrite in_tree_below in Hp. }
      unfold staged.
      rewrite lookup_insert_ne
        by (rewrite append_assoc; apply (Hout "boot/grub/grub.cfg")).
      rewrite lookup_mkdirs.
      rewrite lookup_insert_ne
        by (rewrite append_assoc; apply (Hout "boot/bootloader.bin")).
      rewrite lookup_insert_ne
        by (rewrite append_assoc; apply (Hout "boot/kernel.elf")).
      rewrite lookup_mkdirs.
      subst s0. cbn [fs set_fs]. rewrite lookup_insert_ne by done.
      destruct (fs s !! p) as [n |] eqn:Ep; [done |].
      rewrite Ha.
      rewrite bool_decide_eq_false_2; cycle 1.
      { rewrite elem_of_cons, elem_of_app, list_elem_of_singleton.
        intros [E' | [Hin | E']]; [by apply (Hout "boot") | | done].
        rewrite (Hanc p Hin) in Ep. done. }
      rewrite bool_decide_eq_false_2; [done |].
      rewrite elem_of_cons, !elem_of_app, !list_elem_of_singleton.
      intros [E' | [[Hin | E'] | E']]; [| | done |].
      * rewrite append_assoc in E'. by apply (Hout "boot/grub").
      * rewrite (Hanc p Hin) in Ep. done.
      * by apply (Hout "boot").
Qed.

End IsoMain.

Section IsoMainRuns.

Context (h : host).

Lemma with_TemporaryDirectory_Ret {A} (body : string -> M A) s (a : A) s' :
  fs s !! mkdtemp_name h = None ->
  body (mkdtemp_name h) (set_fs (<[mkdtemp_name h := Dir]> (fs s)) s)
  = (Ret a, s') ->
  with_TemporaryDirectory h body s
  = (Ret a, set_fs (rmtree (mkdtemp_name h) (fs s')) s').
Proof. intros E Hb. unfold with_TemporaryDirectory. by rewrite E, Hb. Qed.

Lemma with_TemporaryDirectory_Blocked {A} (body : string -> M A) s s' :
  fs s !! mkdtemp_name h = None ->
  body (mkdtemp_name h) (set_fs (<[mkdtemp_name h := Dir]> (fs s)) s)
  = (Blocked, s') ->
  with_TemporaryDirectory h body s = (Blocked, s').
Proof. intros E Hb. unfold with_TemporaryDirectory. by rewrite E, Hb. Qed.

(** The banner of [main] prints and changes nothing else. *)
Lemma iso_main_banner (verbose : bool) s :
  exists s0,
    fs s0 = fs s /\ calls s0 = calls s
    /\ (if verbose
        then print "MiniOS ISO Creation Tool";; print rule40
        else ret tt) s = (Ret tt, s0).
Proof.
  destruct verbose.
  - exists (snd ((print "MiniOS ISO Creation Tool";; print rule40) s)).
    repeat split; reflexivity.
  - exists s. repeat split; reflexivity.
Qed.

Hypothesis quiet : forall op, io_fault h op = None.

End IsoMainRuns.

(** ** What every run keeps *)

Section Steps.

Context (R : state -> state -> Prop).
Hypothesis R_refl : forall s, R s s.
Hypothesis R_trans : forall s1 s2 s3, R s1 s2 -> R s2 s3 -> R s1 s3.

Lemma steps_ret {A} (a : A) : steps R (ret a).
Proof. intros s. apply R_refl. Qed.

Lemma steps_raise {A} e : steps R (@raise A e).
Proof. intros s. apply R_refl. Qed.

Lemma steps_bind {A B} (m : M A) (k : A -> M B) :
  steps R m -> (forall a, steps R (k a)) -> steps R (bind m k).
Proof.
  intros Hm Hk s. unfold bind. specialize (Hm s).
  destruct (m s) as [[a | e |] s1]; simpl in *; [| done | done].
  eapply R_trans; [exact Hm | apply Hk].
Qed.

Lemma steps_try {A} (m : M A) c hd :
  steps R m -> (forall e, steps R (hd e)) -> steps R (try_except m c hd).
Proof.
  intros Hm Hh s. unfold try_except. specialize (Hm s).
  destruct (m s) as [[a | e |] s1]; simpl in *; [done | | done].
  destruct (c e); [| done].
  eapply R_trans; [exact Hm | apply Hh].
Qed.

Lemma steps_if {A} (c : bool) (m n : M A) :
  steps R m -> steps R n -> steps R (if c then m else n).
Proof. by destruct c. Qed.

End Steps.

Lemma adds_untimed_calls_refl s : adds_untimed_calls s s.
Proof. exists []. by rewrite app_nil_r. Qed.

Lemma adds_untimed_calls_trans s1 s2 s3 :
  adds_untimed_calls s1 s2 -> adds_untimed_calls s2 s3 ->
  adds_untimed_calls s1 s3.
Proof.
  intros (n1 & E1 & F1) (n2 & E2 & F2). exists (n1 ++ n2).
  split; [by rewrite E2, E1, app_assoc | by apply Forall_app].
Qed.

Lemma adds_untimed_calls_same s s' :
  calls s' = calls s -> adds_untimed_calls s s'.
Proof. intros E. exists []. by rewrite app_nil_r. Qed.

Lemma keeps_file_refl path s : keeps_file path s s.
Proof. by intros H. Qed.

Lemma keeps_file_trans path s1 s2 s3 :
  keeps_file path s1 s2 -> keeps_file path s2 s3 -> keeps_file path s1 s3.
Proof. intros H1 H2 H. by apply H2, H1. Qed.

Section UntimedCalls.

Context (h : host).

Local Abbreviation untimed := (steps adds_untimed_calls).

(** A step that leaves the log as it is. *)
Lemma untimed_quiet {A} (m : M A) :
  (forall s, calls (snd (m s)) = calls s) -> untimed m.
Proof. intros Hm s. by apply adds_untimed_calls_same. Qed.

Lemma untimed_print l : untimed (print l).
Proof. by apply untimed_quiet. Qed.

Lemma untimed_read_file p : untimed (read_file p).
Proof.
  apply untimed_quiet. intros s. unfold read_file.
  destruct (fs s !! p) as [[]|]; try done.
  by destruct (open_error (fs s) p).
Qed.

Lemma untimed_read_beside f p : untimed (read_beside h f p).
Proof.
  intros s. unfold read_beside. case_bool_decide; [| apply untimed_read_file].
  destruct (fs s !! f) as [[]|] eqn:E;
    [apply adds_untimed_calls_refl | apply untimed_read_file
    | apply untimed_read_file].
Qed.

Lemma untimed_open_wb p : untimed (open_wb h p).
Proof.
  apply untimed_quiet. intros s. unfold open_wb. cbv zeta.
  destruct (fs s !! p) as [[]|]; try done;
    [| destruct (open_error (fs s) p); [done |]];
    by destruct (io_fault h (OpOpenWrite p)).
Qed.

Lemma untimed_f_write p data : untimed (f_write h p data).
Proof.
  apply untimed_quiet. intros s. unfold f_write.
  destruct (fs s !! p) as [[cur |]|]; try done.
  by destruct (io_fault h (OpWrite p (blen cur) (blen data))).
Qed.

Lemma untimed_f_tell p : untimed (f_tell p).
Proof.
  apply untimed_quiet. intros s. unfold f_tell.
  by destruct (fs s !! p) as [[]|].
Qed.

Lemma untimed_path_exists p : untimed (path_exists p).
Proof. by apply untimed_quiet. Qed.

Lemma untimed_path_isdir p : untimed (path_isdir p).
Proof. by apply untimed_quiet. Qed.

Lemma untimed_getsize p : untimed (getsize p).
Proof.
  apply untimed_quiet. intros s. unfold getsize.
  by destruct (fs s !! p) as [[]|].
Qed.

Lemma untimed_mkdir p : untimed (mkdir h p).
Proof.
  apply untimed_quiet. intros s. unfold mkdir.
  destruct (fs s !! p); [done |].
  destruct (parent_error (fs s) p); [done |].
  by destruct (io_fault h (OpMkdir p)).
Qed.

Lemma untimed_makedirs_levels levels : untimed (makedirs_levels h levels).
Proof.
  induction levels as [| level rest IH]; cbn [makedirs_levels].
  - apply (steps_ret _ adds_untimed_calls_refl).
  - apply (steps_bind _ adds_untimed_calls_trans);
      [apply untimed_path_exists | intros found].
    apply (steps_bind _ adds_untimed_calls_trans); [| intros _; exact IH].
    apply steps_if;
      [apply untimed_mkdir | apply (steps_ret _ adds_untimed_calls_refl)].
Qed.

Lemma untimed_makedirs p : untimed (makedirs h p).
Proof.
  unfold makedirs.
  apply (steps_bind _ adds_untimed_calls_trans);
    [apply untimed_makedirs_levels | intros _; apply untimed_mkdir].
Qed.

(** [subprocess.run] without a timeout adds one call without a timeout. *)
Lemma untimed_subprocess_run args co tx :
  untimed (subprocess_run h args co tx None).
Proof.
  intros s. unfold subprocess_run.
  destruct (proc h args (fs s)); try destruct (co && tx); simpl;
    (eexists [_]; split; [reflexivity | by repeat constructor]).
Qed.

Lemma untimed_with_TemporaryDirectory {A} (body : string -> M A) :
  (forall t, untimed (body t)) -> untimed (with_TemporaryDirectory h body).
Proof.
  intros Hb s. unfold with_TemporaryDirectory.
  destruct (fs s !! mkdtemp_name h); [apply adds_untimed_calls_refl |].
  specialize (Hb (mkdtemp_name h)
                (set_fs (<[mkdtemp_name h := Dir]> (fs s)) s)).
  destruct (body _ _) as [[a | e |] s1]; exact Hb.
Qed.

End UntimedCalls.

Section UntimedTool.

Context (h : host).

Local Abbreviation untimed := (steps adds_untimed_calls).

Ltac untimed_steps :=
  repeat first
    [ apply untimed_makedirs
    | apply (steps_bind _ adds_untimed_calls_trans); [| intros ?]
    | apply (steps_try _ adds_untimed_calls_trans); [| intros ?]
    | apply steps_if
    | apply (steps_ret _ adds_untimed_calls_refl)
    | apply (steps_raise _ adds_untimed_calls_refl)
    | apply untimed_print | apply untimed_read_file
    | apply untimed_read_beside
    | apply untimed_open_wb | apply untimed_f_write | apply untimed_f_tell
    | apply untimed_path_exists | apply untimed_path_isdir
    | apply untimed_getsize
    | apply untimed_makedirs | apply untimed_subprocess_run ].

Lemma untimed_create_iso_structure k b t :
  untimed (create_iso_structure h k b t).
Proof.
  unfold create_iso_structure, write_text, copy2, raise. cbv zeta.
  untimed_steps.
Qed.

Lemma untimed_create_iso_with_grub t o : untimed (create_iso_with_grub h t o).
Proof. unfold create_iso_with_grub. untimed_steps. Qed.

Lemma untimed_mkisofs_loop names t o : untimed (mkisofs_loop h names t o).
Proof.
  induction names as [| n rest IH]; cbn [mkisofs_loop].
  - apply (steps_ret _ adds_untimed_calls_refl).
  - untimed_steps; exact IH.
Qed.

Lemma untimed_create_iso_with_mkisofs t o b :
  untimed (create_iso_with_mkisofs h t o b).
Proof.
  unfold create_iso_with_mkisofs.
  apply (steps_try _ adds_untimed_calls_trans);
    [apply untimed_mkisofs_loop | intros e; untimed_steps].
Qed.

Lemma untimed_create_simple_iso k b o : untimed (create_simple_iso h k b o).
Proof. unfold create_simple_iso, write_simple_iso. untimed_steps. Qed.

Lemma untimed_try_methods args t : untimed (try_methods h args t).
Proof.
  unfold try_methods.
  repeat first
    [ apply untimed_create_iso_with_grub
    | apply untimed_create_iso_with_mkisofs
    | apply untimed_create_simple_iso
    | progress untimed_steps ].
Qed.

Lemma untimed_validate_inputs paths : untimed (validate_inputs paths).
Proof.
  induction paths as [| p rest IH]; cbn [validate_inputs].
  - apply (steps_ret _ adds_untimed_calls_refl).
  - unfold sys_exit. untimed_steps. exact IH.
Qed.

Lemma untimed_iso_main args : untimed (iso_main h args).
Proof.
  unfold iso_main, make_output_dir, sys_exit.
  apply (steps_bind _ adds_untimed_calls_trans); [untimed_steps | intros _].
  apply (steps_bind _ adds_untimed_calls_trans);
    [apply untimed_validate_inputs | intros _].
  apply (steps_bind _ adds_untimed_calls_trans); [untimed_steps | intros _].
  apply (steps_bind _ adds_untimed_calls_trans).
  { apply untimed_with_TemporaryDirectory. intros t. unfold build_iso.
    apply (steps_bind _ adds_untimed_calls_trans);
      [apply untimed_create_iso_structure | intros staged].
    apply steps_if; [apply untimed_try_methods |].
    apply (steps_ret _ adds_untimed_calls_refl). }
  intros success. untimed_steps.
Qed.

End UntimedTool.

Section KeepsFile.

Context (h : host) (o : string).

Local Abbreviation keeps := (steps (keeps_file o)).

Lemma keeps_same {A} (m : M A) :
  (forall s, fs (snd (m s)) = fs s) -> keeps m.
Proof. intros Hm s Hs. by rewrite Hm. Qed.

Lemma keeps_read_file p : keeps (read_file p).
Proof.
  apply keeps_same. intros s. unfold read_file.
  destruct (fs s !! p) as [[]|]; try done.
  by destruct (open_error (fs s) p).
Qed.

Lemma keeps_read_beside f p : keeps (read_beside h f p).
Proof.
  intros s. unfold read_beside. case_bool_decide; [| apply keeps_read_file].
  destruct (fs s !! f) as [[]|] eqn:E;
    [apply keeps_file_refl | apply keeps_read_file | apply keeps_read_file].
Qed.

Lemma keeps_f_tell p : keeps (f_tell p).
Proof.
  apply keeps_same. intros s. unfold f_tell.
  by destruct (fs s !! p) as [[]|].
Qed.

Lemma keeps_f_write p data : keeps (f_write h p data).
Proof.
  intros s Hs. unfold f_write.
  destruct (fs s !! p) as [[cur |]|] eqn:Ep; try done.
  destruct (io_fault h (OpWrite p (blen cur) (blen data)));
    cbn [snd fs set_fs]; (destruct (decide (p = o)) as [-> | Hne];
      [rewrite lookup_insert_eq; eauto | by rewrite lookup_insert_ne]).
Qed.

Lemma keeps_write_simple_iso k b : keeps (write_simple_iso h o k b).
Proof.
  unfold write_simple_iso. cbv zeta.
  repeat first
    [ apply (steps_bind _ (keeps_file_trans o)); [| intros ?]
    | apply steps_if
    | apply (steps_ret _ (keeps_file_refl o))
    | apply keeps_read_file | apply keeps_read_beside
    | apply keeps_f_write | apply keeps_f_tell ].
Qed.

(** Once the fallback has opened its output, a file is at the output when
    it returns, whatever it returns. *)
Lemma create_simple_iso_leaves_file k b s :
  openable (fs s) o = true ->
  io_fault h (OpOpenWrite o) = None ->
  exists d, fs (snd (create_simple_iso h k b o s)) !! o = Some (File d).
Proof.
  intros Hd Hf. unfold create_simple_iso.
  do 2 run_print. set (s1 := {| fs := _ |}).
  assert (open_wb h o s1
          = (Ret tt, set_fs (<[o := File []]> (fs s1)) s1)) as E.
  { unfold open_wb, openable in *. subst s1. cbn [fs]. cbv zeta.
    rewrite Hf. destruct (fs s !! o) as [[]|]; try done.
    by destruct (open_error (fs s) o). }
  unfold try_except. run_with E. set (s2 := set_fs _ s1).
  assert (exists d, fs s2 !! o = Some (File d)) as H2.
  { exists []. apply lookup_insert_eq. }
  pose proof (keeps_write_simple_iso k b s2 H2) as H3.
  unfold bind at 1.
  destruct (write_simple_iso h o k b s2) as [[[] | e |] s3];
    cbn [snd] in H3; cbv beta iota; try exact H3.
  destruct (is_Exception e); exact H3.
Qed.

End KeepsFile.

Section AgreeIso.

Context (h : host).

Lemma agree_path_isdir p : agree (path_isdir p) (path_isdir p).
Proof. intros s1 s2 E. unfold path_isdir. by rewrite E. Qed.

Lemma agree_getsize p : agree (getsize p) (getsize p).
Proof.
  intros s1 s2 E. unfold getsize. rewrite E.
  by destruct (fs s2 !! p) as [[]|].
Qed.

Lemma agree_subprocess_run args co tx tm :
  agree (subprocess_run h args co tx tm) (subprocess_run h args co tx tm).
Proof.
  intros s1 s2 E. unfold subprocess_run. rewrite E.
  destruct (proc h args (fs s2)); [done | | done |].
  - by destruct (co && tx).
  - by destruct tm.
Qed.

Lemma agree_with_TemporaryDirectory {A} (body1 body2 : string -> M A) :
  (forall t, agree (body1 t) (body2 t)) ->
  agree (with_TemporaryDirectory h body1) (with_TemporaryDirectory h body2).
Proof.
  intros Hb s1 s2 E. unfold with_TemporaryDirectory. rewrite E.
  destruct (fs s2 !! mkdtemp_name h); [done |].
  destruct (Hb (mkdtemp_name h)
              (set_fs (<[mkdtemp_name h := Dir]> (fs s2)) s1)
              (set_fs (<[mkdtemp_name h := Dir]> (fs s2)) s2) eq_refl)
    as [Ho Hf].
  destruct (body1 _ _) as [[a1 | e1 |] t1], (body2 _ _) as [[a2 | e2 |] t2];
    simpl in *; try discriminate; split; try done; by rewrite Hf.
Qed.

Ltac agree_steps :=
  repeat first
    [ apply agree_makedirs
    | apply agree_bind; [| intros ?]
    | apply agree_try; [| intros ?]
    | apply agree_if
    | apply agree_ret | apply agree_raise | apply agree_print
    | apply agree_read_file | apply agree_read_beside
    | apply agree_open_wb | apply agree_f_write
    | apply agree_f_tell | apply agree_path_exists | apply agree_path_isdir
    | apply agree_getsize | apply agree_makedirs
    | apply agree_subprocess_run ].

Lemma agree_mkisofs_loop names t o :
  agree (mkisofs_loop h names t o) (mkisofs_loop h names t o).
Proof.
  induction names as [| n rest IH]; cbn [mkisofs_loop].
  - apply agree_ret.
  - agree_steps; exact IH.
Qed.

Lemma agree_build_iso args t : agree (build_iso h args t) (build_iso h args t).
Proof.
  unfold build_iso, create_iso_structure, copy2, write_text, try_methods,
    create_iso_with_grub, create_iso_with_mkisofs, create_simple_iso,
    write_simple_iso.
  cbv zeta.
  repeat first [ apply agree_mkisofs_loop | progress agree_steps ].
Qed.

End AgreeIso.

(** ** Runs that differ in what they print, with their logs *)

Lemma agree_log_ret {A} (a : A) : agree_log (ret a) (ret a).
Proof. by intros s1 s2 E C. Qed.

Lemma agree_log_raise {A} e : agree_log (@raise A e) (raise e).
Proof. by intros s1 s2 E C. Qed.

Lemma agree_log_print l1 l2 : agree_log (print l1) (print l2).
Proof. by intros s1 s2 E C. Qed.

Lemma agree_log_bind {A B} (m1 m2 : M A) (k1 k2 : A -> M B) :
  agree_log m1 m2 -> (forall a, agree_log (k1 a) (k2 a)) ->
  agree_log (bind m1 k1) (bind m2 k2).
Proof.
  intros Hm Hk s1 s2 E C. unfold bind.
  destruct (Hm s1 s2 E C) as (Ho & Hf & Hc).
  destruct (m1 s1) as [[a1 | e1 |] t1], (m2 s2) as [[a2 | e2 |] t2];
    simpl in Ho, Hf, Hc; try discriminate.
  - injection Ho as ->. by apply Hk.
  - injection Ho as ->. by repeat split.
  - by repeat split.
Qed.

Lemma agree_log_print_l {A} l (m1 m2 : M A) :
  agree_log m1 m2 -> agree_log (bind (print l) (fun _ => m1)) m2.
Proof. intros Hm s1 s2 E C. unfold bind, print. by apply Hm. Qed.

Lemma agree_log_try {A} (m1 m2 : M A) c hd1 hd2 :
  agree_log m1 m2 -> (forall e, agree_log (hd1 e) (hd2 e)) ->
  agree_log (try_except m1 c hd1) (try_except m2 c hd2).
Proof.
  intros Hm Hh s1 s2 E C. unfold try_except.
  destruct (Hm s1 s2 E C) as (Ho & Hf & Hc).
  destruct (m1 s1) as [[a1 | e1 |] t1], (m2 s2) as [[a2 | e2 |] t2];
    simpl in Ho, Hf, Hc; try discriminate.
  - by repeat split.
  - injection Ho as ->. destruct (c e2); [by apply Hh | by repeat split].
  - by repeat split.
Qed.

Lemma agree_log_if {A} (c : bool) (m1 m2 n1 n2 : M A) :
  agree_log m1 m2 -> agree_log n1 n2 ->
  agree_log (if c then m1 else n1) (if c then m2 else n2).
Proof. by destruct c. Qed.

Section AgreeLog.

Context (h : host).

Lemma agree_log_read_file p : agree_log (read_file p) (read_file p).
Proof.
  intros s1 s2 E C. unfold read_file. rewrite E.
  destruct (fs s2 !! p) as [[]|]; try done.
  by destruct (open_error (fs s2) p).
Qed.

Lemma agree_log_read_beside f p :
  agree_log (read_beside h f p) (read_beside h f p).
Proof.
  intros s1 s2 E C. unfold read_beside. case_bool_decide.
  - rewrite E. destruct (fs s2 !! f) as [[]|] eqn:Ef; try done;
      apply agree_log_read_file; done.
  - by apply agree_log_read_file.
Qed.

Lemma agree_log_open_wb p : agree_log (open_wb h p) (open_wb h p).
Proof.
  intros s1 s2 E C. unfold open_wb. cbv zeta. rewrite E.
  destruct (fs s2 !! p) as [[]|]; try done;
    [| destruct (open_error (fs s2) p); [done |]];
    destruct (io_fault h (OpOpenWrite p)); simpl; by rewrite ?E.
Qed.

Lemma agree_log_f_write p data : agree_log (f_write h p data) (f_write h p data).
Proof.
  intros s1 s2 E C. unfold f_write. rewrite E.
  destruct (fs s2 !! p) as [[cur |]|]; try done.
  destruct (io_fault h (OpWrite p (blen cur) (blen data))); simpl;
    by rewrite ?E.
Qed.

Lemma agree_log_f_tell p : agree_log (f_tell p) (f_tell p).
Proof.
  intros s1 s2 E C. unfold f_tell. rewrite E.
  by destruct (fs s2 !! p) as [[]|].
Qed.

Lemma agree_log_path_exists p : agree_log (path_exists p) (path_exists p).
Proof. intros s1 s2 E C. unfold path_exists. by rewrite E. Qed.

Lemma agree_log_path_isdir p : agree_log (path_isdir p) (path_isdir p).
Proof. intros s1 s2 E C. unfold path_isdir. by rewrite E. Qed.

Lemma agree_log_getsize p : agree_log (getsize p) (getsize p).
Proof.
  intros s1 s2 E C. unfold getsize. rewrite E.
  by destruct (fs s2 !! p) as [[]|].
Qed.

Lemma agree_log_mkdir p : agree_log (mkdir h p) (mkdir h p).
Proof.
  intros s1 s2 E C. unfold mkdir. rewrite E.
  destruct (fs s2 !! p); [done |].
  destruct (parent_error (fs s2) p); [done |].
  destruct (io_fault h (OpMkdir p)); simpl; by rewrite ?E.
Qed.

Lemma agree_log_makedirs_levels levels :
  agree_log (makedirs_levels h levels) (makedirs_levels h levels).
Proof.
  induction levels as [| level rest IH]; cbn [makedirs_levels];
    [apply agree_log_ret |].
  apply agree_log_bind; [apply agree_log_path_exists | intros found].
  apply agree_log_bind; [| intros _; exact IH].
  apply agree_log_if; [apply agree_log_mkdir | apply agree_log_ret].
Qed.

Lemma agree_log_makedirs p : agree_log (makedirs h p) (makedirs h p).
Proof.
  unfold makedirs.
  apply agree_log_bind; [apply agree_log_makedirs_levels | intros _].
  apply agree_log_mkdir.
Qed.

Lemma agree_log_subprocess_run args co tx tm :
  agree_log (subprocess_run h args co tx tm) (subprocess_run h args co tx tm).
Proof.
  intros s1 s2 E C. unfold subprocess_run. rewrite E, C.
  destruct (proc h args (fs s2)); [done | | done |].
  - by destruct (co && tx).
  - by destruct tm.
Qed.

Lemma agree_log_with_TemporaryDirectory {A} (body1 body2 : string -> M A) :
  (forall t, agree_log (body1 t) (body2 t)) ->
  agree_log (with_TemporaryDirectory h body1)
    (with_TemporaryDirectory h body2).
Proof.
  intros Hb s1 s2 E C. unfold with_TemporaryDirectory. rewrite E.
  destruct (fs s2 !! mkdtemp_name h); [done |].
  destruct (Hb (mkdtemp_name h)
              (set_fs (<[mkdtemp_name h := Dir]> (fs s2)) s1)
              (set_fs (<[mkdtemp_name h := Dir]> (fs s2)) s2) eq_refl C)
    as (Ho & Hf & Hc).
  destruct (body1 _ _) as [[a1 | e1 |] t1], (body2 _ _) as [[a2 | e2 |] t2];
    simpl in *; try discriminate; repeat split; try done; by rewrite Hf.
Qed.

Ltac agree_log_steps :=
  repeat first
    [ apply agree_log_makedirs | apply agree_log_read_beside
    | apply agree_log_bind; [| intros ?]
    | apply agree_log_try; [| intros ?]
    | apply agree_log_if
    | apply agree_log_ret | apply agree_log_raise | apply agree_log_print
    | apply agree_log_read_file | apply agree_log_open_wb
    | apply agree_log_f_write | apply agree_log_f_tell
    | apply agree_log_path_exists | apply agree_log_path_isdir
    | apply agree_log_getsize | apply agree_log_makedirs
    | apply agree_log_subprocess_run ].

Lemma agree_log_validate_inputs paths :
  agree_log (validate_inputs paths) (validate_inputs paths).
Proof.
  induction paths as [| p rest IH]; cbn [validate_inputs].
  - apply agree_log_ret.
  - unfold sys_exit. agree_log_steps. exact IH.
Qed.

Lemma agree_log_mkisofs_loop names t o :
  agree_log (mkisofs_loop h names t o) (mkisofs_loop h names t o).
Proof.
  induction names as [| n rest IH]; cbn [mkisofs_loop].
  - apply agree_log_ret.
  - agree_log_steps; exact IH.
Qed.

Lemma agree_log_build_iso args t :
  agree_log (build_iso h args t) (build_iso h args t).
Proof.
  unfold build_iso, create_iso_structure, copy2, write_text, try_methods,
    create_iso_with_grub, create_iso_with_mkisofs, create_simple_iso,
    write_simple_iso.
  cbv zeta.
  repeat first [ apply agree_log_mkisofs_loop | progress agree_log_steps ].
Qed.

Lemma agree_log_create_arm64_image k b o :
  agree_log (create_arm64_image h k b o) (create_arm64_image h k b o).
Proof.
  unfold create_arm64_image, write_arm64_image. cbv zeta.
  do 3 (apply agree_log_bind; [apply agree_log_print | intros _]).
  apply agree_log_bind; [agree_log_steps |].
  intros [kd |]; [| apply agree_log_ret].
  apply agree_log_bind; [agree_log_steps |].
  intros [bd |]; agree_log_steps.
Qed.

(** [main] of create_image.py, whatever the architecture and the verbose
    flag, against the plain run for arm64. *)
Lemma agree_log_image_main a k b o v :
  agree_log (image_main h (ImageArgs a k b o v))
    (image_main h (ImageArgs arm64 k b o false)).
Proof.
  unfold image_main, make_output_dir, sys_exit.
  cbn [ia_arch ia_kernel ia_bootloader ia_output ia_verbose].
  apply agree_log_bind.
  { intros s1 s2 E C. by destruct v. }
  intros _. apply agree_log_bind; [apply agree_log_validate_inputs |].
  intros _. apply agree_log_bind; [agree_log_steps |].
  intros _. apply agree_log_bind.
  { destruct a; [apply agree_log_create_arm64_image |].
    unfold create_x86_64_image.
    do 2 apply agree_log_print_l. apply agree_log_create_arm64_image. }
  intros success. agree_log_steps.
Qed.

(** [main] of create_image.py once the inputs are found and the directory
    of the output is there: it ends as the builder ends, and leaves the
    files and the log of the builder. *)
Lemma image_main_from_builder a k b o v s s1 :
  is_Some (fs s !! k) ->
  is_Some (fs s !! b) ->
  make_output_dir h o s = (Ret tt, s1) ->
  fst (image_main h (ImageArgs a k b o v) s)
  = exit_of (fst (create_arm64_image h k b o s1))
  /\ fs (snd (image_main h (ImageArgs a k b o v) s))
     = fs (snd (create_arm64_image h k b o s1))
  /\ calls (snd (image_main h (ImageArgs a k b o v) s))
     = calls (snd (create_arm64_image h k b o s1)).
Proof.
  intros Hk Hb Ed.
  destruct (agree_log_image_main a k b o v s s eq_refl eq_refl)
    as (Ho & Hf & Hc).
  rewrite Ho, Hf, Hc. clear Ho Hf Hc.
  cut (exists s2,
         image_main h (ImageArgs arm64 k b o false) s
         = (exit_of (fst (create_arm64_image h k b o s1)), s2)
         /\ fs s2 = fs (snd (create_arm64_image h k b o s1))
         /\ calls s2 = calls (snd (create_arm64_image h k b o s1))).
  { intros (s2 & E & F & C). by rewrite E. }
  unfold image_main.
  cbn [ia_arch ia_kernel ia_bootloader ia_output ia_verbose].
  unfold bind at 1, ret at 1. cbv beta iota.
  unfold bind at 1.
  rewrite (validate_inputs_ok _ s) by (repeat constructor; done).
  cbv beta iota. run_with Ed. unfold bind at 1.
  destruct (create_arm64_image h k b o s1) as [[[|] | e |] s2];
    cbv beta iota; cbn [fst snd exit_of];
    try (run_print; unfold sys_exit, raise);
    eexists; (split; [reflexivity | done]).
Qed.

(** [main] of create_iso.py, whatever the verbose flag, against the plain
    run. *)
Lemma agree_log_iso_main k b o v :
  agree_log (iso_main h (IsoArgs k b o v)) (iso_main h (IsoArgs k b o false)).
Proof.
  unfold iso_main, make_output_dir, sys_exit.
  cbn [iso_kernel iso_bootloader iso_output iso_verbose].
  apply agree_log_bind.
  { intros s1 s2 E C. by destruct v. }
  intros _. apply agree_log_bind; [apply agree_log_validate_inputs |].
  intros _. apply agree_log_bind; [agree_log_steps |].
  intros _. apply agree_log_bind.
  { apply agree_log_with_TemporaryDirectory. intros t.
    exact (agree_log_build_iso (IsoArgs k b o false) t). }
  intros success. agree_log_steps.
Qed.

(** [main] of create_iso.py once the inputs are found and the directory of
    the output is there: it ends as the build in the temporary directory
    ends, and leaves the files and the log of that build. *)
Lemma iso_main_from_build k b o v s s1 :
  is_Some (fs s !! k) ->
  is_Some (fs s !! b) ->
  make_output_dir h o s = (Ret tt, s1) ->
  let build := with_TemporaryDirectory h (build_iso h (IsoArgs k b o false)) in
  fst (iso_main h (IsoArgs k b o v) s) = exit_of (fst (build s1))
  /\ fs (snd (iso_main h (IsoArgs k b o v) s)) = fs (snd (build s1))
  /\ calls (snd (iso_main h (IsoArgs k b o v) s)) = calls (snd (build s1)).
Proof.
  intros Hk Hb Ed build.
  destruct (agree_log_iso_main k b o v s s eq_refl eq_refl)
    as (Ho & Hf & Hc).
  rewrite Ho, Hf, Hc. clear Ho Hf Hc.
  cut (exists s2,
         iso_main h (IsoArgs k b o false) s = (exit_of (fst (build s1)), s2)
         /\ fs s2 = fs (snd (build s1))
         /\ calls s2 = calls (snd (build s1))).
  { intros (s2 & E & F & C). by rewrite E. }
  unfold iso_main.
  cbn [iso_kernel iso_bootloader iso_output iso_verbose].
  unfold bind at 1, ret at 1. cbv beta iota.
  unfold bind at 1.
  rewrite (validate_inputs_ok _ s) by (repeat constructor; done).
  cbv beta iota. run_with Ed. unfold bind at 1. fold build.
  destruct (build s1) as [[[|] | e |] s2]; cbv beta iota;
    cbn [fst snd exit_of].
  - unfold bind at 1, path_exists at 1. cbv beta iota.
    destruct (bool_decide (is_Some (fs s2 !! o))) eqn:Ex.
    + apply bool_decide_eq_true in Ex as [n En].
      assert (exists s3,
                (size <- getsize o;;
                 print ("ISO creation successful: " +:+ o);;
                 print ("Size: " +:+ pretty size +:+ " bytes ("
                        +:+ pretty (size / (1024 * 1024)) +:+ " MB)")) s2
                = (Ret tt, s3)
                /\ fs s3 = fs s2 /\ calls s3 = calls s2)
        as (s3 & E3 & F3 & C3).
      { unfold bind, getsize, print. rewrite En.
        destruct n; eexists; repeat split; reflexivity. }
      run_with E3. unfold sys_exit, raise.
      eexists. split; [reflexivity | done].
    + unfold bind at 1, ret at 1. cbv beta iota. unfold sys_exit, raise.
      eexists. split; [reflexivity | done].
  - run_print. unfold sys_exit, raise. eexists. split; [reflexivity | done].
  - eexists. split; [reflexivity | done].
  - eexists. split; [reflexivity | done].
Qed.

End AgreeLog.

(** ** The directory of the output *)

Lemma keeps_entries_refl s : keeps_entries s s.
Proof. by split. Qed.

Lemma keeps_entries_trans s1 s2 s3 :
  keeps_entries s1 s2 -> keeps_entries s2 s3 -> keeps_entries s1 s3.
Proof.
  intros [H1 C1] [H2 C2]. split; [| congruence].
  intros p n Hp. by apply H2, H1.
Qed.

Lemma keeps_entries_mkdir h name : steps keeps_entries (mkdir h name).
Proof.
  intros s. unfold mkdir.
  destruct (fs s !! name) eqn:E; [apply keeps_entries_refl |].
  destruct (parent_error (fs s) name); [apply keeps_entries_refl |].
  destruct (io_fault h (OpMkdir name)); [apply keeps_entries_refl |].
  split; [| done]. intros p n Hp. cbn [snd fs set_fs].
  rewrite lookup_insert_ne; [done | congruence].
Qed.

Lemma keeps_entries_makedirs_levels h levels :
  steps keeps_entries (makedirs_levels h levels).
Proof.
  induction levels as [| level rest IH]; cbn [makedirs_levels].
  - apply (steps_ret _ keeps_entries_refl).
  - apply (steps_bind _ keeps_entries_trans);
      [intros s; apply keeps_entries_refl | intros found].
    apply (steps_bind _ keeps_entries_trans); [| intros _; exact IH].
    apply steps_if;
      [apply keeps_entries_mkdir | apply (steps_ret _ keeps_entries_refl)].
Qed.

Lemma keeps_entries_makedirs h name : steps keeps_entries (makedirs h name).
Proof.
  unfold makedirs.
  apply (steps_bind _ keeps_entries_trans);
    [apply keeps_entries_makedirs_levels
    | intros _; apply keeps_entries_mkdir].
Qed.

(** Creating the directory of the output changes nothing that exists. *)
Lemma keeps_entries_make_output_dir h o :
  steps keeps_entries (make_output_dir h o).
Proof.
  unfold make_output_dir. cbv zeta.
  apply steps_if; [apply (steps_ret _ keeps_entries_refl) |].
  apply (steps_bind _ keeps_entries_trans);
    [intros s; apply keeps_entries_refl | intros found].
  apply steps_if;
    [apply keeps_entries_makedirs | apply (steps_ret _ keeps_entries_refl)].
Qed.

(** Removing a tree from files that differ from [f] only inside the tree,
    where [f] has nothing, gives [f] back. *)
Lemma rmtree_restores dir (f f' : gmap string node) :
  (forall p, in_tree dir p = true -> f !! p = None) ->
  (forall p, in_tree dir p = false -> f' !! p = f !! p) ->
  rmtree dir f' = f.
Proof.
  intros Hin Hout. apply map_eq. intros p. rewrite lookup_rmtree.
  destruct (in_tree dir p) eqn:Hp; [by rewrite Hin | by apply Hout].
Qed.

(** On a host without packaging tools and without I/O errors, once the
    directory of the output is there, the build stages, probes the three
    tools, writes the fallback image and exits with status 0. *)
Lemma iso_main_no_tools_made h k b o verbose kd bd s s1 :
  (forall op, io_fault h op = None) ->
  not_installed h "grub-mkrescue" ->
  not_installed h "mkisofs" ->
  not_installed h "genisoimage" ->
  fs s !! k = Some (File kd) ->
  fs s !! b = Some (File bd) ->
  make_output_dir h o s = (Ret tt, s1) ->
  usable_tmp h (fs s1) ->
  openable (fs s1) o = true ->
  in_tree (mkdtemp_name h) o = false ->
  o <> k -> o <> b ->
  exists rc1 rc2 rc3,
    rc1 <> 0 /\ rc2 <> 0 /\ rc3 <> 0
    /\ fst (iso_main h (IsoArgs k b o verbose) s) = Raise (SystemExit 0)
    /\ calls (snd (iso_main h (IsoArgs k b o verbose) s))
       = calls s ++ [probe "grub-mkrescue" rc1; probe "mkisofs" rc2;
                     probe "genisoimage" rc3]
    /\ fs (snd (iso_main h (IsoArgs k b o verbose) s))
       = <[o := File (assemble 512 (2 * MiB) bd kd)]> (fs s1)
    /\ (forall p n, fs s !! p = Some n -> fs s1 !! p = Some n).
Proof.
  intros quiet Hgrub Hm Hg Ek Eb Hmk Htmp Ho Hout Hok Hob.
  pose proof (keeps_entries_make_output_dir h o s) as [Hkeep Hc].
  rewrite Hmk in Hkeep, Hc. cbn [snd] in Hkeep, Hc.
  destruct (iso_main_from_build h k b o verbose s s1) as (E0 & F1 & C0);
    [by rewrite Ek | by rewrite Eb | done |].
  cbv zeta in E0, F1, C0. rewrite E0, F1, C0. clear E0 F1 C0.
  destruct (stage_in_tmp h quiet k b kd bd s1
              (Hkeep _ _ Ek) (Hkeep _ _ Eb) Htmp)
    as (s2 & E1 & C1 & K1 & O1).
  cbv zeta in E1, O1.
  destruct (try_methods_no_tools h (IsoArgs k b o false)
              (mkdtemp_name h) s2 Hgrub Hm Hg)
    as (rc1 & rc2 & rc3 & Hrc1 & Hrc2 & Hrc3 & E2).
  cbn [iso_kernel iso_bootloader iso_output] in E2.
  set (s3 := {| fs := fs s2 |}) in E2.
  destruct (create_simple_iso_ok h quiet k b o bd kd s3)
    as (s4 & E3 & F3 & C3); try done.
  { subst s3. cbn [fs]. by apply K1, Hkeep. }
  { subst s3. cbn [fs]. by apply K1, Hkeep. }
  { subst s3. cbn [fs]. apply (openable_mono (fs s1)); [done | exact K1 |].
    intros E. by rewrite O1. }
  rewrite E3 in E2.
  assert (build_iso h (IsoArgs k b o false) (mkdtemp_name h)
            (set_fs (<[mkdtemp_name h := Dir]> (fs s1)) s1)
          = (Ret true, s4)) as E4.
  { unfold build_iso. cbn [iso_kernel iso_bootloader]. run_with E1.
    exact E2. }
  destruct Htmp as (_ & _ & Hfresh & _).
  rewrite (with_TemporaryDirectory_Ret h _ s1 true s4
             (Hfresh _ (in_tree_self _)) E4).
  cbn [fst snd exit_of fs calls set_fs].
  exists rc1, rc2, rc3. do 4 (split; [done |]).
  split; [rewrite C3; subst s3; cbn [calls]; by rewrite C1, Hc |].
  split; [| exact Hkeep].
  rewrite F3. subst s3. cbn [fs].
  apply rmtree_restores.
  - intros p Hp. rewrite lookup_insert_ne by (intros ->; congruence).
    by apply Hfresh.
  - intros p Hp. destruct (decide (p = o)) as [-> | Hpo].
    + by rewrite !lookup_insert_eq.
    + rewrite !lookup_insert_ne by done. by apply O1.
Qed.

(** Once the directory of the output is there, [main] exits with status 1
    when the build in the temporary directory returns [False], and leaves
    the files as the build left them. *)
Lemma iso_main_failure_made h k b o verbose s s1 :
  is_Some (fs s !! k) ->
  is_Some (fs s !! b) ->
  make_output_dir h o s = (Ret tt, s1) ->
  fst (with_TemporaryDirectory h (build_iso h (IsoArgs k b o verbose)) s1)
  = Ret false ->
  fst (iso_main h (IsoArgs k b o verbose) s) = Raise (SystemExit 1)
  /\ fs (snd (iso_main h (IsoArgs k b o verbose) s))
     = fs (snd (with_TemporaryDirectory h
                  (build_iso h (IsoArgs k b o verbose)) s1)).
Proof.
  intros Hk Hb Hmk Hr.
  destruct (iso_main_from_build h k b o verbose s s1 Hk Hb Hmk)
    as (E & F & _).
  cbv zeta in E, F.
  change (build_iso h (IsoArgs k b o false))
    with (build_iso h (IsoArgs k b o verbose)) in E, F.
  rewrite E, F, Hr. done.
Qed.

(** ** The packaging chain *)


Lemma bare_host_not_installed tool : not_installed bare_host tool.
Proof. intros f. exists 1, "". split; [reflexivity | discriminate]. Qed.

Lemma bare_host_usable_tmp kernel bootloader :
  usable_tmp bare_host (fs (inputs kernel bootloader)).
Proof.
  split; [discriminate |]. split; [reflexivity |]. split.
  - intros p Hp. apply inputs_other; intros ->; discriminate.
  - intros a Ha. apply list_elem_of_singleton in Ha as ->.
    unfold inputs. cbn [fs]. rewrite !lookup_insert_ne by done.
    apply lookup_singleton_eq.
Qed.



(** C5 (amended): for every build in which every packaging strategy fails
    (GrubRescue, then GenericIsoMaster, then RawFallback, the last one on an
    I/O failure of its own), the chain returns failure and the build exits
    with status 1; the build then removes the staging tree and nothing else,
    so the output path is left as RawFallback left it, and a file exists there
    whenever RawFallback had opened it (a file was there, or nothing was there
    and the path named a new file in an existing directory, and the host did
    not refuse the open). The build is one that reaches the strategies: both
    inputs exist, [main] has created the directory of the output when it was
    missing, the place of the temporary directory is free and the staging
    succeeds. *)
Theorem all_exhausted h k b o verbose s s0 s1 s2 s3 s4 :
  let args := IsoArgs k b o verbose in
  let tmp := mkdtemp_name h in
  is_Some (fs s !! k) ->
  is_Some (fs s !! b) ->
  make_output_dir h o s = (Ret tt, s0) ->
  fs s0 !! tmp = None ->
  create_iso_structure h k b tmp (set_fs (<[tmp := Dir]> (fs s0)) s0)
  = (Ret true, s1) ->
  create_iso_with_grub h tmp o s1 = (Ret false, s2) ->
  create_iso_with_mkisofs h tmp o b s2 = (Ret false, s3) ->
  create_simple_iso h k b o s3 = (Ret false, s4) ->
  try_methods h args tmp s1 = (Ret false, s4)
  /\ fst (iso_main h args s) = Raise (SystemExit 1)
  /\ fs (snd (iso_main h args s)) = rmtree tmp (fs s4)
  /\ (in_tree tmp o = false ->
      fs (snd (iso_main h args s)) !! o = fs s4 !! o)
  /\ (in_tree tmp o = false ->
      openable (fs s3) o = true ->
      io_fault h (OpOpenWrite o) = None ->
      exists d, fs (snd (iso_main h args s)) !! o = Some (File d)).
Proof.
  intros args tmp Hk Hb Hmk Etmp E1 E2 E3 E4.
  assert (try_methods h args tmp s1 = (Ret false, s4)) as Et.
  { unfold try_methods. cbn [iso_output iso_bootloader iso_kernel args].
    run_with E2. by run_with E3. }
  assert (with_TemporaryDirectory h (build_iso h args) s0
          = (Ret false, set_fs (rmtree tmp (fs s4)) s4)) as Ew.
  { apply with_TemporaryDirectory_Ret; [done |].
    unfold build_iso. cbn [iso_kernel iso_bootloader args].
    fold tmp. by run_with E1. }
  destruct (iso_main_failure_made h k b o verbose s s0) as [Hexit Hfs];
    try done.
  { fold args. by rewrite Ew. }
  fold args in Hexit, Hfs.
  rewrite Ew in Hfs. cbn [snd fs set_fs] in Hfs.
  split; [exact Et |]. split; [exact Hexit |]. split; [exact Hfs |].
  split.
  - intros Ho. by rewrite Hfs, lookup_rmtree, Ho.
  - intros Ho Hdir Hopen. rewrite Hfs, lookup_rmtree, Ho.
    destruct (create_simple_iso_leaves_file h o k b s3 Hdir Hopen)
      as [d Hd']. rewrite E4 in Hd'. by exists d.
Qed.

Lemma all_exhausted_witness :
  fst (iso_main small_disk_host
         (IsoArgs "kernel.elf" "boot.bin" "minios.iso" false)
         (inputs [x7f; x45] [xeb; xfe])) = Raise (SystemExit 1)
  /\ exists d,
       fs (snd (iso_main small_disk_host
                  (IsoArgs "kernel.elf" "boot.bin" "minios.iso" false)
                  (inputs [x7f; x45] [xeb; xfe]))) !! "minios.iso"
       = Some (File d).
Proof.
  pose (s := inputs [x7f; x45] [xeb; xfe]).
  pose (s1 := snd (create_iso_structure small_disk_host "kernel.elf"
                     "boot.bin" "/tmp/tmpminios"
                     (set_fs (<["/tmp/tmpminios" := Dir]> (fs s)) s))).
  pose (s2 := snd (create_iso_with_grub small_disk_host "/tmp/tmpminios"
                     "minios.iso" s1)).
  pose (s3 := snd (create_iso_with_mkisofs small_disk_host "/tmp/tmpminios"
                     "minios.iso" "boot.bin" s2)).
  pose (s4 := snd (create_simple_iso small_disk_host "kernel.elf" "boot.bin"
                     "minios.iso" s3)).
  destruct (all_exhausted small_disk_host "kernel.elf" "boot.bin"
              "minios.iso" false s s s1 s2 s3 s4)
    as (_ & Hexit & _ & _ & Hfile).
  - vm_compute. eauto.
  - vm_compute. eauto.
  - reflexivity.
  - reflexivity.
  - vm_compute. reflexivity.
  - vm_compute. reflexivity.
  - vm_compute. reflexivity.
  - vm_compute. reflexivity.
  - split; [exact Hexit |]. apply Hfile; reflexivity.
Defined.

(** The input against C5: no packaging tool is installed and a file cannot
    grow beyond 1024 bytes; RawFallback writes the bootloader, the sector
    padding and the kernel, the fill up to 2 MiB stops at the limit, and
    the build exits with status 1 with a file of 1024 bytes at the output
    path: the first 514 bytes of the image and 510 zeros of the fill. *)
Lemma failed_build_leaves_partial_file :
  let r := iso_main small_disk_host
             (IsoArgs "kernel.elf" "boot.bin" "minios.iso" false)
             (inputs [x7f; x45] [xeb; xfe]) in
  fst r = Raise (SystemExit 1)
  /\ fs (snd r) !! "minios.iso"
     = Some (File ([xeb; xfe] ++ zeros 510 ++ [x7f; x45] ++ zeros 510))
  /\ blen ([xeb; xfe] ++ zeros 510 ++ [x7f; x45] ++ zeros 510) = 1024.
Proof. vm_compute. repeat split; reflexivity. Qed.

(** ** The generic ISO backend *)

Ltac split_run h :=
  repeat (cbv beta iota zeta; cbn [returncode stderr negb andb];
          match goal with
          | |- context [match proc h ?a ?f with _ => _ end] =>
              let rc := fresh "rc" in
              let err := fresh "err" in
              let f' := fresh "f" in
              let msg := fresh "msg" in
              destruct (proc h a f) as [rc err f' | rc msg f' | msg |]
          | |- context [?x =? 0] =>
              let E := fresh "E" in
              destruct (Z.eqb_spec x 0) as [E | E]; [subst x |]
          end).

(** The cases of a membership in a list that is written out. *)
Ltac in_cases H :=
  repeat (apply elem_of_cons in H as [H | H]);
  try (by apply elem_of_nil in H).

Ltac in_list :=
  cbn [map rc_args];
  repeat first [apply list_elem_of_here | apply list_elem_of_further].

(** C6 (amended): the generic ISO backend probes mkisofs and then
    genisoimage with [which], in that order; a tool is invoked only right
    after its own probe returned status 0, and each tool whose probe
    returned status 0 is invoked, with the command
    [<tool> -b boot/bootloader.bin -no-emul-boot -boot-load-size 4
    -boot-info-table -o <output> <staging dir>]; an invocation that exits
    with status 0 ends the strategy with success; a probe or an invocation
    of mkisofs that returns another status moves on to genisoimage; a
    call that raises (the child cannot be started, or its output is not
    valid text) ends the strategy with failure, and a call that never
    returns keeps the strategy from returning; so the strategy succeeds
    exactly when its last child process is an invocation that returned
    status 0, and it never lets an exception escape. *)
Theorem generic_iso_master h t o b s :
  let which n := ["which"; n] in
  let cmd n := mkisofs_cmd n o t in
  (forall n, cmd n = [n; "-b"; "boot/bootloader.bin"; "-no-emul-boot";
                      "-boot-load-size"; "4"; "-boot-info-table";
                      "-o"; o; t])
  /\ exists res s' new,
       create_iso_with_mkisofs h t o b s = (res, s')
       /\ calls s' = calls s ++ new
       /\ map rc_args new
          ∈ [ [which "mkisofs"];
              [which "mkisofs"; cmd "mkisofs"];
              [which "mkisofs"; which "genisoimage"];
              [which "mkisofs"; cmd "mkisofs"; which "genisoimage"];
              [which "mkisofs"; which "genisoimage"; cmd "genisoimage"];
              [which "mkisofs"; cmd "mkisofs"; which "genisoimage";
               cmd "genisoimage"] ]
       /\ (forall n c, c ∈ new -> rc_args c = cmd n -> probe n 0 ∈ new)
       /\ (forall n, probe n 0 ∈ new -> cmd n ∈ map rc_args new)
       /\ (forall rc, rc <> 0 ->
           probe "mkisofs" rc ∈ new
           \/ invoked (cmd "mkisofs") (Some rc) ∈ new ->
           which "genisoimage" ∈ map rc_args new)
       /\ (forall n, invoked (cmd n) (Some 0) ∈ new ->
           last new = Some (invoked (cmd n) (Some 0)))
       /\ (forall c, c ∈ new -> rc_status c = None ->
           last new = Some c
           /\ res = if rc_blocked c then Blocked else Ret false)
       /\ (res = Ret true <->
           exists n, last new = Some (invoked (cmd n) (Some 0)))
       /\ (res = Blocked <->
           exists c, last new = Some c /\ rc_blocked c = true)
       /\ (res = Ret true \/ res = Ret false \/ res = Blocked).
Proof.
  intros which cmd. split; [reflexivity |].
  unfold create_iso_with_mkisofs, try_except. cbn [mkisofs_loop].
  unfold bind, subprocess_run, print, ret.
  split_run h;
    (eexists _, _, _; split; [reflexivity |];
     split; [cbn [calls]; rewrite <- ?app_assoc; reflexivity |];
     split; [in_list |];
     split; [intros n c Hin Hc; in_cases Hin; subst c;
             cbn [rc_args] in Hc; unfold cmd, mkisofs_cmd in Hc;
             try discriminate Hc;
             injection Hc as <-; in_list |];
     split; [intros n Hin; in_cases Hin; unfold probe, invoked in Hin;
             simplify_eq; try done; in_list |];
     split; [intros st Hst [Hin | Hin]; in_cases Hin;
             unfold probe, invoked, cmd, mkisofs_cmd in Hin;
             simplify_eq; try done; in_list |];
     split; [intros n Hin; in_cases Hin;
             unfold probe, invoked, cmd, mkisofs_cmd in Hin;
             simplify_eq; try done |];
     split; [intros c Hin Hc; in_cases Hin; subst c;
             cbn [rc_status] in Hc; try discriminate Hc;
             cbn [last rc_blocked]; split; reflexivity |];
     split; [cbn [last]; split;
             [ try discriminate; intros _; eexists; reflexivity
             | intros [n Hn]; try discriminate Hn;
               try reflexivity;
               injection Hn; intros; congruence ] |];
     split; [cbn [last app]; split;
             [ try discriminate; intros _; eexists; split; reflexivity
             | intros (c & Hc & Hb); simplify_eq; try reflexivity;
               cbn [rc_blocked] in Hb; discriminate Hb ] |];
     auto).
Qed.

(** The input against C6: mkisofs is the first tool available and exits
    with status 1, and the strategy still succeeds, after probing and
    invoking genisoimage. *)
Lemma second_tool_decides :
  let r := create_iso_with_mkisofs two_masters_host "/tmp/tmpminios"
             "minios.iso" "boot.bin" (inputs [x7f; x45] [xeb; xfe]) in
  fst r = Ret true
  /\ calls (snd r)
     = [probe "mkisofs" 0;
        invoked (mkisofs_cmd "mkisofs" "minios.iso" "/tmp/tmpminios")
          (Some 1);
        probe "genisoimage" 0;
        invoked (mkisofs_cmd "genisoimage" "minios.iso" "/tmp/tmpminios")
          (Some 0)].
Proof. vm_compute. split; reflexivity. Qed.

(** ** Timeouts *)

(** C9 (amended): every child process of the packaging strategies, and of
    a whole build, is started by a blocking call without a timeout.  Each
    of the two strategies lets no exception escape: a call that raises
    (the child cannot be started, or its output is not valid text) is the
    strategy's last call and the strategy reports failure; a call that
    never returns is its last call and the strategy never returns.  After
    a failure of GrubRescue the chain goes on with GenericIsoMaster, after
    a failure of GenericIsoMaster with RawFallback; a strategy that never
    returns keeps the chain from returning, and with it the build that
    reached the chain (both inputs exist, [main] has created the
    directory of the output when it was missing, the place of the
    temporary directory is free and the staging succeeded). *)
Theorem tool_calls_are_untimed h k b o verbose t s :
  let args := IsoArgs k b o verbose in
  let grub := ["grub-mkrescue"; "-o"; o; t] in
  let tmp := mkdtemp_name h in
  (exists new,
     calls (snd (iso_main h args s)) = calls s ++ new
     /\ Forall (fun c => rc_timeout c = None) new)
  /\ (exists res s' new,
        create_iso_with_grub h t o s = (res, s')
        /\ calls s' = calls s ++ new
        /\ Forall (fun c => rc_timeout c = None) new
        /\ (forall e, res <> Raise e)
        /\ (forall c, c ∈ new -> rc_status c = None ->
            last new = Some c
            /\ res = if rc_blocked c then Blocked else Ret false))
  /\ (exists res s' new,
        create_iso_with_mkisofs h t o b s = (res, s')
        /\ calls s' = calls s ++ new
        /\ Forall (fun c => rc_timeout c = None) new
        /\ (forall e, res <> Raise e)
        /\ (forall c, c ∈ new -> rc_status c = None ->
            last new = Some c
            /\ res = if rc_blocked c then Blocked else Ret false))
  /\ (forall err f,
        proc h ["which"; "grub-mkrescue"] (fs s) = Completed 0 err f ->
        (call_raises (proc h grub f) = true ->
         fst (create_iso_with_grub h t o s) = Ret false)
        /\ (proc h grub f = Hangs ->
            fst (create_iso_with_grub h t o s) = Blocked))
  /\ (forall err f,
        proc h ["which"; "mkisofs"] (fs s) = Completed 0 err f ->
        (call_raises (proc h (mkisofs_cmd "mkisofs" o t) f) = true ->
         fst (create_iso_with_mkisofs h t o b s) = Ret false)
        /\ (proc h (mkisofs_cmd "mkisofs" o t) f = Hangs ->
            fst (create_iso_with_mkisofs h t o b s) = Blocked))
  /\ (forall rc err f err' f',
        rc <> 0 ->
        proc h ["which"; "mkisofs"] (fs s) = Completed rc err f ->
        proc h ["which"; "genisoimage"] f = Completed 0 err' f' ->
        (call_raises (proc h (mkisofs_cmd "genisoimage" o t) f') = true ->
         fst (create_iso_with_mkisofs h t o b s) = Ret false)
        /\ (proc h (mkisofs_cmd "genisoimage" o t) f' = Hangs ->
            fst (create_iso_with_mkisofs h t o b s) = Blocked))
  /\ (forall s1,
        create_iso_with_grub h t o s = (Ret false, s1) ->
        try_methods h args t s
        = (by_mkisofs <- create_iso_with_mkisofs h t o b;;
           if by_mkisofs : bool then ret true
           else create_simple_iso h k b o) s1)
  /\ (forall s1 s2,
        create_iso_with_grub h t o s = (Ret false, s1) ->
        create_iso_with_mkisofs h t o b s1 = (Ret false, s2) ->
        try_methods h args t s = create_simple_iso h k b o s2)
  /\ (forall s1,
        create_iso_with_grub h t o s = (Blocked, s1) ->
        try_methods h args t s = (Blocked, s1))
  /\ (forall s1 s2,
        create_iso_with_grub h t o s = (Ret false, s1) ->
        create_iso_with_mkisofs h t o b s1 = (Blocked, s2) ->
        try_methods h args t s = (Blocked, s2))
  /\ (forall s0 s1,
        is_Some (fs s !! k) ->
        is_Some (fs s !! b) ->
        make_output_dir h o s = (Ret tt, s0) ->
        fs s0 !! tmp = None ->
        create_iso_structure h k b tmp (set_fs (<[tmp := Dir]> (fs s0)) s0)
        = (Ret true, s1) ->
        fst (try_methods h args tmp s1) = Blocked ->
        fst (iso_main h args s) = Blocked).
Proof.
  intros args grub tmp.
  split; [apply untimed_iso_main |].
  split.
  { unfold create_iso_with_grub, try_except.
    unfold bind, subprocess_run, print, ret.
    split_run h; cbn [is_Exception]; cbv beta iota;
      (eexists _, _, _; split; [reflexivity |];
       split; [cbn [calls]; rewrite <- ?app_assoc; reflexivity |];
       split; [by repeat constructor |];
       split; [intros e; discriminate |];
       intros c Hin Hc; in_cases Hin; subst c;
       cbn [rc_status] in Hc; try discriminate Hc;
       cbn [last rc_blocked]; split; reflexivity). }
  split.
  { unfold create_iso_with_mkisofs, try_except. cbn [mkisofs_loop].
    unfold bind, subprocess_run, print, ret.
    split_run h; cbn [is_Exception]; cbv beta iota;
      (eexists _, _, _; split; [reflexivity |];
       split; [cbn [calls]; rewrite <- ?app_assoc; reflexivity |];
       split; [by repeat constructor |];
       split; [intros e; discriminate |];
       intros c Hin Hc; in_cases Hin; subst c;
       cbn [rc_status] in Hc; try discriminate Hc;
       cbn [last rc_blocked]; split; reflexivity). }
  split.
  { intros err f Ew.
    unfold create_iso_with_grub, try_except, bind, subprocess_run, print,
      ret.
    rewrite Ew. cbv beta iota zeta. cbn [returncode negb fs Z.eqb].
    cbv beta iota. subst grub.
    split; intros Eg;
      destruct (proc h ["grub-mkrescue"; "-o"; o; t] f); try discriminate Eg;
      reflexivity. }
  split.
  { intros err f Ew.
    unfold create_iso_with_mkisofs, try_except. cbn [mkisofs_loop].
    unfold bind, subprocess_run, print, ret.
    rewrite Ew. cbv beta iota zeta. cbn [returncode negb fs Z.eqb].
    cbv beta iota.
    split; intros Eg;
      destruct (proc h (mkisofs_cmd "mkisofs" o t) f);
      try discriminate Eg; reflexivity. }
  split.
  { intros rc err f err' f' Hrc Ew Ew'.
    unfold create_iso_with_mkisofs, try_except. cbn [mkisofs_loop].
    unfold bind, subprocess_run, print, ret.
    rewrite Ew. cbv beta iota zeta. cbn [returncode negb fs].
    destruct (Z.eqb_spec rc 0) as [E0 | _]; [done |].
    cbv beta iota zeta. cbn [fs stdout calls].
    rewrite Ew'. cbv beta iota zeta. cbn [returncode negb fs Z.eqb].
    cbv beta iota.
    split; intros Eg;
      destruct (proc h (mkisofs_cmd "genisoimage" o t) f');
      try discriminate Eg; reflexivity. }
  split.
  { intros s1 E1. unfold try_methods.
    cbn [iso_output iso_bootloader iso_kernel args]. by run_with E1. }
  split.
  { intros s1 s2 E1 E2. unfold try_methods.
    cbn [iso_output iso_bootloader iso_kernel args]. run_with E1.
    by run_with E2. }
  split.
  { intros s1 E1. unfold try_methods. cbn [iso_output args].
    by run_with E1. }
  split.
  { intros s1 s2 E1 E2. unfold try_methods.
    cbn [iso_output iso_bootloader args]. run_with E1. by run_with E2. }
  intros s0 s1 Hk Hb Hmk Etmp E1 Eb. subst args.
  destruct (iso_main_from_build h k b o verbose s s0 Hk Hb Hmk)
    as (Hout & _).
  cbv zeta in Hout. rewrite Hout.
  destruct (try_methods h (IsoArgs k b o verbose) tmp s1) as [r s2] eqn:E2.
  cbn [fst] in Eb. subst r.
  rewrite (with_TemporaryDirectory_Blocked h _ s0 s2 Etmp); [done |].
  unfold build_iso. cbn [iso_kernel iso_bootloader]. fold tmp.
  run_with E1. exact E2.
Qed.

(** On a host where mkisofs is found and cannot be started, the generic
    backend reports failure. *)
Lemma tool_calls_are_untimed_witness :
  fst (create_iso_with_mkisofs broken_mkisofs_host "/tmp/tmpminios"
         "minios.iso" "boot.bin" (inputs [x7f; x45] [xeb; xfe]))
  = Ret false.
Proof.
  destruct (tool_calls_are_untimed broken_mkisofs_host "kernel.elf"
              "boot.bin" "minios.iso" false "/tmp/tmpminios"
              (inputs [x7f; x45] [xeb; xfe])) as (_ & _ & _ & _ & H & _).
  destruct (H "" (fs (inputs [x7f; x45] [xeb; xfe]))) as [Hr _];
    [reflexivity |].
  apply Hr. reflexivity.
Defined.

(** The input against C9: grub-mkrescue is installed and never returns; it
    is started without a timeout and the build never gets past it. *)
Lemma hanging_tool_blocks_build :
  let r := iso_main hanging_grub_host
             (IsoArgs "kernel.elf" "boot.bin" "minios.iso" false)
             (inputs [x7f; x45] [xeb; xfe]) in
  fst r = Blocked
  /\ calls (snd r)
     = [probe "grub-mkrescue" 0;
        never_returned
          ["grub-mkrescue"; "-o"; "minios.iso"; "/tmp/tmpminios"]]
  /\ Exists (fun c => rc_timeout c = None) (calls (snd r)).
Proof.
  vm_compute. split; [reflexivity |]. split; [reflexivity |].
  by apply Exists_cons_hd.
Qed.

(** * Further properties of the two tools *)

(** ** The raw image builder on bad inputs *)

Lemma read_file_not_found path s :
  not_found (fs s) path = true ->
  read_file path s = (Raise (FileNotFoundError path), s).
Proof.
  unfold not_found, read_file. destruct (fs s !! path); [done |].
  by destruct (open_error_cases (fs s) path) as [-> | [-> | [-> | ->]]].
Qed.

Lemma read_file_below_file path s :
  below_file (fs s) path = true ->
  read_file path s = (Raise (NotADirectoryError path), s).
Proof.
  unfold below_file, read_file. destruct (fs s !! path); [done |].
  by destruct (open_error_cases (fs s) path) as [-> | [-> | [-> | ->]]].
Qed.

(** X1: A missing kernel, or a missing bootloader beside a readable kernel,
    makes the raw image builder return [False]; it creates and changes no
    file (the output is not even opened) and starts no child process.
    Missing means that [open] raises [FileNotFoundError]: nothing is at the
    path, which is not the root, and no regular file stands where the path
    needs a directory.  An input path below a regular file is not
    reported: its [NotADirectoryError] leaves the builder. *)
Theorem arm64_missing_input h k b o s :
  (not_found (fs s) k = true
   \/ ((exists kd, fs s !! k = Some (File kd)) /\ not_found (fs s) b = true) ->
   fst (create_arm64_image h k b o s) = Ret false
   /\ fs (snd (create_arm64_image h k b o s)) = fs s
   /\ calls (snd (create_arm64_image h k b o s)) = calls s)
  /\ (below_file (fs s) k = true ->
      fst (create_arm64_image h k b o s) = Raise (NotADirectoryError k)
      /\ fs (snd (create_arm64_image h k b o s)) = fs s)
  /\ ((exists kd, fs s !! k = Some (File kd)) ->
      below_file (fs s) b = true ->
      fst (create_arm64_image h k b o s) = Raise (NotADirectoryError b)
      /\ fs (snd (create_arm64_image h k b o s)) = fs s).
Proof.
  split; [| split].
  - intros Hmiss.
    cut (exists s', create_arm64_image h k b o s = (Ret false, s')
                    /\ fs s' = fs s /\ calls s' = calls s).
    { intros (s' & E & F & C). by rewrite E. }
    unfold create_arm64_image. do 3 run_print.
    set (s1 := {| fs := _ |}).
    unfold bind at 1, try_except at 1.
    destruct Hmiss as [Ek | [[kd Ek] Eb]].
    + run_with (read_file_not_found k s1 Ek).
      cbn [is_FileNotFoundError]. cbv beta iota. run_print. unfold ret.
      eexists. split; [reflexivity | done].
    + run_with (read_file_ok k kd s1 Ek). run_print.
      unfold ret at 1. cbv beta iota. set (s2 := {| fs := _ |}).
      unfold bind at 1, try_except at 1.
      run_with (read_file_not_found b s2 Eb).
      cbn [is_FileNotFoundError]. cbv beta iota. run_print. unfold ret.
      eexists. split; [reflexivity | done].
  - intros Ek.
    cut (exists s', create_arm64_image h k b o s
                    = (Raise (NotADirectoryError k), s') /\ fs s' = fs s).
    { intros (s' & E & F). by rewrite E. }
    unfold create_arm64_image. do 3 run_print.
    set (s1 := {| fs := _ |}).
    unfold bind at 1, try_except at 1.
    run_with (read_file_below_file k s1 Ek).
    cbn [is_FileNotFoundError]. cbv beta iota.
    eexists. split; reflexivity.
  - intros [kd Ek] Eb.
    cut (exists s', create_arm64_image h k b o s
                    = (Raise (NotADirectoryError b), s') /\ fs s' = fs s).
    { intros (s' & E & F). by rewrite E. }
    unfold create_arm64_image. do 3 run_print.
    set (s1 := {| fs := _ |}).
    unfold bind at 1, try_except at 1.
    run_with (read_file_ok k kd s1 Ek). run_print.
    unfold ret at 1. cbv beta iota. set (s2 := {| fs := _ |}).
    unfold bind at 1, try_except at 1.
    run_with (read_file_below_file b s2 Eb).
    cbn [is_FileNotFoundError]. cbv beta iota.
    eexists. split; reflexivity.
Qed.

Lemma arm64_missing_input_witness :
  (fst (create_arm64_image bare_host "missing.elf" "boot.bin" "minios.img"
          (inputs [x7f] [xeb])) = Ret false
   /\ fs (snd (create_arm64_image bare_host "missing.elf" "boot.bin"
                 "minios.img" (inputs [x7f] [xeb])))
      = fs (inputs [x7f] [xeb]))
  /\ fst (create_arm64_image bare_host "boot.bin/kernel.elf" "boot.bin"
            "minios.img" (inputs [x7f] [xeb]))
     = Raise (NotADirectoryError "boot.bin/kernel.elf").
Proof.
  split.
  - destruct (arm64_missing_input bare_host "missing.elf" "boot.bin"
                "minios.img" (inputs [x7f] [xeb])) as (H & _ & _).
    destruct H as (H1 & H2 & _); [left; reflexivity |].
    split; [exact H1 | exact H2].
  - destruct (arm64_missing_input bare_host "boot.bin/kernel.elf" "boot.bin"
                "minios.img" (inputs [x7f] [xeb])) as (_ & H & _).
    destruct H as (H1 & _); [reflexivity |].
    exact H1.
Defined.

(** ** How the builders end *)

Lemma raises_only_ret {A} c (a : A) : raises_only c (ret a).
Proof. by intros s. Qed.

Lemma raises_only_print c l : raises_only c (print l).
Proof. by intros s. Qed.

Lemma raises_only_bind {A B} c (m : M A) (k : A -> M B) :
  raises_only c m -> (forall a, raises_only c (k a)) ->
  raises_only c (bind m k).
Proof.
  intros Hm Hk s. unfold bind. specialize (Hm s).
  destruct (m s) as [[a | e |] s1]; simpl in *; [apply Hk | done | done].
Qed.

Lemma raises_only_if {A} c (b : bool) (m n : M A) :
  raises_only c m -> raises_only c n -> raises_only c (if b then m else n).
Proof. by destruct b. Qed.

Lemma raises_only_weaken {A} (c c' : exn -> bool) (m : M A) :
  (forall e, c e = true -> c' e = true) ->
  raises_only c m -> raises_only c' m.
Proof.
  intros Hc Hm s. specialize (Hm s).
  destruct (fst (m s)); [done | by apply Hc | done].
Qed.

(** A handler for the class the body raises leaves what the handler
    raises. *)
Lemma raises_only_try {A} c c' (m : M A) hd :
  raises_only c m -> (forall e, raises_only c' (hd e)) ->
  raises_only c' (try_except m c hd).
Proof.
  intros Hm Hh s. unfold try_except. specialize (Hm s).
  destruct (m s) as [[a | e |] s1]; simpl in *; [done | | done].
  rewrite Hm. apply Hh.
Qed.

Lemma raises_nothing_returns {A} (m : M A) s :
  raises_only (fun _ => false) m -> exists a, fst (m s) = Ret a.
Proof.
  intros Hm. specialize (Hm s).
  destruct (fst (m s)) as [a | e |]; [by exists a | done | done].
Qed.

Lemma is_IOError_is_Exception e : is_IOError e = true -> is_Exception e = true.
Proof. by destruct e. Qed.

Section Endings.

Context (h : host).

Lemma raises_only_read_file p : raises_only is_IOError (read_file p).
Proof.
  intros s. unfold read_file. destruct (fs s !! p) as [[]|]; try done.
  by destruct (open_error_cases (fs s) p) as [-> | [-> | [-> | ->]]].
Qed.

Lemma raises_only_read_beside f p : raises_only is_IOError (read_beside h f p).
Proof.
  intros s. unfold read_beside.
  case_bool_decide; [| apply raises_only_read_file].
  destruct (fs s !! f) as [[]|] eqn:E; try done; apply raises_only_read_file.
Qed.

Lemma raises_only_open_wb p : raises_only is_IOError (open_wb h p).
Proof.
  intros s. unfold open_wb. cbv zeta.
  destruct (fs s !! p) as [[]|]; try done;
    [by destruct (io_fault h (OpOpenWrite p)) |].
  destruct (open_error_cases (fs s) p) as [-> | [-> | [-> | ->]]]; try done.
  by destruct (io_fault h (OpOpenWrite p)).
Qed.

Lemma raises_only_f_write p data : raises_only is_IOError (f_write h p data).
Proof.
  intros s. unfold f_write. destruct (fs s !! p) as [[cur |]|]; try done.
  by destruct (io_fault h (OpWrite p (blen cur) (blen data))).
Qed.

Lemma raises_only_f_tell p : raises_only is_IOError (f_tell p).
Proof. intros s. unfold f_tell. by destruct (fs s !! p) as [[]|]. Qed.

Ltac raises_steps :=
  repeat first
    [ apply raises_only_bind; [| intros ?]
    | apply raises_only_if
    | apply raises_only_ret | apply raises_only_print
    | apply raises_only_read_file | apply raises_only_read_beside
    | apply raises_only_open_wb
    | apply raises_only_f_write | apply raises_only_f_tell ].

Lemma raises_only_write_simple_iso f k b :
  raises_only is_IOError (write_simple_iso h f k b).
Proof. unfold write_simple_iso. cbv zeta. raises_steps. Qed.

(** The steps that start no child process. *)
Local Abbreviation no_call := (steps (fun s s' => calls s' = calls s)).

Lemma no_call_trans (s1 s2 s3 : state) :
  calls s2 = calls s1 -> calls s3 = calls s2 -> calls s3 = calls s1.
Proof. congruence. Qed.

Lemma no_call_read_file p : no_call (read_file p).
Proof.
  intros s. unfold read_file. destruct (fs s !! p) as [[]|]; try done.
  by destruct (open_error (fs s) p).
Qed.

Lemma no_call_read_beside f p : no_call (read_beside h f p).
Proof.
  intros s. unfold read_beside.
  case_bool_decide; [| apply no_call_read_file].
  destruct (fs s !! f) as [[]|] eqn:E; try done; apply no_call_read_file.
Qed.

Lemma no_call_open_wb p : no_call (open_wb h p).
Proof.
  intros s. unfold open_wb. cbv zeta.
  destruct (fs s !! p) as [[]|]; try done;
    [by destruct (io_fault h (OpOpenWrite p)) |].
  destruct (open_error (fs s) p); [done |].
  by destruct (io_fault h (OpOpenWrite p)).
Qed.

Lemma no_call_f_write p data : no_call (f_write h p data).
Proof.
  intros s. unfold f_write. destruct (fs s !! p) as [[cur |]|]; try done.
  by destruct (io_fault h (OpWrite p (blen cur) (blen data))).
Qed.

Lemma no_call_f_tell p : no_call (f_tell p).
Proof. intros s. unfold f_tell. by destruct (fs s !! p) as [[]|]. Qed.

Lemma no_call_print l : no_call (print l).
Proof. by intros s. Qed.

Ltac no_call_steps :=
  repeat first
    [ apply (steps_bind _ no_call_trans); [| intros ?]
    | apply (steps_try _ no_call_trans); [| intros ?]
    | apply steps_if
    | apply (steps_ret (fun s s' => calls s' = calls s) (fun s => eq_refl))
    | apply no_call_print | apply no_call_read_file
    | apply no_call_read_beside | apply no_call_open_wb
    | apply no_call_f_write | apply no_call_f_tell ].

Lemma no_call_create_arm64_image k b o : no_call (create_arm64_image h k b o).
Proof.
  unfold create_arm64_image, write_arm64_image. cbv zeta.
  do 3 (apply (steps_bind _ no_call_trans); [apply no_call_print | intros _]).
  apply (steps_bind _ no_call_trans); [no_call_steps |].
  intros [kd |]; [| no_call_steps].
  apply (steps_bind _ no_call_trans); [no_call_steps |].
  intros [bd |]; no_call_steps.
Qed.

Lemma no_call_create_simple_iso k b o : no_call (create_simple_iso h k b o).
Proof. unfold create_simple_iso, write_simple_iso. cbv zeta. no_call_steps. Qed.

Lemma f_write_if_cases p cur (c : bool) data s :
  fs s !! p = Some (File cur) ->
  (Forall (fun op => io_fault h op = None)
     (if c then [OpWrite p (blen cur) (blen data)] else [])
   /\ (if c then f_write h p data else ret tt) s
      = (Ret tt,
         set_fs (<[p := File (cur ++ if c then data else [])]> (fs s)) s))
  \/ (Exists (fun op => io_fault h op <> None)
        (if c then [OpWrite p (blen cur) (blen data)] else [])
      /\ exists msg s',
           (if c then f_write h p data else ret tt) s
           = (Raise (OSError msg), s')).
Proof.
  intros E. destruct c.
  - unfold f_write. rewrite E.
    destruct (io_fault h _) as [msg |] eqn:F; [right | left].
    + split; [apply Exists_cons_hd; by rewrite F | eauto].
    + split; [by apply Forall_singleton | done].
  - left. split; [apply Forall_nil_2 |].
    unfold ret. rewrite app_nil_r, insert_id by done. by rewrite set_fs_same.
Qed.

(** The writes of the raw image builder, as the code computes their
    positions and lengths. *)
Lemma image_writes_eq f bl kl :
  let pad :=
    if MiB - blen bl mod MiB <? MiB
    then zeros (MiB - blen bl mod MiB) else [] in
  let fill :=
    if blen ((bl ++ pad) ++ kl) <? 16 * MiB
    then zeros (16 * MiB - blen ((bl ++ pad) ++ kl)) else [] in
  image_writes f bl kl
  = (if true then [OpWrite f (blen []) (blen bl)] else [])
    ++ (if MiB - blen bl mod MiB <? MiB
        then [OpWrite f (blen bl) (blen (zeros (MiB - blen bl mod MiB)))]
        else [])
    ++ (if true then [OpWrite f (blen (bl ++ pad)) (blen kl)] else [])
    ++ (if blen ((bl ++ pad) ++ kl) <? 16 * MiB
        then [OpWrite f (blen ((bl ++ pad) ++ kl))
                (blen (zeros (16 * MiB - blen ((bl ++ pad) ++ kl))))]
        else [])
  /\ ((bl ++ pad) ++ kl) ++ fill = assemble MiB (16 * MiB) bl kl.
Proof.
  cbv zeta.
  assert (0 < MiB) as HM by done.
  pose proof (roundUp_pad (blen bl) MiB HM) as Hko.
  pose proof (Z.mod_pos_bound (blen bl) MiB HM) as Hmod.
  pose proof (blen_nonneg bl). pose proof (blen_nonneg kl).
  unfold image_writes, assemble. cbv zeta. rewrite Hko.
  change (blen []) with 0.
  rewrite !blen_app.
  destruct (Z.ltb_spec (MiB - blen bl mod MiB) MiB) as [Hp | Hp].
  - rewrite blen_zeros, Z.max_r by lia.
    replace (blen bl + (MiB - blen bl mod MiB) - blen bl)
      with (MiB - blen bl mod MiB) by lia.
    destruct (Z.ltb_spec (blen bl + (MiB - blen bl mod MiB) + blen kl)
                (16 * MiB)).
    + rewrite blen_zeros, Z.max_r by lia.
      split; [done | by rewrite <- !app_assoc].
    + split; [done |].
      rewrite (zeros_nil (16 * MiB - _)) by lia.
      by rewrite <- !app_assoc.
  - change (blen []) with 0. rewrite Z.add_0_r.
    rewrite (zeros_nil (blen bl - blen bl)) by lia.
    destruct (Z.ltb_spec (blen bl + blen kl) (16 * MiB)).
    + rewrite blen_zeros, Z.max_r by lia.
      split; [done | by rewrite <- !app_assoc].
    + split; [done |].
      rewrite (zeros_nil (16 * MiB - _)) by lia.
      by rewrite <- !app_assoc.
Qed.

(** The body of the raw image builder writes the whole image when the
    host refuses none of its writes, and raises an I/O error at the first
    write that the host refuses. *)
Lemma write_arm64_image_faults f bl kl s :
  fs s !! f = Some (File []) ->
  (Forall (fun op => io_fault h op = None) (image_writes f bl kl)
   /\ exists r s',
        write_arm64_image h f bl kl s = (Ret r, s')
        /\ fs s' = <[f := File (assemble MiB (16 * MiB) bl kl)]> (fs s))
  \/ (Exists (fun op => io_fault h op <> None) (image_writes f bl kl)
      /\ exists e s',
           write_arm64_image h f bl kl s = (Raise e, s')
           /\ is_IOError e = true).
Proof.
  intros E0.
  cut (exists res s',
         write_arm64_image h f bl kl s = (res, s')
         /\ ((Forall (fun op => io_fault h op = None) (image_writes f bl kl)
              /\ (exists r, res = Ret r)
              /\ fs s' = <[f := File (assemble MiB (16 * MiB) bl kl)]> (fs s))
             \/ (Exists (fun op => io_fault h op <> None)
                   (image_writes f bl kl)
                 /\ exists e, res = Raise e /\ is_IOError e = true))).
  { intros (res & s' & E & [(HF & [r ->] & F) | (HE & e & -> & He)]);
      [left | right]; (split; [done |]); by eauto. }
  destruct (image_writes_eq f bl kl) as [-> <-].
  unfold write_arm64_image. cbv zeta.
  change (1024 * 1024) with MiB. change (16 * 1024 * 1024) with (16 * MiB).
  destruct (f_write_if_cases f [] true bl s E0)
    as [[F1 E1] | [F1 (msg & s' & E1)]]; run_with E1.
  2: { eexists _, _. split; [reflexivity |]. right.
       split; [by apply Exists_app; left | by eauto]. }
  set (s1 := set_fs _ s).
  assert (fs s1 !! f = Some (File bl)) as L1 by apply lookup_insert_eq.
  destruct (f_write_if_cases f bl (MiB - blen bl mod MiB <? MiB)
              (zeros (MiB - blen bl mod MiB)) s1 L1)
    as [[F2 E2] | [F2 (msg & s' & E2)]]; run_with E2.
  2: { eexists _, _. split; [reflexivity |]. right.
       split; [| by eauto].
       apply Exists_app; right. by apply Exists_app; left. }
  set (pad := if _ <? _ then _ else _).
  set (s2 := set_fs _ s1).
  assert (fs s2 !! f = Some (File (bl ++ pad))) as L2
    by apply lookup_insert_eq.
  run_with (f_tell_ok f _ s2 L2).
  destruct (f_write_if_cases f (bl ++ pad) true kl s2 L2)
    as [[F3 E3] | [F3 (msg & s' & E3)]]; run_with E3.
  2: { eexists _, _. split; [reflexivity |]. right.
       split; [| by eauto].
       apply Exists_app; right. apply Exists_app; right.
       by apply Exists_app; left. }
  set (s3 := set_fs _ s2).
  assert (fs s3 !! f = Some (File ((bl ++ pad) ++ kl))) as L3
    by apply lookup_insert_eq.
  run_print. set (s4 := {| fs := fs s3 |}).
  assert (fs s4 !! f = Some (File ((bl ++ pad) ++ kl))) as L4 by exact L3.
  run_with (f_tell_ok f _ s4 L4).
  destruct (f_write_if_cases f ((bl ++ pad) ++ kl)
              (blen ((bl ++ pad) ++ kl) <? 16 * MiB)
              (zeros (16 * MiB - blen ((bl ++ pad) ++ kl))) s4 L4)
    as [[F4 E4] | [F4 (msg & s' & E4)]]; run_with E4.
  2: { eexists _, _. split; [reflexivity |]. right.
       split; [| by eauto].
       apply Exists_app; right. apply Exists_app; right.
       by apply Exists_app; right. }
  set (s5 := set_fs _ s4).
  assert (fs s5 !! f = Some (File (((bl ++ pad) ++ kl)
            ++ if blen ((bl ++ pad) ++ kl) <? 16 * MiB
               then zeros (16 * MiB - blen ((bl ++ pad) ++ kl)) else [])))
    as L5 by apply lookup_insert_eq.
  run_with (f_tell_ok f _ s5 L5). run_print. unfold ret.
  eexists _, _. split; [reflexivity |]. left. split; [| split].
  - rewrite !Forall_app. by repeat split.
  - by eauto.
  - cbn [fs]. subst s5 s4 s3 s2 s1. cbn [fs set_fs].
    by rewrite !insert_insert_eq.
Qed.

Lemma openable_false_raises o s :
  openable (fs s) o = false ->
  exists e, open_wb h o s = (Raise e, s) /\ is_IOError e = true.
Proof.
  unfold openable, open_wb. cbv zeta.
  destruct (fs s !! o) as [[] |]; try done; [by eauto |].
  destruct (open_error_cases (fs s) o) as [-> | [-> | [-> | ->]]];
    [done | by eauto | by eauto | by eauto].
Qed.

Lemma openable_true_opens o s :
  openable (fs s) o = true ->
  open_wb h o s
  = match io_fault h (OpOpenWrite o) with
    | Some msg => (Raise (OSError msg), s)
    | None => (Ret tt, set_fs (<[o := File []]> (fs s)) s)
    end.
Proof.
  unfold openable, open_wb. cbv zeta.
  destruct (fs s !! o) as [[] |]; try done.
  by destruct (open_error (fs s) o).
Qed.

(** X2: On readable inputs the raw image builder returns [True] or [False]
    whatever the host refuses, and starts no child process. It returns [True]
    exactly when the output can be opened (a file is there, or nothing is
    there and the path names a new file in an existing directory) and the host
    refuses neither the opening nor any of the writes; the output then holds
    the whole image. Every other run returns [False]: an error of the opening
    or of a write is reported, never raised. When the output cannot be opened
    no file has changed. *)
Theorem arm64_reports_write_errors k b o kd bd s :
  fs s !! k = Some (File kd) ->
  fs s !! b = Some (File bd) ->
  (exists r, fst (create_arm64_image h k b o s) = Ret r)
  /\ calls (snd (create_arm64_image h k b o s)) = calls s
  /\ (fst (create_arm64_image h k b o s) = Ret true
      <-> openable (fs s) o = true
          /\ Forall (fun op => io_fault h op = None) (image_ops o bd kd))
  /\ (fst (create_arm64_image h k b o s) = Ret true ->
      fs (snd (create_arm64_image h k b o s))
      = <[o := File (assemble MiB (16 * MiB) bd kd)]> (fs s))
  /\ (openable (fs s) o = false ->
      fst (create_arm64_image h k b o s) = Ret false
      /\ fs (snd (create_arm64_image h k b o s)) = fs s).
Proof.
  intros Ek Eb.
  cut (exists r s',
         create_arm64_image h k b o s = (Ret r, s')
         /\ (r = true
             <-> openable (fs s) o = true
                 /\ Forall (fun op => io_fault h op = None)
                      (image_ops o bd kd))
         /\ (r = true
             -> fs s' = <[o := File (assemble MiB (16 * MiB) bd kd)]> (fs s))
         /\ (openable (fs s) o = false -> r = false /\ fs s' = fs s)).
  { intros (r & s' & E & Hiff & Hfs & Hno).
    split; [rewrite E; by exists r |].
    split; [apply no_call_create_arm64_image |].
    rewrite E. cbn [fst snd].
    split; [| split].
    - rewrite <- Hiff. split; [by intros [= ->] | by intros ->].
    - intros [= ->]. by apply Hfs.
    - intros Hd. destruct (Hno Hd) as [-> F]. done. }
  unfold create_arm64_image. do 3 run_print.
  set (s1 := {| fs := _ |}).
  unfold bind at 1, try_except at 1.
  run_with (read_file_ok k kd s1 Ek). run_print.
  unfold ret at 1. cbv beta iota. set (s2 := {| fs := _ |}).
  unfold bind at 1, try_except at 1.
  run_with (read_file_ok b bd s2 Eb). run_print.
  unfold ret at 1. cbv beta iota. set (s3 := {| fs := _ |}).
  unfold try_except, image_ops.
  destruct (openable (fs s) o) eqn:Ho.
  - unfold bind at 1.
    rewrite (openable_true_opens o s3 Ho).
    destruct (io_fault h (OpOpenWrite o)) as [msg |] eqn:Fo.
    + cbn [is_IOError]. cbv beta iota. run_print. unfold ret.
      eexists _, _. split; [reflexivity |].
      split; [| done]. split; [done |].
      intros [_ HF]. apply Forall_cons in HF as [HF _]. congruence.
    + cbv beta iota. set (s4 := set_fs _ s3).
      assert (fs s4 !! o = Some (File [])) as L4 by apply lookup_insert_eq.
      destruct (write_arm64_image_faults o bd kd s4 L4)
        as [[HF (r & s' & E & F)] | [HE (e & s' & E & He)]].
      * run_with E. run_print. unfold ret.
        eexists _, _. split; [reflexivity |].
        split; [| split; [| done]].
        -- split; [| done]. intros _. split; [done |].
           by apply Forall_cons.
        -- intros _. cbn [fs]. rewrite F. subst s4. cbn [fs set_fs].
           by rewrite insert_insert_eq.
      * run_with E. rewrite He. cbv beta iota. run_print. unfold ret.
        eexists _, _. split; [reflexivity |].
        split; [| done]. split; [done |].
        intros [_ HF]. apply Forall_cons in HF as [_ HF].
        apply Exists_exists in HE as (op & Hin & Hop).
        rewrite Forall_forall in HF. by specialize (HF op Hin).
  - destruct (openable_false_raises o s3 Ho) as (e & E & He).
    run_with E. rewrite He. cbv beta iota. run_print. unfold ret.
    eexists _, _. split; [reflexivity |].
    split; [| split; done]. split; [done | by intros [? _]].
Qed.

(** X3: The fallback image builder returns [True] or [False] from every state
    and on every host: a missing input, an output that cannot be opened
    and a refused write all end in [False]; it starts no child process. *)
Theorem fallback_never_raises k b o s :
  (exists r, fst (create_simple_iso h k b o s) = Ret r)
  /\ calls (snd (create_simple_iso h k b o s)) = calls s.
Proof.
  split; [| apply no_call_create_simple_iso].
  unfold create_simple_iso. do 2 run_print.
  apply raises_nothing_returns.
  apply (raises_only_try is_Exception).
  - apply (raises_only_weaken is_IOError);
      [apply is_IOError_is_Exception |].
    apply raises_only_bind; [apply raises_only_open_wb | intros _].
    apply raises_only_bind; [apply raises_only_write_simple_iso | intros _].
    apply raises_only_ret.
  - intros e.
    apply raises_only_bind; [apply raises_only_print | intros _].
    apply raises_only_ret.
Qed.

End Endings.

Lemma arm64_reports_write_errors_witness :
  fst (create_arm64_image small_disk_host "kernel.elf" "boot.bin"
         "minios.img" (inputs [x7f] [xeb])) <> Ret true
  /\ fst (create_arm64_image bare_host "kernel.elf" "boot.bin"
            "minios.img" (inputs [x7f] [xeb])) = Ret true.
Proof.
  split.
  - destruct (arm64_reports_write_errors small_disk_host "kernel.elf"
                "boot.bin" "minios.img" [x7f] [xeb] (inputs [x7f] [xeb]))
      as (_ & _ & H & _); [reflexivity | reflexivity |].
    intros E. apply H in E as [_ HF].
    apply Forall_cons in HF as [_ HF].
    apply Forall_app in HF as [_ HF].
    apply Forall_app in HF as [_ HF].
    apply Forall_app in HF as [_ HF].
    apply Forall_cons in HF as [HF _].
    vm_compute in HF. discriminate HF.
  - destruct (arm64_reports_write_errors bare_host "kernel.elf"
                "boot.bin" "minios.img" [x7f] [xeb] (inputs [x7f] [xeb]))
      as (_ & _ & H & _); [reflexivity | reflexivity |].
    apply H. split; [reflexivity |].
    repeat (apply Forall_cons; split; [reflexivity |]).
    apply Forall_nil_2.
Defined.

(** ** The command line tool for raw images *)

Lemma validate_inputs_missing pre p post s :
  Forall (fun q => is_Some (fs s !! q)) pre ->
  fs s !! p = None ->
  validate_inputs (pre ++ p :: post) s
  = (Raise (SystemExit 1),
     {| fs := fs s;
        stdout := stdout s ++ ["Error: File not found: " +:+ p];
        calls := calls s |}).
Proof.
  intros Hpre Ep. induction Hpre as [| q pre Hq _ IH]; cbn [app validate_inputs].
  - unfold bind at 1, path_exists at 1. cbv beta iota. rewrite Ep.
    rewrite bool_decide_eq_false_2 by (by intros [? ?]).
    cbn [negb]. cbv beta iota. run_print. reflexivity.
  - unfold bind at 1, path_exists at 1. cbv beta iota.
    rewrite bool_decide_eq_true_2 by done. cbn [negb]. cbv beta iota.
    exact IH.
Qed.

Lemma image_main_banner (verbose : bool) a s :
  exists s0,
    fs s0 = fs s /\ calls s0 = calls s
    /\ (if verbose
        then print "MiniOS Image Creation Tool";;
             print ("Architecture: " +:+ arch_str a);;
             print rule40
        else ret tt) s = (Ret tt, s0).
Proof.
  destruct verbose.
  - exists (snd ((print "MiniOS Image Creation Tool";;
                  print ("Architecture: " +:+ arch_str a);;
                  print rule40) s)).
    repeat split; reflexivity.
  - exists s. repeat split; reflexivity.
Qed.

(** X4: When the kernel path does not exist, or the kernel path exists and the
    bootloader path does not, both command line tools print
    [Error: File not found: <the first missing path>] and exit with status
    1; no file is created or changed (no output directory, no staging
    directory) and no child process is started. *)
Theorem mains_missing_input h a k b o verbose s missing :
  (fs s !! k = None /\ missing = k)
  \/ (is_Some (fs s !! k) /\ fs s !! b = None /\ missing = b) ->
  let said r := last (stdout (snd r))
                = Some ("Error: File not found: " +:+ missing) in
  let untouched (r : outcome unit * state) :=
    fst r = Raise (SystemExit 1)
    /\ fs (snd r) = fs s /\ calls (snd r) = calls s in
  (untouched (image_main h (ImageArgs a k b o verbose) s)
   /\ said (image_main h (ImageArgs a k b o verbose) s))
  /\ (untouched (iso_main h (IsoArgs k b o verbose) s)
      /\ said (iso_main h (IsoArgs k b o verbose) s)).
Proof.
  intros Hmiss said untouched.
  assert (exists pre post,
            [k; b] = pre ++ missing :: post
            /\ Forall (fun q => is_Some (fs s !! q)) pre
            /\ fs s !! missing = None) as (pre & post & El & Hpre & Em).
  { destruct Hmiss as [[Ek ->] | (Hk & Eb & ->)].
    - exists [], [b]. by repeat split.
    - exists [k], []. repeat split; [by repeat constructor | done]. }
  split.
  - destruct (image_main_banner verbose a s) as (s0 & F0 & C0 & E0).
    cut (exists s', image_main h (ImageArgs a k b o verbose) s
                    = (Raise (SystemExit 1), s')
                    /\ fs s' = fs s /\ calls s' = calls s
                    /\ last (stdout s')
                       = Some ("Error: File not found: " +:+ missing)).
    { intros (s' & E & F & C & L). subst said untouched. cbv beta.
      by rewrite E. }
    unfold image_main. cbn [ia_kernel ia_bootloader ia_verbose ia_arch].
    run_with E0. unfold bind at 1. rewrite El.
    rewrite (validate_inputs_missing pre missing post s0)
      by (by rewrite F0).
    cbv beta iota. eexists. split; [reflexivity |]. cbn [fs calls stdout].
    repeat split; [done | done | apply last_snoc].
  - destruct (iso_main_banner verbose s) as (s0 & F0 & C0 & E0).
    cut (exists s', iso_main h (IsoArgs k b o verbose) s
                    = (Raise (SystemExit 1), s')
                    /\ fs s' = fs s /\ calls s' = calls s
                    /\ last (stdout s')
                       = Some ("Error: File not found: " +:+ missing)).
    { intros (s' & E & F & C & L). subst said untouched. cbv beta.
      by rewrite E. }
    unfold iso_main. cbn [iso_kernel iso_bootloader iso_verbose].
    run_with E0. unfold bind at 1. rewrite El.
    rewrite (validate_inputs_missing pre missing post s0)
      by (by rewrite F0).
    cbv beta iota. eexists. split; [reflexivity |]. cbn [fs calls stdout].
    repeat split; [done | done | apply last_snoc].
Qed.

Lemma mains_missing_input_witness :
  fst (image_main bare_host
         (ImageArgs x86_64 "kernel.elf" "missing.bin" "out/minios.img" true)
         (inputs [x7f] [xeb])) = Raise (SystemExit 1)
  /\ fst (iso_main bare_host
            (IsoArgs "kernel.elf" "missing.bin" "out/minios.iso" true)
            (inputs [x7f] [xeb])) = Raise (SystemExit 1).
Proof.
  destruct (mains_missing_input bare_host x86_64 "kernel.elf" "missing.bin"
              "out/minios.img" true (inputs [x7f] [xeb]) "missing.bin")
    as (((H1 & _) & _) & _).
  { right. split; [vm_compute; eauto |]. split; reflexivity. }
  destruct (mains_missing_input bare_host x86_64 "kernel.elf" "missing.bin"
              "out/minios.iso" true (inputs [x7f] [xeb]) "missing.bin")
    as (_ & ((H2 & _) & _)).
  { right. split; [vm_compute; eauto |]. split; reflexivity. }
  split; [exact H1 | exact H2].
Defined.

(** X5: The architecture and the verbose flag change what is printed and
    nothing else: from the same state, two runs of a command line tool on
    the same paths end the same way, leave the same files and start the
    same child processes, on every host. *)
Theorem flags_only_change_output h a a' k b o verbose verbose' s :
  (fst (image_main h (ImageArgs a k b o verbose) s)
   = fst (image_main h (ImageArgs a' k b o verbose') s)
   /\ fs (snd (image_main h (ImageArgs a k b o verbose) s))
      = fs (snd (image_main h (ImageArgs a' k b o verbose') s))
   /\ calls (snd (image_main h (ImageArgs a k b o verbose) s))
      = calls (snd (image_main h (ImageArgs a' k b o verbose') s)))
  /\ (fst (iso_main h (IsoArgs k b o verbose) s)
      = fst (iso_main h (IsoArgs k b o verbose') s)
      /\ fs (snd (iso_main h (IsoArgs k b o verbose) s))
         = fs (snd (iso_main h (IsoArgs k b o verbose') s))
      /\ calls (snd (iso_main h (IsoArgs k b o verbose) s))
         = calls (snd (iso_main h (IsoArgs k b o verbose') s))).
Proof.
  split.
  - destruct (agree_log_image_main h a k b o verbose s s eq_refl eq_refl)
      as (E1 & F1 & C1).
    destruct (agree_log_image_main h a' k b o verbose' s s eq_refl eq_refl)
      as (E2 & F2 & C2).
    rewrite E1, F1, C1, E2, F2, C2. done.
  - destruct (agree_log_iso_main h k b o verbose s s eq_refl eq_refl)
      as (E1 & F1 & C1).
    destruct (agree_log_iso_main h k b o verbose' s s eq_refl eq_refl)
      as (E2 & F2 & C2).
    rewrite E1, F1, C1, E2, F2, C2. done.
Qed.

(** X6: When both inputs exist and the output directory needs no creation, the
    raw image tool ends as its builder does, for either architecture:
    status 0 when the builder returns [True], status 1 when it returns
    [False], and an exception of the builder leaves [main] as it is; the
    files and the child processes are the builder's. *)
Theorem image_main_exit_status h a k b o verbose s :
  is_Some (fs s !! k) ->
  is_Some (fs s !! b) ->
  dirname o = "" \/ is_Some (fs s !! dirname o) ->
  fst (image_main h (ImageArgs a k b o verbose) s)
  = exit_of (fst (create_arm64_image h k b o s))
  /\ fs (snd (image_main h (ImageArgs a k b o verbose) s))
     = fs (snd (create_arm64_image h k b o s))
  /\ calls (snd (image_main h (ImageArgs a k b o verbose) s))
     = calls (snd (create_arm64_image h k b o s)).
Proof.
  intros Hk Hb Hd.
  apply image_main_from_builder; [done | done |].
  by apply make_output_dir_ok.
Qed.

Lemma image_main_exit_status_witness :
  fst (image_main small_disk_host
         (ImageArgs x86_64 "kernel.elf" "boot.bin" "minios.img" true)
         (inputs [x7f] [xeb]))
  = exit_of (fst (create_arm64_image small_disk_host "kernel.elf" "boot.bin"
                    "minios.img" (inputs [x7f] [xeb]))).
Proof.
  destruct (image_main_exit_status small_disk_host x86_64 "kernel.elf"
              "boot.bin" "minios.img" true (inputs [x7f] [xeb])) as (H & _).
  - vm_compute. eauto.
  - vm_compute. eauto.
  - left. reflexivity.
  - exact H.
Defined.

(** X7: An input path that is a directory is not reported as a failure:
    the builder catches only [FileNotFoundError] around its reads, so
    [IsADirectoryError] leaves the builder and then [main] of the raw
    image tool, in place of [sys.exit].  By then [main] has created the
    directory of the output when it was missing: the files after the run
    are those after that step, which changes nothing that exists; the
    builder changes no file, and no child process was started. *)
Theorem directory_input_escapes h a k b o verbose s s1 culprit :
  (fs s !! k = Some Dir /\ is_Some (fs s !! b) /\ culprit = k)
  \/ ((exists kd, fs s !! k = Some (File kd))
      /\ fs s !! b = Some Dir /\ culprit = b) ->
  make_output_dir h o s = (Ret tt, s1) ->
  fst (create_arm64_image h k b o s1) = Raise (IsADirectoryError culprit)
  /\ fst (image_main h (ImageArgs a k b o verbose) s)
     = Raise (IsADirectoryError culprit)
  /\ fs (snd (image_main h (ImageArgs a k b o verbose) s)) = fs s1
  /\ (forall p n, fs s !! p = Some n -> fs s1 !! p = Some n)
  /\ calls (snd (image_main h (ImageArgs a k b o verbose) s)) = calls s.
Proof.
  intros Hdir Hmk.
  pose proof (keeps_entries_make_output_dir h o s) as [Hkeep Hc].
  rewrite Hmk in Hkeep, Hc. cbn [snd] in Hkeep, Hc.
  assert (exists s', create_arm64_image h k b o s1
                     = (Raise (IsADirectoryError culprit), s')
                     /\ fs s' = fs s1 /\ calls s' = calls s1)
    as (s' & E & F & C).
  { unfold create_arm64_image. do 3 run_print.
    set (s2 := {| fs := _ |}).
    unfold bind at 1, try_except at 1, bind at 1, read_file at 1.
    change (fs s2) with (fs s1).
    destruct Hdir as [(Ek & _ & ->) | ([kd Ek] & Eb & ->)];
      rewrite (Hkeep _ _ Ek); cbv beta iota.
    - cbn [is_FileNotFoundError]. cbv beta iota.
      eexists. split; [reflexivity | done].
    - run_print. unfold ret at 1. cbv beta iota.
      set (s3 := {| fs := _ |}).
      unfold bind at 1, try_except at 1, bind at 1, read_file at 1.
      change (fs s3) with (fs s1). rewrite (Hkeep _ _ Eb). cbv beta iota.
      cbn [is_FileNotFoundError]. cbv beta iota.
      eexists. split; [reflexivity | done]. }
  assert (is_Some (fs s !! k) /\ is_Some (fs s !! b)) as [Hk Hb].
  { destruct Hdir as [(Ek & Hb & _) | ([kd Ek] & Eb & _)].
    - by rewrite Ek.
    - by rewrite Ek, Eb. }
  destruct (image_main_from_builder h a k b o verbose s s1 Hk Hb Hmk)
    as (E1 & F1 & C1).
  rewrite E1, F1, C1, E. cbn [fst snd exit_of].
  repeat split; [done | exact Hkeep | congruence].
Qed.

Lemma directory_input_escapes_witness :
  fst (image_main bare_host
         (ImageArgs arm64 "/tmp" "boot.bin" "out/minios.img" false)
         (inputs [x7f] [xeb]))
  = Raise (IsADirectoryError "/tmp")
  /\ fs (snd (image_main bare_host
                (ImageArgs arm64 "/tmp" "boot.bin" "out/minios.img" false)
                (inputs [x7f] [xeb]))) !! "out" = Some Dir.
Proof.
  destruct (directory_input_escapes bare_host arm64 "/tmp" "boot.bin"
              "out/minios.img" false (inputs [x7f] [xeb])
              (snd (make_output_dir bare_host "out/minios.img"
                      (inputs [x7f] [xeb]))) "/tmp")
    as (_ & H1 & H2 & _).
  - left. split; [reflexivity |]. split; [vm_compute; eauto | reflexivity].
  - reflexivity.
  - split; [exact H1 |]. rewrite H2. reflexivity.
Defined.

Lemma drop_while_length {A} (p : A -> bool) (l : list A) :
  (length (drop_while p l) <= length l)%nat.
Proof.
  induction l as [| x l IH]; simpl; [lia |].
  destruct (p x); simpl; lia.
Qed.

Lemma length_string_of_list_ascii l :
  String.length (String.string_of_list_ascii l) = length l.
Proof. induction l as [| c l IH]; simpl; congruence. Qed.

Lemma length_list_ascii_of_string p :
  length (String.list_ascii_of_string p) = String.length p.
Proof. induction p as [| c p IH]; simpl; congruence. Qed.

(** The directory of a path is not longer than the path. *)
Lemma dirname_length p : (String.length (dirname p) <= String.length p)%nat.
Proof.
  unfold dirname, path_split. cbn [fst].
  rewrite length_string_of_list_ascii, length_reverse.
  rewrite <- length_list_ascii_of_string,
    <- (length_reverse (String.list_ascii_of_string p)).
  set (l := reverse (String.list_ascii_of_string p)).
  pose proof (drop_while_length (fun c => negb (is_slash c)) l) as H1.
  destruct (forallb is_slash (drop_while (fun c => negb (is_slash c)) l));
    [done |].
  pose proof (drop_while_length is_slash
                (drop_while (fun c => negb (is_slash c)) l)) as H2.
  lia.
Qed.

Lemma is_slash_eq c : is_slash c = true -> c = "/"%char.
Proof. unfold is_slash. by intros H%Ascii.eqb_eq. Qed.

Lemma ends_with_slash_snoc acc c :
  ends_with_slash (acc +:+ String c "") = is_slash c.
Proof. by rewrite ends_with_slash_append. Qed.

(** Where a directory above a path stops in the path: before a slash. *)
Lemma ancestors_from_split acc rest pre a post :
  ancestors_from acc rest = pre ++ a :: post ->
  exists r1 r2,
    rest = r1 +:+ String "/" r2 /\ a = acc +:+ r1
    /\ a <> "" /\ ends_with_slash a = false
    /\ ancestors_from (a +:+ "/") r2 = post.
Proof.
  revert acc pre. induction rest as [| c rest IH]; intros acc pre; simpl.
  - intros E. by destruct pre.
  - destruct (is_slash c && negb (bool_decide (acc = ""))
              && negb (ends_with_slash acc)) eqn:Hc; cbn [app].
    + destruct pre as [| x pre]; cbn [app]; intros E; injection E as -> E.
      * apply andb_true_iff in Hc as [Hc Hs].
        apply andb_true_iff in Hc as [Hc He].
        apply is_slash_eq in Hc as ->.
        apply negb_true_iff in He, Hs. apply bool_decide_eq_false in He.
        exists "", rest. by rewrite append_nil_r.
      * destruct (IH _ _ E) as (r1 & r2 & -> & Ea & Hn & Hs & <-).
        rewrite append_assoc in Ea.
        exists (String c r1), r2. by rewrite append_cons.
    + intros E. destruct (IH _ _ E) as (r1 & r2 & -> & Ea & Hn & Hs & <-).
      rewrite append_assoc in Ea.
      exists (String c r1), r2. by rewrite append_cons.
Qed.

(** After a name that has begun, a path without further directories has
    no slash. *)
Lemma no_ancestors_name acc r :
  acc <> "" -> ends_with_slash acc = false -> ancestors_from acc r = [] ->
  forallb (fun c => negb (is_slash c)) (String.list_ascii_of_string r) = true.
Proof.
  revert acc. induction r as [| c r IH]; intros acc Hn Hs; simpl; [done |].
  rewrite Hs, bool_decide_eq_false_2 by done.
  destruct (is_slash c) eqn:Hc; cbn [app negb andb]; [done |].
  intros E. apply (IH (acc +:+ String c ""));
    [by apply append_nonempty | by rewrite ends_with_slash_snoc | done].
Qed.

(** After a slash, a path without further directories is slashes and then
    a name. *)
Lemma no_ancestors_slashes acc r :
  ends_with_slash acc = true -> ancestors_from acc r = [] ->
  exists sl name,
    r = sl +:+ name
    /\ forallb is_slash (String.list_ascii_of_string sl) = true
    /\ forallb (fun c => negb (is_slash c)) (String.list_ascii_of_string name)
       = true.
Proof.
  revert acc. induction r as [| c r IH]; intros acc Hs; simpl.
  - intros _. by exists "", "".
  - rewrite Hs. cbn [negb]. rewrite andb_false_r. cbn [app]. intros E.
    destruct (is_slash c) eqn:Hc.
    + destruct (IH (acc +:+ String c "")) as (sl & name & -> & H1 & H2);
        [by rewrite ends_with_slash_snoc | done |].
      exists (String c sl), name. rewrite append_cons. split; [done |].
      simpl. by rewrite Hc.
    + exists "", (String c r). split; [done |]. split; [done |].
      simpl. rewrite Hc. cbn [negb andb].
      apply (no_ancestors_name (acc +:+ String c ""));
        [by apply append_nonempty | by rewrite ends_with_slash_snoc | done].
Qed.

Lemma drop_while_all {A} (p : A -> bool) (x y : list A) :
  forallb p x = true -> drop_while p (x ++ y) = drop_while p y.
Proof.
  induction x as [| c x IH]; simpl; [done |].
  intros H. apply andb_true_iff in H as [-> H]. by apply IH.
Qed.

Lemma forallb_reverse {A} (p : A -> bool) (l : list A) :
  forallb p (reverse l) = forallb p l.
Proof.
  induction l as [| c l IH]; [done |].
  rewrite reverse_cons, forallb_app, IH. simpl. rewrite andb_true_r.
  apply andb_comm.
Qed.

(** [os.path.dirname] of a name below a directory, whatever the number of
    slashes between them. *)
Lemma dirname_below a sl name :
  a <> "" -> ends_with_slash a = false ->
  forallb is_slash (String.list_ascii_of_string sl) = true ->
  forallb (fun c => negb (is_slash c)) (String.list_ascii_of_string name)
  = true ->
  dirname (a +:+ String "/" (sl +:+ name)) = a.
Proof.
  intros Hn Hs Hsl Hname. unfold dirname, path_split. cbn [fst].
  rewrite list_ascii_append. cbn [String.list_ascii_of_string].
  rewrite list_ascii_append.
  rewrite reverse_app, reverse_cons, reverse_app, <- !app_assoc.
  rewrite drop_while_all by (by rewrite forallb_reverse).
  unfold ends_with_slash in Hs.
  destruct (reverse (String.list_ascii_of_string a)) as [| c r] eqn:Er.
  { destruct a; [done |].
    apply (f_equal length) in Er. by rewrite length_reverse in Er. }
  cbn [app].
  assert (drop_while (fun c => negb (is_slash c))
            (reverse (String.list_ascii_of_string sl) ++ "/"%char :: c :: r)
          = reverse (String.list_ascii_of_string sl) ++ "/"%char :: c :: r)
    as ->.
  { rewrite <- forallb_reverse in Hsl.
    destruct (reverse (String.list_ascii_of_string sl)) as [| d l];
      [done |].
    cbn [forallb] in Hsl. apply andb_true_iff in Hsl as [Hd _].
    cbn [app drop_while]. by rewrite Hd. }
  rewrite forallb_app. cbn [forallb]. rewrite Hs.
  cbn [andb]. rewrite !andb_false_r.
  rewrite drop_while_all by (by rewrite forallb_reverse).
  cbn [drop_while]. change (is_slash "/") with true. cbv iota.
  rewrite Hs. rewrite <- Er, reverse_involutive.
  apply String.string_of_list_ascii_of_string.
Qed.

(** The parent of a path is its [os.path.dirname]. *)
Lemma parent_dirname p par :
  parent p = Some par -> par = dirname p /\ par <> "".
Proof.
  unfold parent, ancestors. intros E. apply last_Some in E as [l E].
  apply ancestors_from_split in E as (r1 & r2 & -> & Ea & Hn & Hs & E).
  rewrite append_nil_l in Ea. subst r1.
  apply no_ancestors_slashes in E as (sl & name & -> & Hsl & Hname);
    [| by rewrite ends_with_slash_snoc].
  split; [| done]. symmetry. by apply dirname_below.
Qed.

Lemma drop_while_slashes l :
  forallb is_slash l = true ->
  drop_while (fun c => negb (is_slash c)) l = l.
Proof.
  destruct l as [| c l]; simpl; [done |]. by intros [-> _]%andb_true_iff.
Qed.

(** The empty path and the root are their own [os.path.dirname]. *)
Lemma dirname_plain o : dirname o <> o -> no_file_path o = None.
Proof.
  intros Hne. unfold no_file_path.
  case_bool_decide as E; [by subst o |].
  destruct (forallb is_slash (String.list_ascii_of_string o)) eqn:Hs;
    [| done].
  exfalso. apply Hne. unfold dirname, path_split. cbn [fst].
  rewrite <- forallb_reverse in Hs.
  rewrite (drop_while_slashes _ Hs), Hs, reverse_involutive.
  apply String.string_of_list_ascii_of_string.
Qed.

Lemma openable_intro (f : gmap string node) o :
  no_file_path o = None ->
  is_dir f o = false ->
  (forall par, parent o = Some par -> f !! par = Some Dir) ->
  openable f o = true.
Proof.
  unfold openable, is_dir, open_error, parent_error. intros -> Hd Hp.
  destruct (f !! o) as [[] |]; try done.
  destruct (parent o) as [par |]; [| done]. by rewrite (Hp par).
Qed.

(** The directory of the output, created when it is missing. *)
Lemma make_output_dir_creates h o s :
  (forall op, io_fault h op = None) ->
  existsb (is_file (fs s)) (ancestors (dirname o)) = false ->
  make_output_dir h o s
  = (Ret tt,
     set_fs (if bool_decide (dirname o = "")
                || bool_decide (is_Some (fs s !! dirname o))
             then fs s
             else foldr mkdir_missing (fs s)
                    (dirname o :: ancestors (dirname o))) s).
Proof.
  intros quiet Ha. unfold make_output_dir. cbv zeta.
  case_bool_decide as Hd; cbn [orb]; [by rewrite set_fs_same |].
  unfold bind at 1, path_exists at 1. cbv beta iota.
  case_bool_decide as He; cbn [negb]; cbv beta iota;
    [by rewrite set_fs_same |].
  apply makedirs_ok; [done | | done].
  destruct (fs s !! dirname o) eqn:E; [| done].
  exfalso. apply He. eauto.
Qed.

(** X8: With readable inputs, no I/O error and no file standing where the
    directory of the output or a directory above it is needed, the raw
    image tool creates the directory of the output when it is missing,
    with the directories above it that are missing, writes the image and
    exits with status 0.
    The image at the output and these directories are the whole change:
    every other path is as it was, and no child process is started. *)
Theorem image_main_builds h a k b o verbose kd bd s :
  (forall op, io_fault h op = None) ->
  fs s !! k = Some (File kd) ->
  fs s !! b = Some (File bd) ->
  is_dir (fs s) o = false ->
  dirname o <> o ->
  existsb (is_file (fs s)) (dirname o :: ancestors (dirname o)) = false ->
  let made :=
    if bool_decide (dirname o = "")
       || bool_decide (is_Some (fs s !! dirname o))
    then fs s
    else foldr mkdir_missing (fs s) (dirname o :: ancestors (dirname o)) in
  fst (image_main h (ImageArgs a k b o verbose) s) = Raise (SystemExit 0)
  /\ fs (snd (image_main h (ImageArgs a k b o verbose) s))
     = <[o := File (assemble MiB (16 * MiB) bd kd)]> made
  /\ calls (snd (image_main h (ImageArgs a k b o verbose) s)) = calls s.
Proof.
  intros quiet Ek Eb Ho Hne Ha made.
  cbn [existsb] in Ha. apply orb_false_elim in Ha as [Hf Ha].
  pose proof (make_output_dir_creates h o s quiet Ha) as Ed.
  fold made in Ed.
  destruct (image_main_from_builder h a k b o verbose s (set_fs made s))
    as (E1 & F1 & C1); [by rewrite Ek | by rewrite Eb | exact Ed |].
  assert (forall p n, fs s !! p = Some n -> made !! p = Some n) as Hkeep.
  { intros p n Ep. subst made.
    destruct (_ || _); [done |]. by rewrite lookup_mkdirs, Ep. }
  destruct (create_arm64_image_ok h quiet k b o bd kd (set_fs made s))
    as (s' & E & F & C).
  - by apply Hkeep.
  - by apply Hkeep.
  - cbn [fs set_fs]. apply openable_intro.
    + by apply dirname_plain.
    + unfold is_dir in *. subst made.
      destruct (_ || _); [done |]. rewrite lookup_mkdirs.
      destruct (fs s !! o) as [n |] eqn:Eo; [done |].
      rewrite bool_decide_eq_false_2; [done |].
      rewrite elem_of_cons. intros [E' | Hin]; [by apply Hne |].
      apply ancestors_length in Hin.
      pose proof (dirname_length o). lia.
    + intros par Ep. apply parent_dirname in Ep as [-> Hpn].
      clear Ed E1 F1 C1 Hkeep. subst made.
      rewrite (bool_decide_eq_false_2 (dirname o = "")) by done.
      cbn [orb]. case_bool_decide as B2.
      * destruct B2 as [n En]. unfold is_file in Hf. rewrite En in *.
        by destruct n.
      * rewrite lookup_mkdirs.
        destruct (fs s !! dirname o) eqn:En; [exfalso; apply B2; eauto |].
        rewrite bool_decide_eq_true_2; [done | apply list_elem_of_here].
  - rewrite E1, F1, C1, E. cbn [fst snd exit_of]. by rewrite F, C.
Qed.

Lemma image_main_builds_witness :
  fst (image_main bare_host
         (ImageArgs arm64 "kernel.elf" "boot.bin" "build/arm64/minios.img"
            false)
         (inputs [x7f] [xeb])) = Raise (SystemExit 0)
  /\ fs (snd (image_main bare_host
                (ImageArgs arm64 "kernel.elf" "boot.bin"
                   "build/arm64/minios.img" false)
                (inputs [x7f] [xeb]))) !! "build" = Some Dir.
Proof.
  destruct (image_main_builds bare_host arm64 "kernel.elf" "boot.bin"
              "build/arm64/minios.img" false [x7f] [xeb]
              (inputs [x7f] [xeb])) as (H1 & H2 & _).
  - reflexivity.
  - reflexivity.
  - reflexivity.
  - reflexivity.
  - vm_compute. discriminate.
  - reflexivity.
  - split; [exact H1 |]. rewrite H2. reflexivity.
Defined.

(** ** Building again, and outputs that are inputs *)

(** X9: Building twice is building once: with readable inputs, an output that
    is neither of them and can be opened (a file is there, or nothing is there
    and the path names a new file in an existing directory) and no I/O error,
    a second run of the raw image builder, and of the fallback image builder,
    returns [True] again and leaves the files as the first run left them; what
    stood at the output before is discarded. *)
Theorem rebuild_same_image h k b o kd bd s :
  (forall op, io_fault h op = None) ->
  fs s !! k = Some (File kd) ->
  fs s !! b = Some (File bd) ->
  openable (fs s) o = true ->
  o <> k -> o <> b ->
  (fst (create_arm64_image h k b o s) = Ret true
   /\ fst (create_arm64_image h k b o (snd (create_arm64_image h k b o s)))
      = Ret true
   /\ fs (snd (create_arm64_image h k b o
                 (snd (create_arm64_image h k b o s))))
      = fs (snd (create_arm64_image h k b o s)))
  /\ (fst (create_simple_iso h k b o s) = Ret true
      /\ fst (create_simple_iso h k b o (snd (create_simple_iso h k b o s)))
         = Ret true
      /\ fs (snd (create_simple_iso h k b o
                    (snd (create_simple_iso h k b o s))))
         = fs (snd (create_simple_iso h k b o s))).
Proof.
  intros quiet Ek Eb Ho Hok Hob. split.
  - destruct (create_arm64_image_ok h quiet k b o bd kd s Ek Eb Ho)
      as (s1 & E1 & F1 & C1).
    rewrite E1. cbn [fst snd]. split; [done |].
    destruct (create_arm64_image_ok h quiet k b o bd kd s1)
      as (s2 & E2 & F2 & C2).
    + rewrite F1. by rewrite lookup_insert_ne.
    + rewrite F1. by rewrite lookup_insert_ne.
    + rewrite F1. eapply openable_file. apply lookup_insert_eq.
    + rewrite E2. cbn [fst snd]. split; [done |].
      rewrite F2, F1. apply insert_insert_eq.
  - destruct (create_simple_iso_ok h quiet k b o bd kd s Ek Eb Ho Hok Hob)
      as (s1 & E1 & F1 & C1).
    rewrite E1. cbn [fst snd]. split; [done |].
    destruct (create_simple_iso_ok h quiet k b o bd kd s1)
      as (s2 & E2 & F2 & C2); try done.
    + rewrite F1. by rewrite lookup_insert_ne.
    + rewrite F1. by rewrite lookup_insert_ne.
    + rewrite F1. eapply openable_file. apply lookup_insert_eq.
    + rewrite E2. cbn [fst snd]. split; [done |].
      rewrite F2, F1. apply insert_insert_eq.
Qed.

Lemma rebuild_same_image_witness :
  fst (create_simple_iso bare_host "kernel.elf" "boot.bin" "minios.iso"
         (snd (create_simple_iso bare_host "kernel.elf" "boot.bin"
                 "minios.iso" (inputs [x7f] [xeb]))))
  = Ret true.
Proof.
  destruct (rebuild_same_image bare_host "kernel.elf" "boot.bin"
              "minios.iso" [x7f] [xeb] (inputs [x7f] [xeb]))
    as (_ & _ & H & _).
  - reflexivity.
  - reflexivity.
  - reflexivity.
  - reflexivity.
  - discriminate.
  - discriminate.
  - exact H.
Defined.

Section Overwrites.

Context (h : host).
Hypothesis quiet : forall op, io_fault h op = None.

(** X10: The raw image builder reads both inputs before it opens the output;
    the fallback builder opens the output first.  So an output path that
    is the bootloader path gives, with the raw image builder, the image of
    the bootloader and the kernel, and with the fallback builder the image
    of an empty bootloader: the kernel at offset 0 and zeros up to 2 MiB.
    Both return [True], and in both the bootloader file is replaced by the
    image. *)
Theorem output_over_bootloader k b kd bd s :
  fs s !! k = Some (File kd) ->
  fs s !! b = Some (File bd) ->
  k <> b ->
  (fst (create_arm64_image h k b b s) = Ret true
   /\ fs (snd (create_arm64_image h k b b s))
      = <[b := File (assemble MiB (16 * MiB) bd kd)]> (fs s))
  /\ (fst (create_simple_iso h k b b s) = Ret true
      /\ fs (snd (create_simple_iso h k b b s))
         = <[b := File (kd ++ zeros (2 * MiB - blen kd))]> (fs s)).
Proof.
  intros Ek Eb Hkb. split.
  - destruct (create_arm64_image_ok h quiet k b b bd kd s Ek Eb)
      as (s' & E & F & C); [by apply (openable_file _ _ bd) |].
    by rewrite E.
  - cut (exists s', create_simple_iso h k b b s = (Ret true, s')
                    /\ fs s' = <[b := File (kd ++ zeros (2 * MiB - blen kd))]>
                                 (fs s)).
    { intros (s' & E & F). by rewrite E. }
    unfold create_simple_iso. do 2 run_print.
    set (s1 := {| fs := _ |}).
    unfold try_except. unfold bind at 1.
    rewrite (open_wb_ok h quiet b s1)
      by (by apply (openable_file _ _ bd)).
    cbv beta iota. set (s2 := set_fs _ s1).
    assert (fs s2 !! b = Some (File [])) as E2
      by (subst s2; cbn [fs set_fs]; apply lookup_insert_eq).
    assert (fs s2 !! k = Some (File kd)) as E2k.
    { subst s2 s1. cbn [fs set_fs]. by rewrite lookup_insert_ne. }
    destruct (write_simple_iso_ok h quiet b k b [] kd s2 E2 E2 E2k)
      as (s3 & E3 & F3 & C3 & _); [done |].
    run_with E3. unfold ret. eexists. split; [reflexivity |].
    rewrite F3. subst s2 s1. cbn [fs set_fs]. rewrite insert_insert_eq.
    replace (assemble 512 (2 * MiB) [] kd)
      with (kd ++ zeros (2 * MiB - blen kd)); [done |].
    unfold assemble, roundUpToMultiple. change (blen []) with 0.
    change ((0 + 512 - 1) / 512 * 512) with 0.
    change (zeros (0 - 0)) with (@nil byte). cbn [app].
    by rewrite Z.add_0_l.
Qed.

(** X11: The fallback builder opens the output before it reads the
    bootloader: on a host without I/O errors, when nothing is at the
    bootloader path and the output is another path that can be opened (a
    file is there, or nothing is there and the path names a new file in an
    existing directory), it returns [False] and leaves an empty file at
    the output, in place of what stood there; nothing else changes. *)
Theorem fallback_truncates_before_reading k b o s :
  fs s !! b = None ->
  openable (fs s) o = true ->
  o <> b ->
  fst (create_simple_iso h k b o s) = Ret false
  /\ fs (snd (create_simple_iso h k b o s)) = <[o := File []]> (fs s).
Proof.
  intros Eb Ho Hob.
  cut (exists s', create_simple_iso h k b o s = (Ret false, s')
                  /\ fs s' = <[o := File []]> (fs s)).
  { intros (s' & E & F). by rewrite E. }
  unfold create_simple_iso. do 2 run_print.
  set (s1 := {| fs := _ |}).
  unfold try_except. unfold bind at 1.
  rewrite (open_wb_ok h quiet o s1) by done.
  cbv beta iota. set (s2 := set_fs _ s1).
  assert (fs s2 !! b = None) as Eb2.
  { subst s2 s1. cbn [fs set_fs]. by rewrite lookup_insert_ne. }
  assert (exists e, read_beside h o b s2 = (Raise e, s2)
                    /\ is_Exception e = true) as (e & Er & He).
  { unfold read_beside. rewrite bool_decide_eq_false_2 by done.
    unfold read_file. rewrite Eb2.
    destruct (open_error_cases (fs s2) b) as [-> | [-> | [-> | ->]]]; by eauto. }
  unfold bind at 1, write_simple_iso at 1. run_with Er.
  rewrite He. cbv beta iota. run_print. unfold ret.
  eexists. split; reflexivity.
Qed.

End Overwrites.

Lemma output_over_bootloader_witness :
  fs (snd (create_simple_iso bare_host "kernel.elf" "boot.bin" "boot.bin"
             (inputs [x7f] [xeb]))) !! "boot.bin"
  = Some (File ([x7f] ++ zeros (2 * MiB - 1))).
Proof.
  destruct (output_over_bootloader bare_host (fun _ => eq_refl)
              "kernel.elf" "boot.bin" [x7f] [xeb] (inputs [x7f] [xeb]))
    as (_ & _ & H).
  - reflexivity.
  - reflexivity.
  - discriminate.
  - rewrite H. apply lookup_insert_eq.
Defined.

Lemma fallback_truncates_before_reading_witness :
  fst (create_simple_iso bare_host "kernel.elf" "missing.bin" "boot.bin"
         (inputs [x7f] [xeb])) = Ret false
  /\ fs (snd (create_simple_iso bare_host "kernel.elf" "missing.bin"
                "boot.bin" (inputs [x7f] [xeb]))) !! "boot.bin"
     = Some (File []).
Proof.
  destruct (fallback_truncates_before_reading bare_host (fun _ => eq_refl)
              "kernel.elf" "missing.bin" "boot.bin" (inputs [x7f] [xeb]))
    as (H1 & H2).
  - reflexivity.
  - reflexivity.
  - discriminate.
  - split; [exact H1 |]. rewrite H2. apply lookup_insert_eq.
Defined.

(** ** The command line tool for ISO images, on every host *)

Lemma build_iso_verbose h k b o v :
  build_iso h (IsoArgs k b o v) = build_iso h (IsoArgs k b o false).
Proof. reflexivity. Qed.

(** X12: When both inputs exist and the output directory needs no creation, the
    ISO tool ends as its build inside the temporary directory does: status
    0 when the build returns [True] (whether or not a file exists at the
    output), status 1 when it returns [False]; an exception of the build
    leaves [main] as it is, and a child process that never returns blocks
    [main].  The files and the child processes are the build's. *)
Theorem iso_main_exit_status h k b o verbose s :
  is_Some (fs s !! k) ->
  is_Some (fs s !! b) ->
  dirname o = "" \/ is_Some (fs s !! dirname o) ->
  let build := with_TemporaryDirectory h (build_iso h (IsoArgs k b o verbose)) in
  fst (iso_main h (IsoArgs k b o verbose) s) = exit_of (fst (build s))
  /\ fs (snd (iso_main h (IsoArgs k b o verbose) s)) = fs (snd (build s))
  /\ calls (snd (iso_main h (IsoArgs k b o verbose) s))
     = calls (snd (build s)).
Proof.
  intros Hk Hb Hd build. subst build. rewrite build_iso_verbose.
  apply iso_main_from_build; [done | done |].
  by apply make_output_dir_ok.
Qed.

Lemma iso_main_exit_status_witness :
  fst (iso_main tools_host
         (IsoArgs "kernel.elf" "boot.bin" "minios.iso" true)
         (inputs [x7f] [xeb]))
  = Raise (SystemExit 0).
Proof.
  destruct (iso_main_exit_status tools_host "kernel.elf" "boot.bin"
              "minios.iso" true (inputs [x7f] [xeb])) as (H & _).
  - vm_compute. eauto.
  - vm_compute. eauto.
  - left. reflexivity.
  - rewrite H. vm_compute. reflexivity.
Defined.



Ltac split_run_eq h :=
  repeat (cbv beta iota zeta; cbn [returncode stderr negb andb];
          match goal with
          | |- context [match proc h ?a ?f with _ => _ end] =>
              let rc := fresh "rc" in
              let err := fresh "err" in
              let f' := fresh "f" in
              let msg := fresh "msg" in
              let E := fresh "Ep" in
              destruct (proc h a f) as [rc err f' | rc msg f' | msg |] eqn:E
          | |- context [?x =? 0] =>
              let E := fresh "E" in
              destruct (Z.eqb_spec x 0) as [E | E]; [subst x |]
          end).

(** X14: The GRUB method probes grub-mkrescue with [which] and invokes
    [grub-mkrescue -o <output> <staging dir>] exactly when the probe
    returned status 0; it returns [True] exactly when that invocation is
    its last child process and exits with status 0.  No exception leaves
    the method: a call that raises (the child cannot be started, or its
    output is not valid text) is its last call and the method returns
    [False]; a call that never returns is its last call and keeps the
    method from returning, which happens only on a host with a child that
    hangs.  In every other run it returns [True] or [False]. *)
Theorem grub_rescue h t o s :
  let which := ["which"; "grub-mkrescue"] in
  let cmd := ["grub-mkrescue"; "-o"; o; t] in
  exists res s' new,
    create_iso_with_grub h t o s = (res, s')
    /\ calls s' = calls s ++ new
    /\ map rc_args new ∈ [ [which]; [which; cmd] ]
    /\ (forall c, c ∈ new -> rc_args c = cmd ->
        probe "grub-mkrescue" 0 ∈ new)
    /\ (probe "grub-mkrescue" 0 ∈ new -> cmd ∈ map rc_args new)
    /\ (forall c, c ∈ new -> rc_status c = None ->
        last new = Some c
        /\ res = if rc_blocked c then Blocked else Ret false)
    /\ (res = Ret true <-> last new = Some (invoked cmd (Some 0)))
    /\ (res = Blocked <->
        exists c, last new = Some c /\ rc_blocked c = true)
    /\ (res = Ret true \/ res = Ret false
        \/ (res = Blocked /\ exists args f, proc h args f = Hangs)).
Proof.
  intros which cmd.
  unfold create_iso_with_grub, try_except.
  unfold bind, subprocess_run, print, ret.
  split_run_eq h;
    (eexists _, _, _; split; [reflexivity |];
     split; [cbn [calls]; rewrite <- ?app_assoc; reflexivity |];
     split; [in_list |];
     split; [intros c Hin Hc; in_cases Hin; subst c;
             cbn [rc_args] in Hc; unfold cmd in Hc;
             try discriminate Hc; in_list |];
     split; [intros Hin; in_cases Hin; unfold probe in Hin;
             simplify_eq; try done; in_list |];
     split; [intros c Hin Hc; in_cases Hin; subst c;
             cbn [rc_status] in Hc; try discriminate Hc;
             cbn [last rc_blocked]; split; reflexivity |];
     split; [cbn [last]; split;
             [ try discriminate; intros _; reflexivity
             | intros Hn; try discriminate Hn;
               try reflexivity;
               injection Hn; intros; congruence ] |];
     split; [cbn [last app]; split;
             [ try discriminate; intros _; eexists; split; reflexivity
             | intros (c & Hc & Hb); simplify_eq; try reflexivity;
               cbn [rc_blocked] in Hb; discriminate Hb ] |];
     eauto 6).
Qed.

(** ** The temporary directory after a build *)

Section Staged_in_tmp.

Context (h : host).
Hypothesis quiet : forall op, io_fault h op = None.

(** The directory [boot] of a usable temporary directory. *)
Lemma boot_in_tmp s :
  usable_tmp h (fs s) ->
  let tmp := mkdtemp_name h in
  let s0 := set_fs (<[tmp := Dir]> (fs s)) s in
  path_join tmp "boot" = tmp +:+ "/boot"
  /\ (forall r, in_tree tmp ((tmp +:+ "/boot") +:+ r) = true)
  /\ exists s1,
       makedirs h (tmp +:+ "/boot") s0 = (Ret tt, s1)
       /\ calls s1 = calls s
       /\ fs s1 !! (tmp +:+ "/boot") = Some Dir
       /\ (forall p, in_tree tmp p = true -> p <> tmp ->
           p <> tmp +:+ "/boot" -> fs s1 !! p = None)
       /\ (forall p, in_tree tmp p = false -> fs s1 !! p = fs s !! p).
Proof.
  intros (Hne & Hs & Hfresh & Hanc) tmp s0.
  fold tmp in Hne, Hs, Hfresh, Hanc.
  assert (path_join tmp "boot" = tmp +:+ "/boot") as Hboot
    by (by apply path_join_below).
  assert (forall r, tmp +:+ "/" +:+ r <> tmp) as Hself.
  { intros r E. rewrite <- (append_nil_r tmp) in E at 2.
    by apply append_inv_head in E. }
  assert (forall r, in_tree tmp ((tmp +:+ "/boot") +:+ r) = true) as Hbelow.
  { intros r. rewrite append_assoc. apply in_tree_below. }
  assert (fs s !! tmp = None) as Etmp by apply Hfresh, in_tree_self.
  assert (ancestors (tmp +:+ "/boot") = ancestors tmp ++ [tmp]) as Ha.
  { unfold ancestors.
    rewrite ancestors_from_append, append_nil_l. f_equal.
    simpl. rewrite Hs. by rewrite bool_decide_eq_false_2. }
  assert (fs s0 !! (tmp +:+ "/boot") = None) as Eboot.
  { subst s0. cbn [fs set_fs].
    rewrite lookup_insert_ne
      by (intros E; symmetry in E; revert E; apply (Hself "boot")).
    apply Hfresh. rewrite <- (append_nil_r (tmp +:+ "/boot")). apply Hbelow. }
  split; [exact Hboot |]. split; [exact Hbelow |].
  eexists. split; [| split; [| split; [| split]]].
  - apply (makedirs_ok h quiet).
    + subst s0. cbn [fs set_fs].
      rewrite lookup_insert_ne by (intros E; symmetry in E; revert E; apply (Hself "boot")).
      apply Hfresh. rewrite <- (append_nil_r (tmp +:+ "/boot")). apply Hbelow.
    + rewrite Ha. apply not_true_iff_false. intros Hex.
      apply existsb_exists in Hex as (a & Hin & Hf).
      apply list_elem_of_In, elem_of_app in Hin as [Hin | Hin].
      * unfold is_file in Hf. subst s0. cbn [fs set_fs] in Hf.
        pose proof (ancestors_length _ _ Hin) as Hlen.
        rewrite lookup_insert_ne in Hf by (intros <-; lia).
        by rewrite (Hanc a Hin) in Hf.
      * apply list_elem_of_singleton in Hin as ->.
        unfold is_file in Hf. subst s0. cbn [fs set_fs] in Hf.
        by rewrite lookup_insert_eq in Hf.
  - reflexivity.
  - cbn [fs set_fs]. rewrite lookup_mkdirs, Eboot.
    rewrite bool_decide_eq_true_2; [done | apply list_elem_of_here].
  - intros p Hp Hpt Hpb. cbn [fs set_fs]. rewrite lookup_mkdirs.
    subst s0. cbn [fs set_fs]. rewrite lookup_insert_ne by done.
    rewrite (Hfresh p Hp). rewrite bool_decide_eq_false_2; [done |].
    rewrite Ha, elem_of_cons, elem_of_app, list_elem_of_singleton.
    intros [E' | [Hin | E']]; [done | | done].
    pose proof (Hfresh p Hp) as E0. rewrite (Hanc p Hin) in E0. done.
  - intros p Hp. cbn [fs set_fs]. rewrite lookup_mkdirs.
    assert (p <> tmp) as Hpt.
    { intros ->. by rewrite in_tree_self in Hp. }
    subst s0. cbn [fs set_fs]. rewrite lookup_insert_ne by done.
    destruct (fs s !! p) as [n |] eqn:Ep; [done |].
    rewrite bool_decide_eq_false_2; [done |].
    rewrite Ha, elem_of_cons, elem_of_app, list_elem_of_singleton.
    intros [E' | [Hin | E']]; [| | done].
    + subst p. rewrite <- (append_nil_r (tmp +:+ "/boot")) in Hp.
      by rewrite Hbelow in Hp.
    + rewrite (Hanc p Hin) in Ep. done.
Qed.

End Staged_in_tmp.

Lemma inputs_usable_tmp h kernel bootloader :
  mkdtemp_name h = "/tmp/tmpminios" ->
  usable_tmp h (fs (inputs kernel bootloader)).
Proof.
  intros E. unfold usable_tmp. rewrite E.
  apply (bare_host_usable_tmp kernel bootloader).
Qed.

Section IsoBuilds.

Context (h : host).
Hypothesis quiet : forall op, io_fault h op = None.

Lemma copy2_directory src dst s :
  fs s !! src = Some Dir ->
  is_dir (fs s) dst = false ->
  src <> dst ->
  copy2 h src dst s = (Raise (IsADirectoryError src), s).
Proof.
  intros Es Hd Hne. unfold copy2.
  unfold bind at 1, path_isdir at 1. cbv beta iota. rewrite Hd.
  rewrite bool_decide_eq_false_2 by done.
  unfold bind at 1, read_file at 1. by rewrite Es.
Qed.

(** A build whose input is a directory: the copy raises, and the
    temporary directory is removed on the way out. *)
Lemma build_directory_input k b o s culprit :
  (fs s !! k = Some Dir /\ is_Some (fs s !! b) /\ culprit = k)
  \/ ((exists kd, fs s !! k = Some (File kd))
      /\ fs s !! b = Some Dir /\ culprit = b) ->
  usable_tmp h (fs s) ->
  exists s',
    with_TemporaryDirectory h (build_iso h (IsoArgs k b o false)) s
    = (Raise (IsADirectoryError culprit), s')
    /\ fs s' = fs s /\ calls s' = calls s.
Proof.
  intros Hdir Htmp.
  destruct (boot_in_tmp h quiet s Htmp)
    as (Hboot & Hbelow & s1 & Em & Cm & Edir & Hin1 & Hout1).
  cbv zeta in Hboot, Hbelow, Em, Edir, Hin1, Hout1.
  destruct Htmp as (Hne & Hs & Hfresh & Hanc).
  set (tmp := mkdtemp_name h) in *.
  destruct (boot_shape tmp) as (Hbne & Hbs & Hkdst & Hbdst & _).
  cbv zeta in Hbne, Hbs, Hkdst, Hbdst. rewrite Hboot in Hbne, Hbs, Hkdst, Hbdst.
  set (boot := tmp +:+ "/boot") in *.
  assert (forall r, r <> "" -> fs s1 !! (boot +:+ r) = None) as Hnew.
  { intros r Hr. apply Hin1; [apply Hbelow | |].
    - intros E. apply (f_equal String.length) in E.
      subst boot. rewrite !length_append in E. simpl in E. lia.
    - rewrite <- (append_nil_r boot) at 2. intros E.
      by apply append_inv_head in E. }
  assert (forall p r, is_Some (fs s !! p) -> p <> boot +:+ r) as Hold.
  { intros p r Hp ->. rewrite (Hfresh _ (Hbelow r)) in Hp.
    by destruct Hp. }
  assert (forall p, is_Some (fs s !! p) -> fs s1 !! p = fs s !! p) as Hsame.
  { intros p Hp. apply Hout1. destruct (in_tree tmp p) eqn:Hin; [| done].
    rewrite (Hfresh p Hin) in Hp. by destruct Hp. }
  cut (exists s2,
         build_iso h (IsoArgs k b o false) tmp
           (set_fs (<[tmp := Dir]> (fs s)) s)
         = (Raise (IsADirectoryError culprit), s2)
         /\ calls s2 = calls s
         /\ (forall p, in_tree tmp p = false -> fs s2 !! p = fs s !! p)).
  { intros (s2 & E2 & C2 & Hout2).
    unfold with_TemporaryDirectory. fold tmp.
    rewrite (Hfresh tmp (in_tree_self tmp)), E2.
    eexists. split; [reflexivity |].
    cbn [fs calls set_fs]. split; [| done].
    by apply rmtree_restores. }
  unfold build_iso, create_iso_structure.
  cbn [iso_kernel iso_bootloader]. cbv zeta.
  rewrite Hboot, Hkdst, Hbdst. fold boot.
  unfold bind at 1. run_with Em.
  destruct Hdir as [(Ek & _ & ->) | ([kd Ek] & Eb & ->)].
  - unfold bind at 1.
    rewrite (copy2_directory k (boot +:+ "/kernel.elf") s1).
    + cbv beta iota. by exists s1.
    + by rewrite Hsame, Ek.
    + unfold is_dir. by rewrite Hnew.
    + by apply Hold.
  - unfold bind at 1.
    rewrite (copy2_ok h quiet k (boot +:+ "/kernel.elf") kd s1).
    + cbv beta iota. set (s2 := set_fs _ s1).
      unfold bind at 1.
      rewrite (copy2_directory b (boot +:+ "/bootloader.bin") s2).
      * cbv beta iota. exists s2. split; [done |]. split; [done |].
        intros p Hp. subst s2. cbn [fs set_fs].
        rewrite lookup_insert_ne; [by apply Hout1 |].
        intros <-. by rewrite Hbelow in Hp.
      * subst s2. cbn [fs set_fs].
        rewrite lookup_insert_ne by (symmetry; by apply Hold).
        by rewrite Hsame, Eb.
      * unfold is_dir. subst s2. cbn [fs set_fs].
        rewrite lookup_insert_ne
          by (intros E; by apply append_inv_head in E).
        by rewrite Hnew.
      * by apply Hold.
    + apply (openable_new _ _ boot); [by apply Hnew | | done].
      by apply parent_child.
    + by apply Hold.
    + by rewrite Hsame, Ek.
Qed.

(** X15: On a host without I/O errors, an input path that is a directory
    stops the staging: the copy raises [IsADirectoryError], nothing
    catches it, the temporary directory is removed on the way out and the
    exception leaves [main].  By then [main] has created the directory of
    the output when it was missing: the files after the run are those
    after that step, which changes nothing that exists, and no child
    process was started.  The place of the temporary directory is free
    and its parent directories exist. *)
Theorem staging_error_escapes k b o verbose s s1 culprit :
  (fs s !! k = Some Dir /\ is_Some (fs s !! b) /\ culprit = k)
  \/ ((exists kd, fs s !! k = Some (File kd))
      /\ fs s !! b = Some Dir /\ culprit = b) ->
  make_output_dir h o s = (Ret tt, s1) ->
  usable_tmp h (fs s1) ->
  fst (iso_main h (IsoArgs k b o verbose) s)
  = Raise (IsADirectoryError culprit)
  /\ fs (snd (iso_main h (IsoArgs k b o verbose) s)) = fs s1
  /\ (forall p n, fs s !! p = Some n -> fs s1 !! p = Some n)
  /\ calls (snd (iso_main h (IsoArgs k b o verbose) s)) = calls s.
Proof.
  intros Hdir Hmk Htmp.
  pose proof (keeps_entries_make_output_dir h o s) as [Hkeep Hc].
  rewrite Hmk in Hkeep, Hc. cbn [snd] in Hkeep, Hc.
  assert (is_Some (fs s !! k) /\ is_Some (fs s !! b)) as [Hk Hb].
  { destruct Hdir as [(Ek & Hb & _) | ([kd Ek] & Eb & _)].
    - by rewrite Ek.
    - by rewrite Ek, Eb. }
  destruct (iso_main_from_build h k b o verbose s s1 Hk Hb Hmk)
    as (E1 & F1 & C1).
  cbv zeta in E1, F1, C1. rewrite E1, F1, C1. clear E1 F1 C1.
  destruct (build_directory_input k b o s1 culprit) as (s' & E & F & C).
  - destruct Hdir as [(Ek & [n Eb] & ->) | ([kd Ek] & Eb & ->)].
    + left. rewrite (Hkeep _ _ Ek), (Hkeep _ _ Eb). eauto.
    + right. rewrite (Hkeep _ _ Ek), (Hkeep _ _ Eb). eauto.
  - done.
  - rewrite E. cbn [fst snd exit_of].
    repeat split; [done | exact Hkeep | congruence].
Qed.

Lemma grub_succeeds t o s err1 err2 f2 :
  proc h ["which"; "grub-mkrescue"] (fs s) = Completed 0 err1 (fs s) ->
  proc h ["grub-mkrescue"; "-o"; o; t] (fs s) = Completed 0 err2 f2 ->
  exists s',
    create_iso_with_grub h t o s = (Ret true, s')
    /\ fs s' = f2
    /\ calls s' = calls s ++ [probe "grub-mkrescue" 0;
                              invoked ["grub-mkrescue"; "-o"; o; t]
                                (Some 0)].
Proof.
  intros E1 E2. unfold create_iso_with_grub, try_except.
  unfold bind, subprocess_run, print, ret. rewrite E1.
  cbn [returncode negb Z.eqb fs]. rewrite E2. cbn [returncode Z.eqb].
  eexists. split; [reflexivity |]. split; [reflexivity |].
  cbn [calls]. by rewrite <- app_assoc.
Qed.

(** X16: On a host without I/O errors where [which grub-mkrescue] returns
    status 0 with output that is valid text and changes no file, and
    grub-mkrescue returns status 0 with output that is valid text, the
    build ends with the first strategy: the only child processes are the
    probe and the invocation of grub-mkrescue, neither mkisofs nor
    genisoimage is probed, the fallback writes nothing, and [main] exits
    with status 0 whether or not the tool left a file at the output.  The
    files after the run are those grub-mkrescue left, without the staging
    tree.  Both inputs are files, [main] has created the directory of the
    output when it was missing, and after that step the place of the
    temporary directory is free and its parent directories exist. *)
Theorem grub_success_ends_build k b o verbose kd bd s s1 :
  fs s !! k = Some (File kd) ->
  fs s !! b = Some (File bd) ->
  make_output_dir h o s = (Ret tt, s1) ->
  usable_tmp h (fs s1) ->
  (forall f, exists err,
     proc h ["which"; "grub-mkrescue"] f = Completed 0 err f) ->
  (forall f, exists err f',
     proc h ["grub-mkrescue"; "-o"; o; mkdtemp_name h] f
     = Completed 0 err f') ->
  let tmp := mkdtemp_name h in
  let cmd := ["grub-mkrescue"; "-o"; o; tmp] in
  fst (iso_main h (IsoArgs k b o verbose) s) = Raise (SystemExit 0)
  /\ calls (snd (iso_main h (IsoArgs k b o verbose) s))
     = calls s ++ [probe "grub-mkrescue" 0; invoked cmd (Some 0)]
  /\ exists s2 err f',
       create_iso_structure h k b tmp (set_fs (<[tmp := Dir]> (fs s1)) s1)
       = (Ret true, s2)
       /\ proc h cmd (fs s2) = Completed 0 err f'
       /\ fs (snd (iso_main h (IsoArgs k b o verbose) s)) = rmtree tmp f'.
Proof.
  intros Ek Eb Hmk Htmp Hwhich Hgrub tmp cmd.
  pose proof (keeps_entries_make_output_dir h o s) as [Hkeep Hc].
  rewrite Hmk in Hkeep, Hc. cbn [snd] in Hkeep, Hc.
  destruct (iso_main_from_build h k b o verbose s s1) as (E1 & F1 & C1);
    [by rewrite Ek | by rewrite Eb | done |].
  cbv zeta in E1, F1, C1. rewrite E1, F1, C1. clear E1 F1 C1.
  destruct (stage_in_tmp h quiet k b kd bd s1
              (Hkeep _ _ Ek) (Hkeep _ _ Eb) Htmp)
    as (s2 & Es & Cs & _ & _).
  cbv zeta in Es. fold tmp in Es.
  destruct (Hwhich (fs s2)) as [err1 Ew].
  destruct (Hgrub (fs s2)) as (err2 & f2 & Eg). fold tmp in Eg.
  destruct (grub_succeeds tmp o s2 err1 err2 f2 Ew Eg)
    as (s3 & E3 & F3 & C3).
  assert (build_iso h (IsoArgs k b o false) tmp
            (set_fs (<[tmp := Dir]> (fs s1)) s1) = (Ret true, s3)) as Eb2.
  { unfold build_iso. cbn [iso_kernel iso_bootloader]. run_with Es.
    unfold try_methods. cbn [iso_output]. by run_with E3. }
  destruct Htmp as (_ & _ & Hfresh & _).
  rewrite (with_TemporaryDirectory_Ret h _ s1 true s3
             (Hfresh _ (in_tree_self _)) Eb2).
  cbn [fst snd exit_of fs calls set_fs]. split; [done |].
  split; [by rewrite C3, Cs, Hc |].
  exists s2, err2, f2. by rewrite F3.
Qed.

(** X17: On a host without I/O errors and without packaging tools (each
    [which] returns a status other than 0 and changes no file), with inputs
    that are files, the ISO tool exits with status 0 and the fallback image at
    the output is the whole change of the build: the files after the run are
    those after [main] created the directory of the output when it was missing
    (a step that changes nothing that exists), with the image at the output;
    the staging tree is gone. After that step the output can be opened (a file
    is there, or nothing is there and the path names a new file in an existing
    directory), is neither input and is not in the temporary directory, whose
    place is free and whose parent directories exist. *)
Theorem no_tools_whole_effect k b o verbose kd bd s s1 :
  not_installed h "grub-mkrescue" ->
  not_installed h "mkisofs" ->
  not_installed h "genisoimage" ->
  fs s !! k = Some (File kd) ->
  fs s !! b = Some (File bd) ->
  make_output_dir h o s = (Ret tt, s1) ->
  usable_tmp h (fs s1) ->
  openable (fs s1) o = true ->
  in_tree (mkdtemp_name h) o = false ->
  o <> k -> o <> b ->
  fst (iso_main h (IsoArgs k b o verbose) s) = Raise (SystemExit 0)
  /\ fs (snd (iso_main h (IsoArgs k b o verbose) s))
     = <[o := File (assemble 512 (2 * MiB) bd kd)]> (fs s1)
  /\ (forall p n, fs s !! p = Some n -> fs s1 !! p = Some n).
Proof.
  intros Hgrub Hm Hg Ek Eb Hmk Htmp Ho Hout Hok Hob.
  destruct (iso_main_no_tools_made h k b o verbose kd bd s s1 quiet
              Hgrub Hm Hg Ek Eb Hmk Htmp Ho Hout Hok Hob)
    as (rc1 & rc2 & rc3 & _ & _ & _ & E & _ & F & Hkeep).
  by repeat split.
Qed.

End IsoBuilds.

Lemma out_dir_usable_tmp kernel bootloader :
  usable_tmp bare_host
    (fs (snd (make_output_dir bare_host "out/minios.iso"
                (inputs kernel bootloader)))).
Proof.
  split; [discriminate |]. split; [reflexivity |]. split.
  - intros p Hp. apply in_tree_inv in Hp as [r ->]. reflexivity.
  - intros a Ha. apply list_elem_of_singleton in Ha as ->. reflexivity.
Qed.

Lemma staging_error_escapes_witness :
  fst (iso_main bare_host
         (IsoArgs "kernel.elf" "/tmp" "out/minios.iso" false)
         (inputs [x7f] [xeb]))
  = Raise (IsADirectoryError "/tmp")
  /\ fs (snd (iso_main bare_host
                (IsoArgs "kernel.elf" "/tmp" "out/minios.iso" false)
                (inputs [x7f] [xeb]))) !! "out" = Some Dir.
Proof.
  destruct (staging_error_escapes bare_host (fun _ => eq_refl)
              "kernel.elf" "/tmp" "out/minios.iso" false (inputs [x7f] [xeb])
              (snd (make_output_dir bare_host "out/minios.iso"
                      (inputs [x7f] [xeb]))) "/tmp") as (H1 & H2 & _).
  - right. split; [by exists [x7f] |]. split; reflexivity.
  - reflexivity.
  - apply (out_dir_usable_tmp [x7f] [xeb]).
  - split; [exact H1 |]. rewrite H2. reflexivity.
Defined.

Lemma grub_success_ends_build_witness :
  fst (iso_main tools_host
         (IsoArgs "kernel.elf" "boot.bin" "out/minios.iso" false)
         (inputs [x7f] [xeb]))
  = Raise (SystemExit 0)
  /\ calls (snd (iso_main tools_host
                   (IsoArgs "kernel.elf" "boot.bin" "out/minios.iso" false)
                   (inputs [x7f] [xeb])))
     = [probe "grub-mkrescue" 0;
        invoked ["grub-mkrescue"; "-o"; "out/minios.iso"; "/tmp/tmpminios"]
          (Some 0)].
Proof.
  destruct (grub_success_ends_build tools_host (fun _ => eq_refl)
              "kernel.elf" "boot.bin" "out/minios.iso" false [x7f] [xeb]
              (inputs [x7f] [xeb])
              (snd (make_output_dir tools_host "out/minios.iso"
                      (inputs [x7f] [xeb])))) as (H1 & H2 & _).
  - reflexivity.
  - reflexivity.
  - reflexivity.
  - apply (out_dir_usable_tmp [x7f] [xeb]).
  - intros f. exists "". reflexivity.
  - intros f. exists "", (<["out/minios.iso" := File [x43; x44]]> f).
    reflexivity.
  - split; [exact H1 | exact H2].
Defined.

Lemma no_tools_whole_effect_witness :
  fs (snd (iso_main bare_host
             (IsoArgs "kernel.elf" "boot.bin" "out/minios.iso" false)
             (inputs [x7f] [xeb]))) !! "out/minios.iso"
  = Some (File (assemble 512 (2 * MiB) [xeb] [x7f]))
  /\ fs (snd (iso_main bare_host
                (IsoArgs "kernel.elf" "boot.bin" "out/minios.iso" false)
                (inputs [x7f] [xeb]))) !! "out"
     = Some Dir.
Proof.
  destruct (no_tools_whole_effect bare_host (fun _ => eq_refl)
              "kernel.elf" "boot.bin" "out/minios.iso" false [x7f] [xeb]
              (inputs [x7f] [xeb])
              (snd (make_output_dir bare_host "out/minios.iso"
                      (inputs [x7f] [xeb])))) as (_ & H & _).
  - apply bare_host_not_installed.
  - apply bare_host_not_installed.
  - apply bare_host_not_installed.
  - reflexivity.
  - reflexivity.
  - reflexivity.
  - apply (out_dir_usable_tmp [x7f] [xeb]).
  - reflexivity.
  - reflexivity.
  - discriminate.
  - discriminate.
  - rewrite H. split; [apply lookup_insert_eq |].
    rewrite lookup_insert_ne by discriminate. reflexivity.
Defined.

(** ** Failures that leave something behind, and failures before the build *)

Section Partial.

Context (h : host).
Hypothesis quiet : forall op, io_fault h op = None.

Lemma write_simple_iso_no_kernel f k b bl s :
  fs s !! f = Some (File []) ->
  fs s !! b = Some (File bl) ->
  fs s !! k = None ->
  exists e s',
    write_simple_iso h f k b s = (Raise e, s')
    /\ is_Exception e = true
    /\ fs s' = <[f := File (bl ++ zeros (roundUpToMultiple (blen bl) 512
                                         - blen bl))]> (fs s).
Proof.
  intros E0 Eb Ek. unfold write_simple_iso.
  assert (f <> k) as Hfk by (intros ->; congruence).
  assert (b = f -> bl = []) as Hb by (intros ->; congruence).
  run_with (read_beside_ok h f b bl s Eb Hb).
  run_with (f_write_ok h quiet f [] bl s E0).
  set (s1 := set_fs _ s).
  assert (fs s1 !! f = Some (File bl)) as E1 by apply lookup_insert_eq.
  run_with (f_tell_ok f _ s1 E1).
  cbv zeta.
  run_with (f_write_if_ok h quiet f bl
              (negb (512 - blen bl mod 512 =? 512))
              (zeros (512 - blen bl mod 512)) s1 E1).
  set (pad := if negb _ then _ else _).
  set (s2 := set_fs _ s1).
  assert (fs s2 !! k = None) as Ek2.
  { subst s2 s1. cbn [fs set_fs]. by rewrite !lookup_insert_ne. }
  assert (exists e, read_beside h f k s2 = (Raise e, s2)
                    /\ is_Exception e = true) as (e & Er & He).
  { unfold read_beside. rewrite bool_decide_eq_false_2 by done.
    unfold read_file. rewrite Ek2.
    destruct (open_error_cases (fs s2) k) as [-> | [-> | [-> | ->]]]; by eauto. }
  run_with Er.
  assert (0 < 512) as HM by done.
  pose proof (roundUp_pad (blen bl) 512 HM) as Hko.
  pose proof (Z.mod_pos_bound (blen bl) 512 HM) as Hmod.
  assert (pad = zeros (roundUpToMultiple (blen bl) 512 - blen bl)) as Hpad.
  { subst pad. rewrite Hko.
    destruct (Z.ltb_spec (512 - blen bl mod 512) 512);
      destruct (Z.eqb_spec (512 - blen bl mod 512) 512); try lia.
    - cbn [negb]. f_equal. lia.
    - cbn [negb]. rewrite zeros_nil; [done | lia]. }
  eexists _, _. split; [reflexivity |]. split; [exact He |].
  subst s2 s1. cbn [fs set_fs]. rewrite !insert_insert_eq.
  by rewrite Hpad.
Qed.

(** X18: The fallback builder writes as it goes: on a host without I/O errors,
    when nothing is at the kernel path, the bootloader is a file and the
    output can be opened (a file is there, or nothing is there and the path
    names a new file in an existing directory) and is neither input, it
    returns [False] after the bootloader was written, and leaves at the output
    the bootloader followed by zeros up to the next multiple of 512 bytes, in
    place of what stood there; nothing else changes. *)
Theorem fallback_partial_image k b o bd s :
  fs s !! k = None ->
  fs s !! b = Some (File bd) ->
  openable (fs s) o = true ->
  o <> k -> o <> b ->
  fst (create_simple_iso h k b o s) = Ret false
  /\ fs (snd (create_simple_iso h k b o s))
     = <[o := File (bd ++ zeros (roundUpToMultiple (blen bd) 512
                                 - blen bd))]> (fs s).
Proof.
  intros Ek Eb Ho Hok Hob.
  cut (exists s', create_simple_iso h k b o s = (Ret false, s')
                  /\ fs s' = <[o := File (bd ++ zeros (roundUpToMultiple
                                                         (blen bd) 512
                                                       - blen bd))]> (fs s)).
  { intros (s' & E & F). by rewrite E. }
  unfold create_simple_iso. do 2 run_print.
  set (s1 := {| fs := _ |}).
  unfold try_except. unfold bind at 1.
  rewrite (open_wb_ok h quiet o s1) by done.
  cbv beta iota. set (s2 := set_fs _ s1).
  destruct (write_simple_iso_no_kernel o k b bd s2) as (e & s3 & E3 & He & F3).
  - subst s2. cbn [fs set_fs]. apply lookup_insert_eq.
  - subst s2 s1. cbn [fs set_fs]. by rewrite lookup_insert_ne.
  - subst s2 s1. cbn [fs set_fs]. by rewrite lookup_insert_ne.
  - run_with E3. rewrite He. cbv beta iota. run_print. unfold ret.
    eexists. split; [reflexivity |]. cbn [fs]. rewrite F3.
    subst s2 s1. cbn [fs set_fs]. apply insert_insert_eq.
Qed.

End Partial.

Lemma fallback_partial_image_witness :
  fst (create_simple_iso bare_host "missing.elf" "boot.bin" "minios.iso"
         (inputs [x7f] [xeb])) = Ret false
  /\ fs (snd (create_simple_iso bare_host "missing.elf" "boot.bin"
                "minios.iso" (inputs [x7f] [xeb]))) !! "minios.iso"
     = Some (File ([xeb] ++ zeros 511)).
Proof.
  destruct (fallback_partial_image bare_host (fun _ => eq_refl)
              "missing.elf" "boot.bin" "minios.iso" [xeb]
              (inputs [x7f] [xeb])) as (H1 & H2).
  - reflexivity.
  - reflexivity.
  - reflexivity.
  - discriminate.
  - discriminate.
  - split; [exact H1 |]. rewrite H2. apply lookup_insert_eq.
Defined.

Lemma only_new_dirs_refl l s : only_new_dirs l s s.
Proof. intros p. by left. Qed.

Lemma only_new_dirs_trans l s1 s2 s3 :
  only_new_dirs l s1 s2 -> only_new_dirs l s2 s3 -> only_new_dirs l s1 s3.
Proof.
  intros H1 H2 p.
  destruct (H1 p) as [E1 | (Hl & N1 & D1)], (H2 p) as [E2 | (Hl2 & N2 & D2)].
  - left. congruence.
  - right. by rewrite <- E1.
  - right. by rewrite E2.
  - congruence.
Qed.

Lemma only_new_dirs_mkdir h l name :
  name ∈ l -> steps (only_new_dirs l) (mkdir h name).
Proof.
  intros Hl s. unfold mkdir.
  destruct (fs s !! name) eqn:E; [apply only_new_dirs_refl |].
  destruct (parent_error (fs s) name); [apply only_new_dirs_refl |].
  destruct (io_fault h (OpMkdir name)); [apply only_new_dirs_refl |].
  intros p. cbn [snd fs set_fs]. destruct (decide (p = name)) as [-> | Hne].
  - right. by rewrite lookup_insert_eq.
  - left. by rewrite lookup_insert_ne.
Qed.

Lemma only_new_dirs_makedirs_levels h l levels :
  (forall x, x ∈ levels -> x ∈ l) ->
  steps (only_new_dirs l) (makedirs_levels h levels).
Proof.
  induction levels as [| level rest IH]; intros Hl; cbn [makedirs_levels].
  - apply (steps_ret _ (only_new_dirs_refl l)).
  - apply (steps_bind _ (only_new_dirs_trans l));
      [intros s; apply only_new_dirs_refl | intros found].
    apply (steps_bind _ (only_new_dirs_trans l)).
    + apply steps_if; [| apply (steps_ret _ (only_new_dirs_refl l))].
      apply only_new_dirs_mkdir, Hl, list_elem_of_here.
    + intros _. apply IH. intros x Hx. by apply Hl, list_elem_of_further.
Qed.

(** When [os.makedirs] raises, the directory itself was not created: the
    files are those its levels above left. *)
Lemma makedirs_raises h name s e :
  fst (makedirs h name s) = Raise e ->
  fs (snd (makedirs h name s))
  = fs (snd (makedirs_levels h (ancestors name) s)).
Proof.
  unfold makedirs, bind.
  destruct (makedirs_levels h (ancestors name) s) as [[[] | e' |] s1];
    [| done | done].
  unfold mkdir. cbn [snd].
  destruct (fs s1 !! name); [done |].
  destruct (parent_error (fs s1) name); [done |].
  by destruct (io_fault h (OpMkdir name)).
Qed.

(** X19: Nothing catches an error of [os.makedirs]: when both inputs
    exist, the directory of the output is missing and [os.makedirs]
    raises for it, the exception leaves [main] of both tools before any
    builder runs, and no child process was started.  The files after the
    run are those [os.makedirs] left: it creates the missing directories
    level by level, so the directories above the directory of the output
    that it created before the error stay; every other path is as it
    was, and the directory of the output itself was not created. *)
Theorem output_dir_error_escapes h a k b o verbose s e :
  is_Some (fs s !! k) ->
  is_Some (fs s !! b) ->
  dirname o <> "" ->
  fs s !! dirname o = None ->
  fst (makedirs h (dirname o) s) = Raise e ->
  let made := fs (snd (makedirs h (dirname o) s)) in
  (fst (image_main h (ImageArgs a k b o verbose) s) = Raise e
   /\ fs (snd (image_main h (ImageArgs a k b o verbose) s)) = made
   /\ calls (snd (image_main h (ImageArgs a k b o verbose) s)) = calls s)
  /\ (fst (iso_main h (IsoArgs k b o verbose) s) = Raise e
      /\ fs (snd (iso_main h (IsoArgs k b o verbose) s)) = made
      /\ calls (snd (iso_main h (IsoArgs k b o verbose) s)) = calls s)
  /\ (forall p,
        made !! p = fs s !! p
        \/ (p ∈ ancestors (dirname o)
            /\ fs s !! p = None /\ made !! p = Some Dir))
  /\ made !! dirname o = None.
Proof.
  intros Hk Hb Hd Ed Em made.
  pose proof (keeps_entries_makedirs h (dirname o) s) as [_ Hc].
  assert (forall p,
            made !! p = fs s !! p
            \/ (p ∈ ancestors (dirname o)
                /\ fs s !! p = None /\ made !! p = Some Dir)) as Hmade.
  { subst made. rewrite (makedirs_raises h _ s e Em).
    by apply (only_new_dirs_makedirs_levels h (ancestors (dirname o))). }
  assert (make_output_dir h o s = (Raise e, snd (makedirs h (dirname o) s)))
    as Eo.
  { unfold make_output_dir. cbv zeta.
    rewrite bool_decide_eq_false_2 by done.
    unfold bind at 1, path_exists at 1. cbv beta iota.
    rewrite bool_decide_eq_false_2 by (rewrite Ed; by intros [? ?]).
    cbn [negb]. cbv beta iota.
    destruct (makedirs h (dirname o) s) as [r s1]. cbn [fst snd] in *.
    by subst r. }
  split; [| split; [| split; [exact Hmade |]]].
  - destruct (agree_log_image_main h a k b o verbose s s eq_refl eq_refl)
      as (E1 & F1 & C1).
    rewrite E1, F1, C1. clear E1 F1 C1.
    cut (image_main h (ImageArgs arm64 k b o false) s
         = (Raise e, snd (makedirs h (dirname o) s))).
    { intros E. by rewrite E. }
    unfold image_main.
    cbn [ia_kernel ia_bootloader ia_output ia_verbose ia_arch].
    unfold bind at 1, ret at 1. cbv beta iota.
    unfold bind at 1.
    rewrite (validate_inputs_ok _ s) by (repeat constructor; done).
    cbv beta iota. by run_with Eo.
  - destruct (agree_log_iso_main h k b o verbose s s eq_refl eq_refl)
      as (E1 & F1 & C1).
    rewrite E1, F1, C1. clear E1 F1 C1.
    cut (iso_main h (IsoArgs k b o false) s
         = (Raise e, snd (makedirs h (dirname o) s))).
    { intros E. by rewrite E. }
    unfold iso_main.
    cbn [iso_kernel iso_bootloader iso_output iso_verbose].
    unfold bind at 1, ret at 1. cbv beta iota.
    unfold bind at 1.
    rewrite (validate_inputs_ok _ s) by (repeat constructor; done).
    cbv beta iota. by run_with Eo.
  - destruct (Hmade (dirname o)) as [E | (Hin & _)]; [by rewrite E |].
    apply ancestors_length in Hin. lia.
Qed.

Lemma output_dir_error_escapes_witness :
  fst (image_main bare_host
         (ImageArgs arm64 "kernel.elf" "boot.bin"
            "kernel.elf/out/minios.img" false)
         (inputs [x7f] [xeb]))
  = Raise (NotADirectoryError "kernel.elf/out").
Proof.
  destruct (output_dir_error_escapes bare_host arm64 "kernel.elf" "boot.bin"
              "kernel.elf/out/minios.img" false (inputs [x7f] [xeb])
              (NotADirectoryError "kernel.elf/out")) as ((H & _) & _).
  - vm_compute. eauto.
  - vm_compute. eauto.
  - vm_compute. discriminate.
  - reflexivity.
  - reflexivity.
  - exact H.
Defined.
